(** * Job forecaster: the forecasting core of [backend/forecasting.py] and
      [backend/forecast_models.py]

    A shallow embedding of the forecasting pipeline and the properties its
    specification states about it.

    Conventions of the embedding.
    - Python [int] is [Z]; SQL [COUNT] results and lengths are [nat].  The
      entries of an integer Series are numpy [int64] scalars: arithmetic
      between two of them wraps around ([pd.int64]).
    - Python/numpy [float] is modelled by exact rationals [Q]: rounding error,
      NaN produced by arithmetic and infinities are outside the model, so a
      statement about a float result is made up to the rounding of binary64
      (an order, a range, a distance) or under bounds within which the
      arithmetic of the code is exact.  A missing cell of a pandas frame
      (NaN) is [None].
    - A Python exception is the [Raise] case of [result]; [try/except] is
      [try_except].
    - Third-party code (Prophet, XGBoost, scikit-learn metrics, the calendar,
      the random generator, square roots) is not part of the repository: it
      is a field of the class [Runtime], so every theorem holds for every
      behaviour of those libraries, except [np.polyfit], which is given by
      the normal equations of the least-squares line. *)

From Stdlib Require Import ZArith QArith Qround Qminmax String DecimalString Bool Arith Lia Lqa List.
From Stdlib Require Import Permutation Sorted.
Import ListNotations.

Local Open Scope Z_scope.

(* ------------------------------------------------------------------ *)
(** * Python values, exceptions, numeric built-ins *)
(* ------------------------------------------------------------------ *)

Module Py.

Inductive exn : Type :=
| IndexError
| TypeError
| ValueError
| NameError
| LinAlgError
| LibraryError (msg : string).

Inductive result (A : Type) : Type :=
| Ok (a : A)
| Raise (e : exn).
Arguments Ok {A} a.
Arguments Raise {A} e.

Definition bind {A B} (c : result A) (k : A -> result B) : result B :=
  match c with
  | Ok a => k a
  | Raise e => Raise e
  end.

(** [try: c  except Exception as e: h e] *)
Definition try_except {A} (c : result A) (h : exn -> result A) : result A :=
  match c with
  | Ok a => Ok a
  | Raise e => h e
  end.

(** [int(x)] on a float: truncation toward zero. *)
Definition int (q : Q) : Z := Z.quot (Qnum q) (Zpos (Qden q)).

(** Rounding to the nearest integer, ties to even, as [round] does. *)
Definition round_half_even (q : Q) : Z :=
  let f := Qfloor q in
  match Qcompare (q - inject_Z f) (1 # 2) with
  | Lt => f
  | Gt => f + 1
  | Eq => if Z.even f then f else f + 1
  end.

(** [round(x, ndigits)] *)
Definition round (q : Q) (ndigits : nat) : Q :=
  let scale := inject_Z (10 ^ Z.of_nat ndigits) in
  (inject_Z (round_half_even (q * scale)) / scale)%Q.

(** [seq[i]] for [i >= 0], raising [IndexError] out of range. *)
Definition getitem {A} (l : list A) (i : nat) : result A :=
  match nth_error l i with
  | Some a => Ok a
  | None => Raise IndexError
  end.

(** [l[-k]] for [k >= 1] ([series.iloc[-k]]). *)
Definition getitem_neg {A} (l : list A) (k : nat) : result A :=
  if (Nat.ltb (length l) k || Nat.eqb k 0)%bool then Raise IndexError
  else getitem l (length l - k).

(** [l[-k:]] *)
Definition slice_last {A} (k : nat) (l : list A) : list A :=
  skipn (length l - k) l.

(** [sum(l)] *)
Definition sum (l : list Z) : Z := fold_right Z.add 0 l.

Definition is_some {A} (o : option A) : bool :=
  match o with Some _ => true | None => false end.

(** A list comprehension whose element expression may raise. *)
Fixpoint comprehension {A B} (f : A -> result B) (l : list A) : result (list B) :=
  match l with
  | [] => Ok []
  | a :: rest =>
      bind (f a) (fun b => bind (comprehension f rest) (fun bs => Ok (b :: bs)))
  end.

(** [sorted(l, key=key, reverse=True)]: descending, and stable, so entries
    with equal keys keep their order. *)
Fixpoint insert_desc {A} (key : A -> Q) (x : A) (l : list A) : list A :=
  match l with
  | [] => [x]
  | y :: rest =>
      if Qle_bool (key y) (key x) then x :: l else y :: insert_desc key x rest
  end.

Definition sorted_desc {A} (key : A -> Q) (l : list A) : list A :=
  fold_right (insert_desc key) [] l.

(** [enumerate(l)] *)
Definition enumerate {A} (l : list A) : list (nat * A) :=
  combine (seq 0 (length l)) l.

(** [range(n)] and [range(1, n + 1)] *)
Definition range (n : nat) : list nat := seq 0 n.
Definition range1 (n : nat) : list nat := seq 1 n.

End Py.

Import Py.

Declare Scope py_scope.
Delimit Scope py_scope with py.
Notation "x <- c ;; k" := (Py.bind c (fun x => k))
  (at level 61, c at next level, right associativity) : py_scope.
Notation "' pat <- c ;; k" := (Py.bind c (fun x => match x with pat => k end))
  (at level 61, pat pattern, c at next level, right associativity) : py_scope.

Local Open Scope py_scope.

(* ------------------------------------------------------------------ *)
(** * The part of pandas the code uses *)
(* ------------------------------------------------------------------ *)

Module pd.

(** A cell of a float column; [None] is NaN. *)
Definition Cell : Type := option Q.
Definition Column : Type := list Cell.

(** A frame: row labels and the columns in insertion order. *)
Record DataFrame : Type := mkFrame {
  index : list nat;
  columns : list (string * Column)
}.

Definition len (df : DataFrame) : nat := length (index df).

Definition names (df : DataFrame) : list string := map fst (columns df).

(** The value of an [int64] scalar after an arithmetic operation whose exact
    result is [z]: two's complement wrap-around on 64 bits. *)
Definition int64 (z : Z) : Z :=
  (z + 9223372036854775808) mod 18446744073709551616 - 9223372036854775808.

(** [pd.DataFrame({name: series})] for a series of integers. *)
Definition of_series (name : string) (series : list Z) : DataFrame :=
  {| index := seq 0 (length series);
     columns := [(name, map (fun v => Some (inject_Z v)) series)] |}.

(** [df[name]] *)
Fixpoint lookup (name : string) (cols : list (string * Column)) : option Column :=
  match cols with
  | [] => None
  | (n, c) :: rest => if String.eqb n name then Some c else lookup name rest
  end.

Definition col (df : DataFrame) (name : string) : Column :=
  match lookup name (columns df) with
  | Some c => c
  | None => []
  end.

(** [df[name] = c]: replaces the column in place or appends it. *)
Fixpoint set_column (name : string) (c : Column) (cols : list (string * Column))
  : list (string * Column) :=
  match cols with
  | [] => [(name, c)]
  | (n, c0) :: rest =>
      if String.eqb n name then (n, c) :: rest
      else (n, c0) :: set_column name c rest
  end.

Definition assign (df : DataFrame) (name : string) (c : Column) : DataFrame :=
  {| index := index df; columns := set_column name c (columns df) |}.

(** [df[name] = scalar]: the scalar is broadcast over the rows. *)
Definition assign_scalar (df : DataFrame) (name : string) (v : Q) : DataFrame :=
  assign df name (repeat (Some v) (len df)).

(** [s.shift(k)]: position [i] receives the value of position [i - k]. *)
Definition shift (k : nat) (c : Column) : Column :=
  map (fun i => if (i <? k)%nat then None else nth (i - k) c None)
      (seq 0 (length c)).

Definition sub_cell (a b : Cell) : Cell :=
  match a, b with
  | Some x, Some y => Some (x - y)%Q
  | _, _ => None
  end.

(** [s.diff(k)] is [s - s.shift(k)]. *)
Definition diff (k : nat) (c : Column) : Column :=
  map (fun ab => sub_cell (fst ab) (snd ab)) (combine c (shift k c)).

Fixpoint all_defined (cs : list Cell) : option (list Q) :=
  match cs with
  | [] => Some []
  | None :: _ => None
  | Some x :: rest => option_map (cons x) (all_defined rest)
  end.

(** The trailing window of width [w] that ends at position [i]. *)
Definition window (w i : nat) (c : Column) : list Cell :=
  firstn w (skipn (i + 1 - w) c).

(** [s.rolling(w).agg()]: undefined until [w] observations are present. *)
Definition rolling (w : nat) (agg : list Q -> Q) (c : Column) : Column :=
  map (fun i => if (i + 1 <? w)%nat then None
                else option_map agg (all_defined (window w i c)))
      (seq 0 (length c)).

Definition qsum (l : list Q) : Q := fold_right Qplus 0%Q l.

Definition mean (l : list Q) : Q :=
  (qsum l / inject_Z (Z.of_nat (length l)))%Q.

(** Sample variance ([ddof = 1]); [std] is its square root. *)
Definition var (l : list Q) : Q :=
  let m := mean l in
  (qsum (map (fun x => (x - m) * (x - m)) l)
     / inject_Z (Z.of_nat (length l) - 1))%Q.

Definition std (sqrt : Q -> Q) (l : list Q) : Q := sqrt (var l).

(** Row selection by position. *)
Definition take_rows (df : DataFrame) (sel : forall A : Type, list A -> list A)
  : DataFrame :=
  {| index := sel nat (index df);
     columns := map (fun nc => (fst nc, sel Cell (snd nc))) (columns df) |}.

(** [df[:n]], [df[n:]], [df.iloc[-k:]] *)
Definition head_rows (n : nat) (df : DataFrame) : DataFrame :=
  take_rows df (fun A => @firstn A n).
Definition tail_rows (n : nat) (df : DataFrame) : DataFrame :=
  take_rows df (fun A => @skipn A n).
Definition iloc_last (k : nat) (df : DataFrame) : DataFrame :=
  take_rows df (fun A => @Py.slice_last A k).

(** [df.dropna()]: a row stays iff every one of its cells is defined. *)
Definition row_complete (df : DataFrame) (i : nat) : bool :=
  forallb (fun nc => Py.is_some (nth i (snd nc) None)) (columns df).

Definition pick {A} (d : A) (l : list A) (positions : list nat) : list A :=
  map (fun i => nth i l d) positions.

Definition dropna (df : DataFrame) : DataFrame :=
  let keep := filter (row_complete df) (seq 0 (len df)) in
  {| index := pick 0%nat (index df) keep;
     columns := map (fun nc => (fst nc, pick None (snd nc) keep)) (columns df) |}.

(** [df.drop(name, axis=1)] *)
Definition drop (df : DataFrame) (name : string) : DataFrame :=
  {| index := index df;
     columns := filter (fun nc => negb (String.eqb (fst nc) name)) (columns df) |}.

(** [df.shift(k)]: every column moves down by [k] rows; the labels stay. *)
Definition shift_frame (k : nat) (df : DataFrame) : DataFrame :=
  {| index := index df;
     columns := map (fun nc => (fst nc, shift k (snd nc))) (columns df) |}.

(** [s.tail(n)] *)
Definition tail {A} (n : nat) (l : list A) : list A := Py.slice_last n l.

End pd.

(* ------------------------------------------------------------------ *)
(** * Third-party libraries and the process environment *)
(* ------------------------------------------------------------------ *)

(** Arguments of the [Prophet(...)] constructor. *)
Record ProphetConfig : Type := {
  yearly_seasonality : bool;
  weekly_seasonality : bool;
  daily_seasonality : bool;
  interval_width : option Q;
  changepoint_prior_scale : option Q
}.

(** A row of the frame [model.predict] returns. *)
Record ProphetRow (T : Type) : Type := {
  ds : T;
  yhat : Q;
  yhat_lower : Q;
  yhat_upper : Q
}.
Arguments ds {T} _.
Arguments yhat {T} _.
Arguments yhat_lower {T} _.
Arguments yhat_upper {T} _.

(** The [prophet] package: fitting, and the forecast frame by row position.
    [history_dates m] is the number of history rows that
    [make_future_dataframe] puts before the future ones. *)
Record ProphetModule (T M : Type) : Type := {
  Prophet_fit : ProphetConfig -> list (T * Q) -> Py.result M;
  history_dates : M -> nat;
  Prophet_predict : M -> nat -> Py.result (nat -> ProphetRow T)
}.
Arguments Prophet_fit {T M} _ _ _.
Arguments history_dates {T M} _ _.
Arguments Prophet_predict {T M} _ _ _.

(** Arguments of [XGBRegressor(...)]. *)
Record XGBParams : Type := {
  n_estimators : Z;
  max_depth : Z;
  learning_rate : Q;
  subsample : Q;
  random_state : Z;
  early_stopping_rounds : Z
}.

(** The [xgboost] package: [fit] with an evaluation set, [predict] on a
    frame, and the importances of the fitted model. *)
Record XGBoostModule (B : Type) : Type := {
  XGBRegressor_fit :
    XGBParams -> pd.DataFrame -> pd.Column -> pd.DataFrame -> pd.Column -> Py.result B;
  predict : B -> pd.DataFrame -> Py.result (list Q);
  feature_importances_ : B -> list Q
}.
Arguments XGBRegressor_fit {B} _ _ _ _ _ _.
Arguments predict {B} _ _ _.
Arguments feature_importances_ {B} _ _.

Class Runtime : Type := {
(** datetime / pandas timestamps *)
Timestamp : Type;
datetime_now : Timestamp;
to_datetime : string -> Timestamp;
strftime_Ym : Timestamp -> string;
add_days : Timestamp -> Z -> Timestamp;
add_months : Timestamp -> Z -> Timestamp;
Timestamp_leb : Timestamp -> Timestamp -> bool;
(** [pd.date_range(end=pd.Timestamp.today(), periods=n, freq='MS')] *)
date_range_MS : nat -> list Timestamp;
(** numpy *)
np_sqrt : Q -> Q;
(** the [i]-th value [np.random.uniform(0.8, 1.2)] yields in the call *)
np_random_uniform : nat -> Q;
(** [from prophet import Prophet]; [None] when the import fails *)
FittedProphet : Type;
prophet : option (ProphetModule Timestamp FittedProphet);
(** [import xgboost as xgb]; [None] when the import fails *)
Booster : Type;
xgb : option (XGBoostModule Booster);
(** [sklearn.metrics] *)
mean_absolute_error : pd.Column -> list Q -> Py.result Q;
r2_score : pd.Column -> list Q -> Py.result Q;
(** whether [from forecast_models import ...] succeeded *)
ML_MODELS_AVAILABLE : bool
}.

(* ------------------------------------------------------------------ *)
(** * forecast_models.py *)
(* ------------------------------------------------------------------ *)

Module forecast_models.

Module ProphetForecaster.
Section WithRuntime.
Context {R : Runtime}.

Record Result : Type := {
  predictions : list Q;
  forecast_values : list Q;
  upper : list Q;
  lower : list Q;
  model : FittedProphet
}.

(** What [fit_forecast] may be handed as [data]. *)
Inductive Data : Type :=
| Series (values : list Z)
| Frame (ds_y : option (list (Timestamp * Q)))
| Other.

Definition config : ProphetConfig :=
  {| yearly_seasonality := true;
     weekly_seasonality := false;
     daily_seasonality := false;
     interval_width := Some (95 # 100);
     changepoint_prior_scale := None |}.

(** The body of the [try] block once [df] is built. *)
Definition fit_predict (P : ProphetModule Timestamp FittedProphet)
    (df : list (Timestamp * Q)) (periods : nat) : Py.result Result :=
  m <- Prophet_fit P config df ;;
  row <- Prophet_predict P m periods ;;
  let forecast := map row (Py.range (history_dates P m + periods)) in
  let predictions := pd.tail periods (map yhat forecast) in
  Py.Ok {| predictions := predictions;
           forecast_values := predictions;
           upper := pd.tail periods (map yhat_upper forecast);
           lower := pd.tail periods (map yhat_lower forecast);
           model := m |}.

Definition fit_forecast (data : Data) (periods : nat) : option Result :=
  match prophet with
  | None => None
  | Some P =>
      let body :=
        match data with
        | Series values =>
            let dates := date_range_MS (length values) in
            r <- fit_predict P (combine dates (map inject_Z values)) periods ;;
            Py.Ok (Some r)
        | Frame None => Py.Ok None
        | Frame (Some df) =>
            r <- fit_predict P df periods ;; Py.Ok (Some r)
        | Other => Py.Ok None
        end in
      match body with
      | Py.Ok r => r
      | Py.Raise _ => None
      end
  end.

End WithRuntime.
End ProphetForecaster.

Module XGBoostForecaster.
Section WithRuntime.
Context {R : Runtime}.

Record Result : Type := {
  predictions : list Z;
  forecast : list Z;
  mae : Q;
  r2 : Q;
  model : Booster;
  feature_importance : list (string * Q)
}.

Definition default_lags : list nat := [1; 3; 6; 12]%nat.

(** [f'lag_{lag}'] *)
Definition lag_name (lag : nat) : string :=
  "lag_" ++ NilZero.string_of_uint (Nat.to_uint lag).

(** [for lag in lags: df[f'lag_{lag}'] = df['value'].shift(lag)] *)
Definition add_lags (lags : list nat) (df : pd.DataFrame) : pd.DataFrame :=
  fold_left
    (fun df lag => pd.assign df (lag_name lag) (pd.shift lag (pd.col df "value")))
    lags df.

(** The frame of [create_features] just before [df.dropna()]. *)
Definition features_with_gaps (series : list Z) (lags : list nat) : pd.DataFrame :=
  let df := pd.of_series "value" series in
  let df := add_lags lags df in
  let value := pd.col df "value" in
  let df := pd.assign df "rolling_mean_3" (pd.rolling 3 pd.mean value) in
  let df := pd.assign df "rolling_std_3" (pd.rolling 3 (pd.std np_sqrt) value) in
  let df := pd.assign df "rolling_mean_6" (pd.rolling 6 pd.mean value) in
  let df := pd.assign df "momentum_3" (pd.diff 3 value) in
  let df := pd.assign df "momentum_6" (pd.diff 6 value) in
  df.

Definition create_features_lags (series : list Z) (lags : list nat) : pd.DataFrame :=
  pd.dropna (features_with_gaps series lags).

Definition create_features (series : list Z) : pd.DataFrame :=
  create_features_lags series default_lags.

Definition params : XGBParams :=
  {| n_estimators := 100;
     max_depth := 5;
     learning_rate := 1 # 10;
     subsample := 8 # 10;
     random_state := 42;
     early_stopping_rounds := 10 |}.

(** The update at the end of an iteration of the forecast loop:
    [last_features = last_features.shift(1); last_features['lag_1'] = pred] *)
Definition update_features (last_features : pd.DataFrame) (pred : Q) : pd.DataFrame :=
  pd.assign_scalar (pd.shift_frame 1 last_features) "lag_1" pred.

(** [for i in range(periods): ...]; returns [forecasts]. *)
Fixpoint forecast_loop (X : XGBoostModule Booster) (m : Booster)
    (periods : nat) (last_features : pd.DataFrame) : Py.result (list Q) :=
  match periods with
  | O => Py.Ok []
  | S periods' =>
      preds <- predict X m last_features ;;
      pred <- Py.getitem preds 0 ;;
      rest <- forecast_loop X m periods' (update_features last_features pred) ;;
      Py.Ok (pred :: rest)
  end.

(** The frames [model.predict] is called on, one per iteration. *)
Fixpoint feature_rows (X : XGBoostModule Booster) (m : Booster)
    (periods : nat) (last_features : pd.DataFrame) : list pd.DataFrame :=
  match periods with
  | O => []
  | S periods' =>
      last_features ::
      match (preds <- predict X m last_features ;; Py.getitem preds 0) with
      | Py.Ok pred => feature_rows X m periods' (update_features last_features pred)
      | Py.Raise _ => []
      end
  end.

Definition fit_forecast_body (X : XGBoostModule Booster) (series : list Z)
    (periods : nat) (test_size : Q) : Py.result Result :=
  let df := create_features series in
  let Xf := pd.drop df "value" in
  let y := pd.col df "value" in
  let split := Z.to_nat (Py.int (inject_Z (Z.of_nat (pd.len df)) * (1 - test_size))) in
  let X_train := pd.head_rows split Xf in
  let X_test := pd.tail_rows split Xf in
  let y_train := firstn split y in
  let y_test := skipn split y in
  m <- XGBRegressor_fit X params X_train y_train X_test y_test ;;
  y_pred <- predict X m X_test ;;
  mae <- mean_absolute_error y_test y_pred ;;
  r2 <- r2_score y_test y_pred ;;
  let last_features := pd.iloc_last 1 Xf in
  forecasts <- forecast_loop X m periods last_features ;;
  Py.Ok {| predictions := map (fun f => Z.max 0 (Py.int f)) forecasts;
           forecast := map (fun f => Z.max 0 (Py.int f)) forecasts;
           mae := mae;
           r2 := r2;
           model := m;
           feature_importance :=
             combine (pd.names Xf) (feature_importances_ X m) |}.

Definition fit_forecast (series : list Z) (periods : nat) (test_size : Q)
  : option Result :=
  match xgb with
  | None => None
  | Some X =>
      match fit_forecast_body X series periods test_size with
      | Py.Ok r => Some r
      | Py.Raise _ => None
      end
  end.

(** The names [get_feature_importance] pairs the importances with. *)
Definition importance_names : list string :=
  [ "lag_1"; "lag_3"; "lag_6"; "lag_12"; "rolling_mean_3";
    "rolling_std_3"; "momentum_3"; "momentum_6" ]%string.

(** [get_feature_importance]; the argument is [model.feature_importances_],
    [None] when the model has no such attribute. *)
Definition get_feature_importance (feature_importances : option (list Q))
  : list (string * Q) :=
  match feature_importances with
  | None => []
  | Some importances =>
      let importance := combine importance_names importances in
      Py.sorted_desc snd importance
  end.

End WithRuntime.
End XGBoostForecaster.

Module EnsembleForecaster.
Section WithRuntime.
Context {R : Runtime}.

(** The instance attributes set by [__init__]. *)
Record t : Type := {
  prophet_weight : Q;
  xgboost_weight : Q
}.

Definition __init__ : t := {| prophet_weight := 4 # 10; xgboost_weight := 6 # 10 |}.

Record Result : Type := {
  predictions : list Q;
  forecast : list Q;
  prophet_result : option ProphetForecaster.Result;
  xgboost_result : option XGBoostForecaster.Result;
  method : string
}.

(** The [else] branch: simple trend over the last observations.  The two
    entries are [int64] scalars, so their difference wraps around before it
    is halved. *)
Definition fallback_trend (series : list Z) (periods : nat) : Py.result (list Q) :=
  trend <- (if (3 <=? length series)%nat
            then a <- Py.getitem_neg series 1 ;;
                 b <- Py.getitem_neg series 3 ;;
                 Py.Ok ((inject_Z (pd.int64 (a - b))) / 2)%Q
            else Py.Ok 0%Q) ;;
  Py.comprehension
    (fun i => last <- Py.getitem_neg series 1 ;;
              Py.Ok (inject_Z
                (Z.max 0 (Py.int (inject_Z last + trend * inject_Z (Z.of_nat i + 1))%Q))))
    (Py.range periods).

(** [fit_forecast].  The weighted sum of the first branch is exact here; in
    binary64 it can fall just below an integer that the exact sum reaches
    (0.4 * 1.0 + 0.6 * 6), so the theorems bound a blended value rather than
    compute it. *)
Definition fit_forecast (self : t) (series : list Z) (periods : nat)
  : Py.result Result :=
  let prophet_result :=
    Py.try_except
      (Py.Ok (ProphetForecaster.fit_forecast (ProphetForecaster.Series series) periods))
      (fun _ => Py.Ok None) in
  let xgboost_result :=
    Py.try_except
      (Py.Ok (XGBoostForecaster.fit_forecast series periods (2 # 10)))
      (fun _ => Py.Ok None) in
  prophet_result <- prophet_result ;;
  xgboost_result <- xgboost_result ;;
  forecast <-
    match prophet_result, xgboost_result with
    | Some p, Some x =>
        Py.Ok (map (fun px =>
                 inject_Z (Py.int (prophet_weight self * fst px
                                   + xgboost_weight self * inject_Z (snd px))%Q))
               (combine (ProphetForecaster.predictions p)
                        (XGBoostForecaster.predictions x)))
    | None, Some x => Py.Ok (map inject_Z (XGBoostForecaster.predictions x))
    | Some p, None => Py.Ok (ProphetForecaster.predictions p)
    | None, None => fallback_trend series periods
    end ;;
  Py.Ok {| predictions := forecast;
           forecast := forecast;
           prophet_result := prophet_result;
           xgboost_result := xgboost_result;
           method := "ensemble" |}.

End WithRuntime.
End EnsembleForecaster.

(** [format(value, spec)] on a float, as the f-strings of the explainer use
    it. *)
Class FloatFormat : Type := {
  format_float : string -> Q -> string
}.

Module ForecastExplainer.
Section WithRuntime.
Context {R : Runtime} {F : FloatFormat}.

(** The four trends the explainer tells apart. *)
Inductive Trend : Type :=
| StrongUptrend
| ModerateGrowth
| Stable
| Declining.

Definition classify (change_pct : Q) : Trend :=
  if Qlt_le_dec 20 change_pct then StrongUptrend
  else if Qlt_le_dec 5 change_pct then ModerateGrowth
  else if Qlt_le_dec (-5) change_pct then Stable
  else Declining.

Definition trend_desc (t : Trend) : string :=
  match t with
  | StrongUptrend => "🚀 Strong Uptrend - High demand expected"
  | ModerateGrowth => "📈 Moderate Growth - Steady demand"
  | Stable => "➡️ Stable - Steady demand"
  | Declining => "📉 Declining - Lower demand"
  end.

Definition trend_icon_of (t : Trend) : string :=
  match t with
  | StrongUptrend => "📈"
  | ModerateGrowth => "📊"
  | Stable => "➡️"
  | Declining => "📉"
  end.

Definition recommend (change_pct : Q) : string :=
  if Qlt_le_dec 15 change_pct then "Monitor this skill" else "Stable".

Record Explanation : Type := {
  item : string;
  current_value : Z;
  forecast_next_period : Q;
  change_percent : string;
  trend : string;
  trend_icon : string;
  top_factors : list string;
  confidence : Q;
  recommendation : string
}.

(** [forecast['forecast'][0] if forecast['forecast'] else recent_value] *)
Definition next_value (forecast : EnsembleForecaster.Result) (recent_value : Z) : Q :=
  match EnsembleForecaster.forecast forecast with
  | v :: _ => v
  | [] => inject_Z recent_value
  end.

(** [change_pct] *)
Definition change_of (forecast_value : Q) (recent_value : Z) : Q :=
  if 0 <? recent_value
  then ((forecast_value - inject_Z recent_value) / inject_Z recent_value * 100)%Q
  else 0%Q.

(** [generate_explanation] on the dictionary [EnsembleForecaster.fit_forecast]
    returns; that dictionary has no ['r2'] key, so [confidence] is the
    default of [forecast.get('r2', 0.75)]. *)
Definition generate_explanation (forecast : EnsembleForecaster.Result)
    (series : list Z) (item_name : string) : Py.result Explanation :=
  recent_value <- Py.getitem_neg series 1 ;;
  let forecast_value := next_value forecast recent_value in
  let change := change_of forecast_value recent_value in
  let factors :=
    match EnsembleForecaster.xgboost_result forecast with
    | Some x =>
        let importance := XGBoostForecaster.feature_importance x in
        let top_factors := firstn 3 (Py.sorted_desc snd importance) in
        map (fun ni => (fst ni ++ ": " ++ format_float ".1%" (snd ni))%string) top_factors
    | None => []
    end in
  Py.Ok {| item := item_name;
           current_value := recent_value;
           forecast_next_period := forecast_value;
           change_percent := (format_float "+.1f" change ++ "%")%string;
           trend := trend_desc (classify change);
           trend_icon := trend_icon_of (classify change);
           top_factors := factors;
           confidence := 75 # 100;
           recommendation := recommend change |}.

End WithRuntime.
End ForecastExplainer.

End forecast_models.

(* ------------------------------------------------------------------ *)
(** * numpy: the degree-1 least-squares fit *)
(* ------------------------------------------------------------------ *)

Module np.

(** [np.arange(n)] *)
Definition arange (n : nat) : list Z := map Z.of_nat (seq 0 n).

Definition dot (a b : list Z) : Z :=
  Py.sum (map (fun ab => fst ab * snd ab) (combine a b)).

(** [np.polyfit(x, y, 1)]: the line minimising the squared error, from the
    normal equations.  numpy rejects an empty [x] and arrays of different
    length with [TypeError]; when the design matrix is rank deficient (a
    single abscissa) its scaled least-squares problem is ill defined, which
    is the [LinAlgError] case here.  Returns (slope, intercept).  numpy
    solves the same problem in binary64, so its coefficients are these up to
    rounding and the truncation of a fitted value can differ by one unit:
    the theorems use where the fit is defined, not its digits. *)
Definition polyfit1 (x y : list Z) : Py.result (Q * Q) :=
  let n := Z.of_nat (length x) in
  if (length x =? 0)%nat then Py.Raise Py.TypeError
  else if negb (length x =? length y)%nat then Py.Raise Py.TypeError
  else
    let sx := Py.sum x in
    let sy := Py.sum y in
    let sxx := dot x x in
    let sxy := dot x y in
    let den := n * sxx - sx * sx in
    if den =? 0 then Py.Raise Py.LinAlgError
    else
      let slope := (inject_Z (n * sxy - sx * sy) / inject_Z den)%Q in
      let intercept := ((inject_Z sy - slope * inject_Z sx) / inject_Z n)%Q in
      Py.Ok (slope, intercept).

(** [np.poly1d(z)(t)] for a degree-1 [z] *)
Definition poly1d (z : Q * Q) (t : Q) : Q := (fst z * t + snd z)%Q.

(** [np.mean] *)
Definition mean (l : list Q) : Q := pd.mean l.




(** [np.std] with its default [ddof = 0], over a square root [sqrt]. *)
Definition std (sqrt : Q -> Q) (l : list Q) : Q :=
  let m := mean l in
  sqrt (pd.qsum (map (fun x => (x - m) * (x - m)) l)
        / inject_Z (Z.of_nat (length l)))%Q.

End np.

(* ------------------------------------------------------------------ *)
(** * forecasting.py *)
(* ------------------------------------------------------------------ *)

Module forecasting.

(** The queries [JobForecaster] sends through its SQLAlchemy session. *)
Record Session : Type := {
(** [query(func.count(JobSkill.id)).join(Skill).filter(name).scalar()] *)
count_job_skills : string -> option nat;
(** average [med_salary] over the jobs of a skill *)
avg_skill_salary : string -> option Q;
(** average [med_salary] over all salaries *)
avg_overall_salary : option Q;
(** first row of the per-skill counts in descending order *)
max_jobs_per_skill : option nat
}.

(** An entry of the historical list. *)
Record HistoryPoint : Type := {
  month : string;
  count : Z
}.

(** A row of the frame built from it, with the parsed [date]. *)
Record Row (T : Type) : Type := {
  row_month : string;
  row_count : Z;
  date : T
}.
Arguments row_month {T} _.
Arguments row_count {T} _.
Arguments date {T} _.

Record ForecastPoint : Type := {
  point_month : string;
  predicted_count : Z;
  lower_bound : Z;
  upper_bound : Z
}.

(** The two dictionaries [forecast_skill_demand] returns. *)
Inductive Response : Type :=
| InsufficientData (skill error : string) (min_required actual : nat)
| Forecast (skill : string) (historical : list HistoryPoint)
           (forecast : list ForecastPoint) (method : string)
           (periods : nat) (confidence : Q).

(** The branch of [forecast_skill_demand] a call takes. *)
Inductive Branch : Type :=
| TooShort             (* len(historical) < 3 *)
| EnsembleBranch       (* ensemble enabled, >= 6 points *)
| ShortHistoryBranch   (* ensemble enabled, 3..5 points *)
| ProphetOnlyBranch
| StatisticalBranch.

Section JobForecaster.
Context {R : Runtime}.
Variable db : Session.

Definition PROPHET_AVAILABLE : bool := Py.is_some prophet.

Definition or0 (o : option nat) : nat :=
  match o with Some n => n | None => O end.

(** [_get_skill_historical_data] *)
Definition _get_skill_historical_data (skill_name : string) (months : nat)
  : list HistoryPoint :=
  let total_count := or0 (count_job_skills db skill_name) in
  if (total_count =? 0)%nat then []
  else
    let base_date := add_days datetime_now (- (30 * Z.of_nat months)) in
    map (fun i =>
           let month_date := add_days base_date (30 * Z.of_nat i) in
           let variation := np_random_uniform i in
           let count :=
             Py.int ((inject_Z (Z.of_nat total_count) / inject_Z (Z.of_nat months))
                     * variation)%Q in
           {| month := strftime_Ym month_date; count := count |})
        (Py.range months).

(** [df = pd.DataFrame(historical); df['date'] = pd.to_datetime(...)] *)
Definition to_frame (historical : list HistoryPoint) : list (Row Timestamp) :=
  map (fun h => {| row_month := month h;
                   row_count := count h;
                   date := to_datetime (month h ++ "-01") |})
      historical.

(** [df.sort_values('date')] *)
Fixpoint insert_by_date (r : Row Timestamp) (df : list (Row Timestamp))
  : list (Row Timestamp) :=
  match df with
  | [] => [r]
  | r' :: rest =>
      if Timestamp_leb (date r) (date r') then r :: df
      else r' :: insert_by_date r rest
  end.

Definition sort_values_date (df : list (Row Timestamp)) : list (Row Timestamp) :=
  fold_right insert_by_date [] df.

(** [df['date'].max()]; [None] is [NaT]. *)
Definition max_date (df : list (Row Timestamp)) : option Timestamp :=
  fold_right (fun r acc =>
                match acc with
                | None => Some (date r)
                | Some d => if Timestamp_leb d (date r) then Some (date r) else Some d
                end) None df.

(** A timestamp operation on [NaT] stays [NaT]; formatting it raises. *)
Definition strftime_opt (d : option Timestamp) : Py.result string :=
  match d with
  | Some d => Py.Ok (strftime_Ym d)
  | None => Py.Raise Py.ValueError
  end.

Definition counts (df : list (Row Timestamp)) : list Z := map row_count df.

(** [_simple_forecast] *)
Definition _simple_forecast (df : list (Row Timestamp)) (periods : nat)
  : Py.result (list ForecastPoint) :=
  let x := np.arange (length df) in
  let y := counts df in
  z <- np.polyfit1 x y ;;
  let p := np.poly1d z in
  let last_date := max_date df in
  Py.comprehension
    (fun i =>
       let future_date := option_map (fun d => add_days d (30 * Z.of_nat i)) last_date in
       let predicted_value :=
         Z.max 0 (Py.int (p (inject_Z (Z.of_nat (length df) + Z.of_nat i - 1)))) in
       m <- strftime_opt future_date ;;
       Py.Ok {| point_month := m;
                predicted_count := predicted_value;
                lower_bound := Py.int (inject_Z predicted_value * (8 # 10))%Q;
                upper_bound := Py.int (inject_Z predicted_value * (12 # 10))%Q |})
    (Py.range1 periods).

Definition prophet_config : ProphetConfig :=
  {| yearly_seasonality := false;
     weekly_seasonality := false;
     daily_seasonality := false;
     interval_width := None;
     changepoint_prior_scale := Some (5 # 100) |}.

(** [_prophet_forecast]; the name [Prophet] is unbound when the import
    failed. *)
Definition _prophet_forecast (df : list (Row Timestamp)) (periods : nat)
  : Py.result (list ForecastPoint) :=
  match prophet with
  | None => Py.Raise Py.NameError
  | Some P =>
      let prophet_df := map (fun r => (date r, inject_Z (row_count r))) df in
      m <- Prophet_fit P prophet_config prophet_df ;;
      row <- Prophet_predict P m periods ;;
      let forecast := map row (Py.range (history_dates P m + periods)) in
      let forecast_only := pd.tail periods forecast in
      Py.Ok (map (fun row =>
                    {| point_month := strftime_Ym (ds row);
                       predicted_count := Z.max 0 (Py.int (yhat row));
                       lower_bound := Z.max 0 (Py.int (yhat_lower row));
                       upper_bound := Z.max 0 (Py.int (yhat_upper row)) |})
                 forecast_only)
  end.

(** [_calculate_confidence] *)
Definition _calculate_confidence (df : list (Row Timestamp)) : Q :=
  if (length df <? 3)%nat then 0%Q
  else
    let ys := map inject_Z (counts df) in
    let data_confidence :=
      (Qmin 1 (inject_Z (Z.of_nat (length df)) / 12) * 100)%Q in
    let cv :=
      if Qlt_le_dec 0 (pd.mean ys)
      then (pd.std np_sqrt ys / pd.mean ys)%Q
      else 1%Q in
    let variance_confidence := (Qmax 0 (1 - cv) * 100)%Q in
    let confidence := ((data_confidence + variance_confidence) / 2)%Q in
    Py.round confidence 2.

(** [_ensemble_forecast] *)
Definition _ensemble_forecast (df : list (Row Timestamp)) (periods : nat)
  : Py.result (list ForecastPoint) :=
  let series := counts df in
  let ensemble := forecast_models.EnsembleForecaster.__init__ in
  result <- forecast_models.EnsembleForecaster.fit_forecast ensemble series periods ;;
  let last_date := max_date df in
  Py.comprehension
    (fun ip : nat * Q =>
       let (i, pred_value) := ip in
       let forecast_date := option_map (fun d => add_months d (Z.of_nat i)) last_date in
       let pct80 := inject_Z (Py.int (pred_value * (8 # 10))%Q) in
       let pct120 := inject_Z (Py.int (pred_value * (12 # 10))%Q) in
       let (lower, upper) :=
         match forecast_models.EnsembleForecaster.prophet_result result with
         | Some prophet_data =>
             (nth (i - 1) (forecast_models.ProphetForecaster.lower prophet_data) pct80,
              nth (i - 1) (forecast_models.ProphetForecaster.upper prophet_data) pct120)
         | None => (pct80, pct120)
         end in
       m <- strftime_opt forecast_date ;;
       Py.Ok {| point_month := m;
                predicted_count := Py.int pred_value;
                lower_bound := Py.int lower;
                upper_bound := Py.int upper |})
    (combine (Py.range1 (length (forecast_models.EnsembleForecaster.forecast result)))
             (forecast_models.EnsembleForecaster.forecast result)).

(** Which branch the body of [forecast_skill_demand] selects. *)
Definition select_branch (n : nat) (use_ensemble : bool) : Branch :=
  if (n <? 3)%nat then TooShort
  else if (use_ensemble && ML_MODELS_AVAILABLE)%bool then
    if (6 <=? n)%nat then EnsembleBranch else ShortHistoryBranch
  else if PROPHET_AVAILABLE then ProphetOnlyBranch
  else StatisticalBranch.

(** The body of [forecast_skill_demand] after the history is fetched. *)
Definition forecast_history (skill_name : string)
    (historical : list HistoryPoint) (periods : nat) (use_ensemble : bool)
  : Py.result Response :=
  let df := sort_values_date (to_frame historical) in
  let statistical (method : string) :=
    forecast <- _simple_forecast df periods ;;
    Py.Ok (forecast, method, 70%Q) in
  let seasonal (method : string) :=
    forecast <- _prophet_forecast df periods ;;
    Py.Ok (forecast, method, _calculate_confidence df) in
  match select_branch (length historical) use_ensemble with
  | TooShort =>
      Py.Ok (InsufficientData skill_name "Insufficient historical data"
                              3 (length historical))
  | branch =>
      ' (forecast, method, confidence) <-
        match branch with
        | EnsembleBranch =>
            Py.try_except
              (forecast <- _ensemble_forecast df periods ;;
               Py.Ok (forecast, "Ensemble (Prophet + XGBoost)"%string, 97%Q))
              (fun _ =>
                 if PROPHET_AVAILABLE
                 then seasonal "Prophet (Ensemble failed)"%string
                 else statistical "Statistical (Ensemble & Prophet failed)"%string)
        | ShortHistoryBranch =>
            if PROPHET_AVAILABLE
            then seasonal "Prophet (insufficient data for Ensemble)"%string
            else statistical "Statistical"%string
        | ProphetOnlyBranch => seasonal "Prophet"%string
        | _ => statistical "Statistical"%string
        end ;;
      Py.Ok (Forecast skill_name historical forecast method periods confidence)
  end.

(** [forecast_skill_demand] *)
Definition forecast_skill_demand (skill_name : string) (periods : nat)
    (use_ensemble : bool) : Py.result Response :=
  let historical := _get_skill_historical_data skill_name 12 in
  forecast_history skill_name historical periods use_ensemble.


(** The body of [calculate_growth_rate] after the history is fetched.  The
    percentage is exact here; the code rounds the binary64 quotient, which
    can pick the other neighbour when the percentage is an exact tie. *)
Definition growth_of_history (historical : list HistoryPoint) : Q :=
  if (length historical <? 6)%nat then 0%Q
  else
    let recent := Py.sum (map count (Py.slice_last 3 historical)) in
    let previous := Py.sum (map count (firstn 3 historical)) in
    if previous =? 0 then 100%Q
    else
      let growth := ((inject_Z (recent - previous) / inject_Z previous) * 100)%Q in
      Py.round growth 2.

(** [calculate_growth_rate] *)
Definition calculate_growth_rate (skill_name : string) : Q :=
  growth_of_history (_get_skill_historical_data skill_name 6).

(** [_calculate_salary_premium]; [not x] holds for [None] and for zero. *)
Definition falsy (o : option Q) : bool :=
  match o with
  | None => true
  | Some q => Qeq_bool q 0
  end.

Definition _calculate_salary_premium (skill_name : string) : Q :=
  match avg_skill_salary db skill_name, avg_overall_salary db with
  | Some skill_avg, Some overall_avg =>
      if (falsy (Some skill_avg) || falsy (Some overall_avg))%bool then 50%Q
      else
        let premium := (((skill_avg - overall_avg) / overall_avg) * 100)%Q in
        let normalized := (50 + premium / 2)%Q in
        Qmin 100 (Qmax 0 normalized)
  | _, _ => 50%Q
  end.

(** [_calculate_demand_score] *)
Definition _calculate_demand_score (skill_name : string) : Q :=
  let skill_jobs := or0 (count_job_skills db skill_name) in
  let max_count := match max_jobs_per_skill db with Some m => m | None => 1%nat end in
  let demand :=
    if (0 <? max_count)%nat
    then ((inject_Z (Z.of_nat skill_jobs) / inject_Z (Z.of_nat max_count)) * 100)%Q
    else 0%Q in
  Py.round demand 2.

(** The weighted sum over the normalised components, as returned. *)
Definition weighted_hotness (alpha beta gamma delta : Q)
    (volume_norm growth_norm salary_norm demand_norm : Q) : Q :=
  let hotness :=
    (alpha * volume_norm + beta * growth_norm
     + gamma * salary_norm + delta * demand_norm)%Q in
  Py.round hotness 2.

(** [calculate_hotness_score] *)
Definition calculate_hotness_score (skill_name : string)
    (alpha beta gamma delta : Q) : Q :=
  let volume := or0 (count_job_skills db skill_name) in
  let growth := calculate_growth_rate skill_name in
  let salary_premium := _calculate_salary_premium skill_name in
  let demand_score := _calculate_demand_score skill_name in
  let volume_norm := Qmin 100 ((inject_Z (Z.of_nat volume) / 100) * 100)%Q in
  let growth_norm := Qmin 100 (Qmax 0 (growth + 50))%Q in
  let salary_norm := Qmin 100 salary_premium in
  let demand_norm := Qmin 100 demand_score in
  weighted_hotness alpha beta gamma delta
                   volume_norm growth_norm salary_norm demand_norm.

(** The default weights of [calculate_hotness_score]. *)
Definition default_alpha : Q := 3 # 10.
Definition default_beta : Q := 3 # 10.
Definition default_gamma : Q := 2 # 10.
Definition default_delta : Q := 2 # 10.

End JobForecaster.

(** The queries of the listing and salary functions. *)
Record Listings : Type := {
  (** skills by number of job records, descending, first [n] *)
  top_skills : nat -> list (string * nat);
  (** skills with at least [n] job records *)
  skills_with_at_least : nat -> list (string * nat);
  (** the non-null [med_salary] values of the jobs of a skill *)
  skill_salaries : string -> list Q
}.

(** The runtime in which [np.random.uniform] yields [draws]: the values a
    later call of the history generator receives from the global
    generator. *)
Definition with_draws (R : Runtime) (draws : nat -> Q) : Runtime :=
  {| Timestamp := @Timestamp R;
     datetime_now := datetime_now;
     to_datetime := to_datetime;
     strftime_Ym := strftime_Ym;
     add_days := add_days;
     add_months := add_months;
     Timestamp_leb := Timestamp_leb;
     date_range_MS := date_range_MS;
     np_sqrt := np_sqrt;
     np_random_uniform := draws;
     FittedProphet := @FittedProphet R;
     prophet := prophet;
     Booster := @Booster R;
     xgb := xgb;
     mean_absolute_error := mean_absolute_error;
     r2_score := r2_score;
     ML_MODELS_AVAILABLE := ML_MODELS_AVAILABLE |}.

Definition is_error (r : Response) : bool :=
  match r with
  | InsufficientData _ _ _ _ => true
  | Forecast _ _ _ _ _ _ => false
  end.

Record TrendingSkill : Type := {
  trending_skill : string;
  trending_count : nat;
  growth_rate : Q;
  hotness : Q;
  trend : string
}.

Record HotSkill : Type := {
  hot_skill : string;
  hot_count : nat;
  hot_hotness : Q;
  hot_growth_rate : Q;
  rating : string
}.



(** ["HOT" if growth > 30 else "UP" if growth > 20 else "RISING"] *)
Definition trend_label (growth : Q) : string :=
  if Qlt_le_dec 30 growth then "HOT"
  else if Qlt_le_dec 20 growth then "UP"
  else "RISING".

(** ["***" if hotness > 80 else "**" if hotness > 60 else "*"] *)
Definition rating_of (hotness : Q) : string :=
  if Qlt_le_dec 80 hotness then "***"
  else if Qlt_le_dec 60 hotness then "**"
  else "*".

Section Listing.
Context {R : Runtime}.
Variable db : Session.
Variable listings : Listings.

(** [forecast_top_skills]; [rng k] are the draws of the [k]-th forecast. *)
Definition forecast_top_skills (rng : nat -> nat -> Q) (top_n periods : nat)
  : Py.result (list Response) :=
  let top_skills := top_skills listings top_n in
  forecasts <-
    Py.comprehension
      (fun ks : nat * (string * nat) =>
         forecast_skill_demand (R := with_draws R (rng (fst ks))) db
                               (fst (snd ks)) periods true)
      (Py.enumerate top_skills) ;;
  Py.Ok (filter (fun forecast => negb (is_error forecast)) forecasts).

(** [get_trending_skills]; [rng k 0] are the draws of the growth rate of the
    [k]-th skill and [rng k 1] those of its hotness score. *)
Definition get_trending_skills (rng : nat -> nat -> nat -> Q) (limit : nat)
    (min_growth : Q) : list TrendingSkill :=
  let skills := skills_with_at_least listings 10 in
  let trending :=
    flat_map
      (fun ks : nat * (string * nat) =>
         let (k, sc) := ks in
         let (skill_name, count) := sc in
         let growth := calculate_growth_rate (R := with_draws R (rng k 0%nat)) db skill_name in
         if Qle_bool min_growth growth
         then
           let hotness :=
             calculate_hotness_score (R := with_draws R (rng k 1%nat)) db skill_name
               default_alpha default_beta default_gamma default_delta in
           [ {| trending_skill := skill_name;
                trending_count := count;
                growth_rate := growth;
                hotness := hotness;
                trend := trend_label growth |} ]
         else [])
      (Py.enumerate skills) in
  firstn limit (Py.sorted_desc growth_rate trending).


(** [get_hottest_skills]; [rng k 0] are the draws of the hotness score of the
    [k]-th skill and [rng k 1] those of its growth rate. *)
Definition get_hottest_skills (rng : nat -> nat -> nat -> Q) (limit : nat)
  : list HotSkill :=
  let top_skills := top_skills listings (limit * 2) in
  let results :=
    map (fun ks : nat * (string * nat) =>
           let (k, sc) := ks in
           let (skill_name, count) := sc in
           let hotness :=
             calculate_hotness_score (R := with_draws R (rng k 0%nat)) db skill_name
               default_alpha default_beta default_gamma default_delta in
           let growth := calculate_growth_rate (R := with_draws R (rng k 1%nat)) db skill_name in
           {| hot_skill := skill_name;
              hot_count := count;
              hot_hotness := hotness;
              hot_growth_rate := growth;
              rating := rating_of hotness |})
        (Py.enumerate top_skills) in
  firstn limit (Py.sorted_desc hot_hotness results).

End Listing.
End forecasting.

(* ------------------------------------------------------------------ *)
(** * Concrete runtimes used to run the model on sample inputs *)
(* ------------------------------------------------------------------ *)

Module Fixtures.

(** A Prophet that forecasts [y] with the interval [lo, hi] everywhere;
    the fitted model remembers how many rows it saw. *)
Definition prophet_with (y lo hi : Q) : ProphetModule Z nat :=
  {| Prophet_fit := fun _ df => Py.Ok (length df);
     history_dates := fun m => m;
     Prophet_predict := fun _ _ =>
       Py.Ok (fun i => {| ds := Z.of_nat i; yhat := y;
                          yhat_lower := lo; yhat_upper := hi |}) |}.

Definition flat_prophet : ProphetModule Z nat := prophet_with 100 90 110.

(** A Prophet whose trend has gone below zero. *)
Definition negative_prophet : ProphetModule Z nat := prophet_with (-5) (-10) 0.

(** A regressor that predicts 200 for every row it is given. *)
Definition constant_xgb : XGBoostModule unit :=
  {| XGBRegressor_fit := fun _ _ _ _ _ => Py.Ok tt;
     predict := fun _ df => Py.Ok (repeat (200 : Q) (pd.len df));
     feature_importances_ := fun _ => [] |}.

(** Timestamps are month numbers and every label prints the same; the
    square root is exact on squares and rounded down otherwise. *)
Definition runtime (with_prophet : option (ProphetModule Z nat))
    (with_xgb ml : bool) : Runtime :=
  {| Timestamp := Z;
     datetime_now := 0;
     to_datetime := fun _ => 0;
     strftime_Ym := fun _ => "2024-01"%string;
     add_days := fun d n => d + n;
     add_months := fun d n => d + n;
     Timestamp_leb := Z.leb;
     date_range_MS := fun n => map Z.of_nat (seq 0 n);
     np_sqrt := fun q => Z.sqrt (Qnum q * Zpos (Qden q)) # Qden q;
     np_random_uniform := fun _ => 1%Q;
     FittedProphet := nat;
     prophet := with_prophet;
     Booster := unit;
     xgb := if with_xgb then Some constant_xgb else None;
     mean_absolute_error := fun _ _ => Py.Ok 0%Q;
     r2_score := fun _ _ => Py.Ok 1%Q;
     ML_MODELS_AVAILABLE := ml |}.

(** No optional package installed: only the statistical path is left. *)
Definition bare : Runtime := runtime None false false.

(** The ensemble module loads but neither Prophet nor XGBoost does. *)
Definition ensemble_only : Runtime := runtime None false true.

(** Everything installed. *)
Definition full : Runtime := runtime (Some flat_prophet) true true.

(** Everything installed, Prophet forecasting below zero. *)
Definition pessimistic : Runtime := runtime (Some negative_prophet) true true.

Definition history_of (counts : list Z) : list forecasting.HistoryPoint :=
  map (fun c => {| forecasting.month := "2024-01"; forecasting.count := c |}) counts.

(** A session in which every skill has [n] job records. *)
Definition session (n : nat) : forecasting.Session :=
  {| forecasting.count_job_skills := fun _ => Some n;
     forecasting.avg_skill_salary := fun _ => Some (120 : Q);
     forecasting.avg_overall_salary := Some (100 : Q);
     forecasting.max_jobs_per_skill := Some (2 * n)%nat |}.

(** The same with [a] as the average salary of every skill. *)
Definition paid_session (n : nat) (a : Q) : forecasting.Session :=
  {| forecasting.count_job_skills := fun _ => Some n;
     forecasting.avg_skill_salary := fun _ => Some a;
     forecasting.avg_overall_salary := Some (100 : Q);
     forecasting.max_jobs_per_skill := Some (2 * n)%nat |}.

(** Three skills, the last without job records. *)
Definition three_skills : list (string * nat) :=
  [("python", 40); ("sql", 30); ("cobol", 0)]%nat%string.

Definition skill_count (skill_name : string) : option nat :=
  if String.eqb skill_name "python" then Some 40%nat
  else if String.eqb skill_name "sql" then Some 30%nat
  else Some 0%nat.

Definition skills_session : forecasting.Session :=
  {| forecasting.count_job_skills := skill_count;
     forecasting.avg_skill_salary := fun _ => Some (120 : Q);
     forecasting.avg_overall_salary := Some (100 : Q);
     forecasting.max_jobs_per_skill := Some 40%nat |}.

Definition listings (salaries : list Q) : forecasting.Listings :=
  {| forecasting.top_skills := fun n => firstn n three_skills;
     forecasting.skills_with_at_least := fun n =>
       filter (fun sc => (n <=? snd sc)%nat) three_skills;
     forecasting.skill_salaries := fun _ => salaries |}.

(** Draws that do not depend on the call. *)
Definition steady (x : Q) : nat -> nat -> Q := fun _ _ => x.

(** A float formatter that only keeps the specification text. *)
Definition spec_only : forecast_models.FloatFormat :=
  {| forecast_models.format_float := fun spec _ => spec |}.

End Fixtures.

(* ------------------------------------------------------------------ *)
(** * Closed forms used in the statements *)
(* ------------------------------------------------------------------ *)

(** The trend of the combiner's last branch and its value at the 1-based
    step [i]. *)
Definition trend_of (series : list Z) : Q :=
  if (3 <=? length series)%nat
  then (inject_Z (pd.int64 (last series 0 - nth (length series - 3) series 0)%Z) / 2)%Q
  else 0%Q.

Definition trend_step (series : list Z) (i : nat) : Z :=
  Z.max 0 (Py.int (inject_Z (last series 0%Z)
                   + trend_of series * inject_Z (Z.of_nat i))%Q).

(** The extrapolation as the specification words it: slope taken from the
    last two observed points. *)
Definition two_point_extrapolation (series : list Z) (periods : nat) : list Q :=
  let last_value := last series 0 in
  let second_to_last := nth (length series - 2) series 0 in
  let slope := last_value - second_to_last in
  map (fun i => inject_Z (Z.max 0 (last_value + slope * Z.of_nat i))) (seq 1 periods).

(** Counts that fit in 32 bits, as the SQL [COUNT] over an integer key
    yields them.  Within this range the [int64] difference of two entries
    does not wrap, and with at most 2^20 periods every binary64 operation of
    the trend extrapolation is exact. *)
Definition fits_int32 (series : list Z) : Prop :=
  Forall (fun v => - 2147483648 <= v < 2147483648) series.

(** The bounds of a forecast point enclose its predicted count. *)
Definition ordered (p : forecasting.ForecastPoint) : Prop :=
  forecasting.lower_bound p <= forecasting.predicted_count p
  /\ forecasting.predicted_count p <= forecasting.upper_bound p.

(** A forecast point as the specification wants it. *)
Definition well_formed (p : forecasting.ForecastPoint) : Prop :=
  0 <= forecasting.predicted_count p
  /\ forecasting.lower_bound p <= forecasting.predicted_count p
  /\ forecasting.predicted_count p <= forecasting.upper_bound p.

(** The fixed band of the statistical path around a predicted value. *)
Definition banded (p : forecasting.ForecastPoint) : Prop :=
  forecasting.lower_bound p
  = Py.int (inject_Z (forecasting.predicted_count p) * (8 # 10))%Q
  /\ forecasting.upper_bound p
     = Py.int (inject_Z (forecasting.predicted_count p) * (12 # 10))%Q.

(** What Prophet documents of its uncertainty interval: it contains the
    point estimate. *)
Definition prophet_intervals_ordered {R : Runtime} : Prop :=
  forall P cfg df m periods row i,
    prophet = Some P ->
    Prophet_fit P cfg df = Py.Ok m ->
    Prophet_predict P m periods = Py.Ok row ->
    (yhat_lower (row i) <= yhat (row i))%Q /\ (yhat (row i) <= yhat_upper (row i))%Q.

(** The [value] column of the frame built from an integer series. *)
Definition as_cells (series : list Z) : pd.Column :=
  map (fun v => Some (inject_Z v)) series.

(** The column names of the feature matrix, in order. *)
Definition feature_columns : list string :=
  [ "value"; "lag_1"; "lag_3"; "lag_6"; "lag_12";
    "rolling_mean_3"; "rolling_std_3"; "rolling_mean_6";
    "momentum_3"; "momentum_6" ]%string.

(** Chronological order of two rows of the history frame. *)
Definition by_date {R : Runtime} (a b : forecasting.Row Timestamp) : Prop :=
  Timestamp_leb (forecasting.date a) (forecasting.date b) = true.

(** The comparison of timestamps decides every pair one way or the other. *)
Definition timestamps_total {R : Runtime} : Prop :=
  forall a b : Timestamp, Timestamp_leb a b = false -> Timestamp_leb b a = true.

(** Descending order of the keys of two entries. *)
Definition descending {A} (key : A -> Q) (a b : A) : Prop := (key b <= key a)%Q.

(** The skill a response is about. *)
Definition response_skill (r : forecasting.Response) : string :=
  match r with
  | forecasting.InsufficientData skill _ _ _ => skill
  | forecasting.Forecast skill _ _ _ _ _ => skill
  end.

(** Whether a skill of a listing has at least one job record. *)
Definition has_records (db : forecasting.Session) (sc : string * nat) : bool :=
  negb (forecasting.or0 (forecasting.count_job_skills db (fst sc)) =? 0)%nat.


(** The regressor answers with one prediction per row of the frame. *)
Definition predicts_row_wise {R : Runtime} : Prop :=
  forall X m df preds,
    xgb = Some X -> predict X m df = Py.Ok preds -> length preds = pd.len df.

(* ------------------------------------------------------------------ *)
(** * Facts about the numeric built-ins *)
(* ------------------------------------------------------------------ *)

Section NumericFacts.

Lemma int_inject_Z (z : Z) : Py.int (inject_Z z) = z.
Proof. unfold Py.int; simpl. apply Z.quot_1_r. Qed.

Lemma int_nonneg_floor (q : Q) : (0 <= q)%Q -> Py.int q = Qfloor q.
Proof.
  destruct q as [n d]; unfold Qle, Py.int, Qfloor; simpl; intros H.
  apply Z.quot_div_nonneg; lia.
Qed.

Lemma int_neg_ceiling (q : Q) : (q <= 0)%Q -> Py.int q = Qceiling q.
Proof.
  destruct q as [n d]; unfold Qle, Py.int, Qceiling, Qfloor; simpl; intros H.
  replace n with (- (- n)) at 1 by lia.
  rewrite Z.quot_opp_l by lia.
  f_equal. apply Z.quot_div_nonneg; lia.
Qed.

Lemma int_nonneg (q : Q) : (0 <= q)%Q -> 0 <= Py.int q.
Proof.
  intros H. rewrite int_nonneg_floor by assumption.
  change 0 with (Qfloor 0). now apply Qfloor_resp_le.
Qed.

Lemma int_monotone (a b : Q) : (a <= b)%Q -> Py.int a <= Py.int b.
Proof.
  intros Hab.
  destruct (Qlt_le_dec a 0) as [Ha | Ha]; destruct (Qlt_le_dec b 0) as [Hb | Hb].
  - rewrite !int_neg_ceiling by now apply Qlt_le_weak.
    now apply Qceiling_resp_le.
  - rewrite (int_neg_ceiling a) by now apply Qlt_le_weak.
    apply Z.le_trans with 0.
    + change 0 with (Qceiling 0). apply Qceiling_resp_le. now apply Qlt_le_weak.
    + now apply int_nonneg.
  - exfalso. apply (Qlt_irrefl 0).
    apply Qle_lt_trans with a; [assumption|].
    now apply Qle_lt_trans with b.
  - rewrite !int_nonneg_floor by assumption. now apply Qfloor_resp_le.
Qed.

(** The ±20% band around a non-negative integer brackets it. *)
Lemma band_lower (z : Z) : 0 <= z -> Py.int (inject_Z z * (8 # 10))%Q <= z.
Proof.
  intros Hz. rewrite <- (int_inject_Z z) at 2.
  apply int_monotone. unfold Qle; simpl. lia.
Qed.

Lemma band_upper (z : Z) : 0 <= z -> z <= Py.int (inject_Z z * (12 # 10))%Q.
Proof.
  intros Hz. rewrite <- (int_inject_Z z) at 1.
  apply int_monotone. unfold Qle; simpl. lia.
Qed.

Lemma round_half_even_cases (q : Q) :
  Py.round_half_even q = Qfloor q \/ Py.round_half_even q = Qfloor q + 1.
Proof.
  unfold Py.round_half_even.
  destruct (Qcompare _ _); [destruct (Z.even _)| |]; auto.
Qed.

Lemma round_half_even_monotone (a b : Q) :
  (a <= b)%Q -> Py.round_half_even a <= Py.round_half_even b.
Proof.
  intros Hab.
  pose proof (Qfloor_resp_le _ _ Hab) as Hf.
  destruct (Z.eq_dec (Qfloor a) (Qfloor b)) as [E | NE].
  - unfold Py.round_half_even. rewrite <- E.
    assert (Hfrac : (a - inject_Z (Qfloor a) <= b - inject_Z (Qfloor a))%Q).
    { unfold Qminus. apply Qplus_le_l. exact Hab. }
    destruct (Qcompare_spec (a - inject_Z (Qfloor a)) (1 # 2)) as [Ha | Ha | Ha];
    destruct (Qcompare_spec (b - inject_Z (Qfloor a)) (1 # 2)) as [Hb | Hb | Hb];
      try (destruct (Z.even (Qfloor a))); try lia; exfalso; lra.
  - destruct (round_half_even_cases a) as [-> | ->];
    destruct (round_half_even_cases b) as [-> | ->]; lia.
Qed.

Lemma round_half_even_comp (a b : Q) :
  (a == b)%Q -> Py.round_half_even a = Py.round_half_even b.
Proof.
  intros E. apply Z.le_antisymm; apply round_half_even_monotone;
    rewrite E; apply Qle_refl.
Qed.

Lemma round_half_even_Z (z : Z) : Py.round_half_even (inject_Z z) = z.
Proof.
  unfold Py.round_half_even. rewrite Qfloor_Z.
  assert (E : (inject_Z z - inject_Z z == 0)%Q) by ring.
  destruct (Qcompare_spec (inject_Z z - inject_Z z) (1 # 2)) as [H | H | H];
    rewrite E in H; try discriminate H; reflexivity.
Qed.

Lemma scale_pos (n : nat) : (0 < inject_Z (10 ^ Z.of_nat n))%Q.
Proof.
  unfold Qlt; simpl. rewrite Z.mul_1_r. apply Z.pow_pos_nonneg; lia.
Qed.

Lemma round_monotone (a b : Q) (n : nat) :
  (a <= b)%Q -> (Py.round a n <= Py.round b n)%Q.
Proof.
  intros Hab. unfold Py.round.
  pose proof (scale_pos n) as Hs.
  apply Qmult_le_compat_r.
  - rewrite <- Zle_Qle. apply round_half_even_monotone.
    apply Qmult_le_compat_r; [assumption | now apply Qlt_le_weak].
  - apply Qlt_le_weak. now apply Qinv_lt_0_compat.
Qed.

Lemma round_Z (z : Z) (n : nat) : (Py.round (inject_Z z) n == inject_Z z)%Q.
Proof.
  unfold Py.round.
  pose proof (scale_pos n) as Hs.
  assert (E : (inject_Z z * inject_Z (10 ^ Z.of_nat n)
               == inject_Z (z * 10 ^ Z.of_nat n))%Q)
    by (rewrite inject_Z_mult; reflexivity).
  assert (E2 : Py.round_half_even (inject_Z z * inject_Z (10 ^ Z.of_nat n))
               = z * 10 ^ Z.of_nat n).
  { rewrite (round_half_even_comp _ _ E). apply round_half_even_Z. }
  rewrite E2, inject_Z_mult. field.
  intro H0. rewrite H0 in Hs. now apply (Qlt_irrefl 0).
Qed.

(** Rounding moves a number by at most one half. *)
Lemma round_half_even_near (q : Q) :
  (q - (1 # 2) <= inject_Z (Py.round_half_even q))%Q
  /\ (inject_Z (Py.round_half_even q) <= q + (1 # 2))%Q.
Proof.
  pose proof (Qfloor_le q) as Hlo. pose proof (Qlt_floor q) as Hhi.
  rewrite inject_Z_plus in Hhi. change (inject_Z 1) with 1%Q in Hhi.
  unfold Py.round_half_even.
  destruct (Qcompare_spec (q - inject_Z (Qfloor q)) (1 # 2)) as [H | H | H];
    [destruct (Z.even (Qfloor q))| |];
    rewrite ?inject_Z_plus; change (inject_Z 1) with 1%Q; lra.
Qed.

(** [round(q, 2)] is a whole number of hundredths, and that number is
    within one half of [100 * q]. *)
Lemma round_cents_near (q : Q) :
  exists cents : Z,
    (Py.round q 2 == inject_Z cents / 100)%Q
    /\ (q * 100 - (1 # 2) <= inject_Z cents)%Q
    /\ (inject_Z cents <= q * 100 + (1 # 2))%Q.
Proof.
  exists (Py.round_half_even (q * 100)).
  split; [reflexivity | apply round_half_even_near].
Qed.

End NumericFacts.

(* ------------------------------------------------------------------ *)
(** * The orchestrator: data sufficiency *)
(* ------------------------------------------------------------------ *)

Section Orchestrator.
Context {R : Runtime}.
Import forecasting.

Lemma select_branch_too_short (n : nat) (use_ensemble : bool) :
  select_branch n use_ensemble = TooShort <-> (n < 3)%nat.
Proof.
  unfold select_branch.
  destruct (Nat.ltb_spec n 3) as [H | H]; [tauto|].
  split; [|lia].
  destruct (use_ensemble && ML_MODELS_AVAILABLE)%bool;
    [destruct (6 <=? n)%nat | destruct PROPHET_AVAILABLE]; discriminate.
Qed.


Lemma forecast_history_short (skill_name : string)
    (historical : list HistoryPoint) (periods : nat) (use_ensemble : bool) :
  (length historical < 3)%nat ->
  forecast_history skill_name historical periods use_ensemble
  = Py.Ok (InsufficientData skill_name "Insufficient historical data"
                            3 (length historical)).
Proof.
  intros Hlen. unfold forecast_history.
  apply (select_branch_too_short _ use_ensemble) in Hlen. now rewrite Hlen.
Qed.

(** A call that gets past the guard ends in an exception or in a forecast. *)
Lemma forecast_history_not_error (skill_name : string)
    (historical : list HistoryPoint) (periods : nat) (use_ensemble : bool) :
  (3 <= length historical)%nat ->
  forall skill error min_required actual,
    forecast_history skill_name historical periods use_ensemble
    <> Py.Ok (InsufficientData skill error min_required actual).
Proof.
  intros Hlen skill error min_required actual.
  unfold forecast_history.
  destruct (select_branch (length historical) use_ensemble) eqn:Hb;
    [apply select_branch_too_short in Hb; lia | ..];
    match goal with
    | |- Py.bind ?c _ <> _ => destruct c as [[[f m] c0] | e]
    end; simpl; discriminate.
Qed.

Variable db : Session.

Lemma history_length (skill_name : string) (months : nat) :
  length (_get_skill_historical_data db skill_name months)
  = if (or0 (count_job_skills db skill_name) =? 0)%nat then 0%nat else months.
Proof.
  unfold _get_skill_historical_data.
  destruct (or0 (count_job_skills db skill_name) =? 0)%nat.
  - reflexivity.
  - unfold Py.range. now rewrite length_map, length_seq.
Qed.

End Orchestrator.

(** C2. [forecast_skill_demand] answers with the insufficient-data error,
    carrying [min_required = 3] and [actual = len(historical)] and no
    forecast, when the history has fewer than 3 points, and never answers
    with that error when the history has 3 points or more. *)
Theorem C2_insufficient_data_iff_short_history
    (R : Runtime) (skill_name : string)
    (historical : list forecasting.HistoryPoint) (periods : nat) (use_ensemble : bool) :
  ((length historical < 3)%nat ->
     forecasting.forecast_history skill_name historical periods use_ensemble
     = Py.Ok (forecasting.InsufficientData skill_name "Insufficient historical data"
                                           3 (length historical)))
  /\ ((3 <= length historical)%nat ->
      forall skill error min_required actual,
        forecasting.forecast_history skill_name historical periods use_ensemble
        <> Py.Ok (forecasting.InsufficientData skill error min_required actual)).
Proof.
  split.
  - apply forecast_history_short.
  - apply forecast_history_not_error.
Qed.

Lemma C2_witness :
  forecasting.forecast_history (R := Fixtures.full) "python"
    (Fixtures.history_of [7; 9]) 6 true
  = Py.Ok (forecasting.InsufficientData "python" "Insufficient historical data" 3 2)
  /\ forecasting.forecast_history (R := Fixtures.full) "python"
       (Fixtures.history_of [7; 9; 11]) 6 true
     <> Py.Ok (forecasting.InsufficientData "python" "Insufficient historical data" 3 3).
Proof.
  split.
  - apply (C2_insufficient_data_iff_short_history Fixtures.full "python"
             (Fixtures.history_of [7; 9]) 6 true).
    simpl; lia.
  - apply (C2_insufficient_data_iff_short_history Fixtures.full "python"
             (Fixtures.history_of [7; 9; 11]) 6 true).
    simpl; lia.
Defined.



(* ------------------------------------------------------------------ *)
(** * The scoring engine *)
(* ------------------------------------------------------------------ *)

Section Scoring.
Context {R : Runtime}.
Variable db : forecasting.Session.
Import forecasting.

Lemma round_lower (q : Q) (lo : Z) (n : nat) :
  (inject_Z lo <= q)%Q -> (inject_Z lo <= Py.round q n)%Q.
Proof. intros H. rewrite <- (round_Z lo n). now apply round_monotone. Qed.

Lemma round_upper (q : Q) (hi : Z) (n : nat) :
  (q <= inject_Z hi)%Q -> (Py.round q n <= inject_Z hi)%Q.
Proof. intros H. rewrite <- (round_Z hi n). now apply round_monotone. Qed.

Lemma weight_le_compat (w x y : Q) : (0 <= w)%Q -> (x <= y)%Q -> (w * x <= w * y)%Q.
Proof.
  intros Hw Hxy. rewrite (Qmult_comm w x), (Qmult_comm w y).
  now apply Qmult_le_compat_r.
Qed.

Lemma weighted_hotness_monotone (alpha beta gamma delta v g s d v' g' s' d' : Q) :
  (0 <= alpha)%Q -> (0 <= beta)%Q -> (0 <= gamma)%Q -> (0 <= delta)%Q ->
  (v <= v')%Q -> (g <= g')%Q -> (s <= s')%Q -> (d <= d')%Q ->
  (weighted_hotness alpha beta gamma delta v g s d
   <= weighted_hotness alpha beta gamma delta v' g' s' d')%Q.
Proof.
  intros Ha Hb Hg Hd Hv Hgr Hs Hde. unfold weighted_hotness.
  apply round_monotone.
  repeat apply Qplus_le_compat; now apply weight_le_compat.
Qed.

Lemma salary_premium_bounds (skill_name : string) :
  (0 <= _calculate_salary_premium db skill_name)%Q.
Proof.
  unfold _calculate_salary_premium.
  destruct (avg_skill_salary db skill_name); [|discriminate].
  destruct (avg_overall_salary db); [|discriminate].
  destruct (_ || _)%bool; [discriminate|].
  apply Q.min_glb; [discriminate | apply Q.le_max_l].
Qed.

Lemma demand_score_nonneg (skill_name : string) :
  (0 <= _calculate_demand_score db skill_name)%Q.
Proof.
  unfold _calculate_demand_score.
  apply (round_lower _ 0 2).
  destruct (Nat.ltb_spec 0 (match max_jobs_per_skill db with
                            | Some m => m | None => 1%nat end));
    [|apply Qle_refl].
  apply Qmult_le_0_compat; [|discriminate].
  apply Qle_shift_div_l.
  - unfold Qlt; simpl. lia.
  - unfold Qle; simpl. lia.
Qed.

Lemma min_100_bounds (q : Q) : (0 <= q)%Q -> (0 <= Qmin 100 q)%Q /\ (Qmin 100 q <= 100)%Q.
Proof.
  intros H. split; [apply Q.min_glb; [discriminate | assumption] | apply Q.le_min_l].
Qed.

Lemma hotness_default_bounded (skill_name : string) :
  (0 <= calculate_hotness_score db skill_name
          default_alpha default_beta default_gamma default_delta)%Q
  /\ (calculate_hotness_score db skill_name
        default_alpha default_beta default_gamma default_delta <= 100)%Q.
Proof.
  unfold calculate_hotness_score, weighted_hotness.
  set (v := Qmin 100 _).
  set (g := Qmin 100 (Qmax 0 _)).
  set (s := Qmin 100 (_calculate_salary_premium db skill_name)).
  set (d := Qmin 100 (_calculate_demand_score db skill_name)).
  assert (Hv : (0 <= v)%Q /\ (v <= 100)%Q).
  { apply min_100_bounds. apply Qmult_le_0_compat; [|discriminate].
    apply Qle_shift_div_l; [reflexivity|]. unfold Qle; simpl. lia. }
  assert (Hg : (0 <= g)%Q /\ (g <= 100)%Q) by (apply min_100_bounds, Q.le_max_l).
  assert (Hs : (0 <= s)%Q /\ (s <= 100)%Q) by (apply min_100_bounds, salary_premium_bounds).
  assert (Hd : (0 <= d)%Q /\ (d <= 100)%Q) by (apply min_100_bounds, demand_score_nonneg).
  unfold default_alpha, default_beta, default_gamma, default_delta.
  split; [apply (round_lower _ 0 2) | apply (round_upper _ 100 2)];
    change (inject_Z 0) with 0%Q; change (inject_Z 100) with 100%Q; lra.
Qed.

End Scoring.

(** C9. With non-negative weights the hotness score does not decrease when
    one normalised component grows and the other three stay fixed; with the
    default weights 0.3, 0.3, 0.2, 0.2 the score of every skill lies in
    [0, 100]. *)
Theorem C9_hotness_monotone_and_bounded
    (alpha beta gamma delta : Q)
    (Halpha : (0 <= alpha)%Q) (Hbeta : (0 <= beta)%Q)
    (Hgamma : (0 <= gamma)%Q) (Hdelta : (0 <= delta)%Q) :
  (forall v v' g s d, (v <= v')%Q ->
      (forecasting.weighted_hotness alpha beta gamma delta v g s d
       <= forecasting.weighted_hotness alpha beta gamma delta v' g s d)%Q)
  /\ (forall v g g' s d, (g <= g')%Q ->
      (forecasting.weighted_hotness alpha beta gamma delta v g s d
       <= forecasting.weighted_hotness alpha beta gamma delta v g' s d)%Q)
  /\ (forall v g s s' d, (s <= s')%Q ->
      (forecasting.weighted_hotness alpha beta gamma delta v g s d
       <= forecasting.weighted_hotness alpha beta gamma delta v g s' d)%Q)
  /\ (forall v g s d d', (d <= d')%Q ->
      (forecasting.weighted_hotness alpha beta gamma delta v g s d
       <= forecasting.weighted_hotness alpha beta gamma delta v g s d')%Q)
  /\ (forall (R : Runtime) (db : forecasting.Session) (skill_name : string),
      (0 <= forecasting.calculate_hotness_score db skill_name
              forecasting.default_alpha forecasting.default_beta
              forecasting.default_gamma forecasting.default_delta)%Q
      /\ (forecasting.calculate_hotness_score db skill_name
              forecasting.default_alpha forecasting.default_beta
              forecasting.default_gamma forecasting.default_delta <= 100)%Q).
Proof.
  split; [|split; [|split; [|split]]].
  - intros v v' g s d Hv.
    apply weighted_hotness_monotone; assumption || apply Qle_refl.
  - intros v g g' s d Hg.
    apply weighted_hotness_monotone; assumption || apply Qle_refl.
  - intros v g s s' d Hs.
    apply weighted_hotness_monotone; assumption || apply Qle_refl.
  - intros v g s d d' Hd.
    apply weighted_hotness_monotone; assumption || apply Qle_refl.
  - intros R db skill_name. apply hotness_default_bounded.
Qed.

Lemma C9_witness :
  (forecasting.weighted_hotness (3 # 10) (3 # 10) (2 # 10) (2 # 10) 10 50 60 70
   <= forecasting.weighted_hotness (3 # 10) (3 # 10) (2 # 10) (2 # 10) 40 50 60 70)%Q.
Proof.
  assert (Hw3 : (0 <= 3 # 10)%Q) by discriminate.
  assert (Hw2 : (0 <= 2 # 10)%Q) by discriminate.
  destruct (C9_hotness_monotone_and_bounded (3 # 10) (3 # 10) (2 # 10) (2 # 10)
              Hw3 Hw3 Hw2 Hw2) as (Hvolume & _).
  apply Hvolume. discriminate.
Defined.

(** C5 (as amended). On a window of exactly six values the growth rate is
    ((sum of the last 3) - (sum of the first 3)) / (sum of the first 3) * 100
    rounded to two decimals: a whole number of hundredths, within half a
    hundredth of that percentage (on an exact tie either neighbour: which one
    the code returns depends on the rounding of the binary64 quotient).  It
    is 100 when the first three sum to zero, and 0 on fewer than six points;
    [10,10,10,10,10,10] gives 0 and [10,10,10,20,20,20] gives 100. *)
Theorem C5_growth_rate_rounded_to_cents
    (h1 h2 h3 h4 h5 h6 : forecasting.HistoryPoint)
    (short : list forecasting.HistoryPoint) :
  let previous := Py.sum (map forecasting.count [h1; h2; h3]) in
  let recent := Py.sum (map forecasting.count [h4; h5; h6]) in
  let growth := ((inject_Z (recent - previous) / inject_Z previous) * 100)%Q in
  ((length short < 6)%nat -> forecasting.growth_of_history short = 0%Q)
  /\ (previous = 0 ->
      forecasting.growth_of_history [h1; h2; h3; h4; h5; h6] = 100%Q)
  /\ (previous <> 0 ->
      exists cents : Z,
        (forecasting.growth_of_history [h1; h2; h3; h4; h5; h6]
         == inject_Z cents / 100)%Q
        /\ (growth * 100 - (1 # 2) <= inject_Z cents)%Q
        /\ (inject_Z cents <= growth * 100 + (1 # 2))%Q)
  /\ (forecasting.growth_of_history (Fixtures.history_of [10; 10; 10; 10; 10; 10]%Z) == 0)%Q
  /\ (forecasting.growth_of_history (Fixtures.history_of [10; 10; 10; 20; 20; 20]%Z) == 100)%Q.
Proof.
  intros previous recent growth.
  split; [|split; [|split; [|split; reflexivity]]].
  - intros Hshort. unfold forecasting.growth_of_history.
    destruct (Nat.ltb_spec (length short) 6); [reflexivity | lia].
  - intros Hzero. unfold forecasting.growth_of_history. cbn [length Nat.ltb Nat.leb].
    change (Py.sum (map forecasting.count (firstn 3 [h1; h2; h3; h4; h5; h6])))
      with previous.
    rewrite Hzero. reflexivity.
  - intros Hnz. unfold forecasting.growth_of_history. cbn [length Nat.ltb Nat.leb].
    change (Py.sum (map forecasting.count (firstn 3 [h1; h2; h3; h4; h5; h6])))
      with previous.
    change (Py.sum (map forecasting.count (Py.slice_last 3 [h1; h2; h3; h4; h5; h6])))
      with recent.
    destruct (Z.eqb_spec previous 0); [contradiction|].
    apply round_cents_near.
Qed.

Lemma C5_witness :
  (exists cents : Z,
     (forecasting.growth_of_history (Fixtures.history_of [1; 1; 1; 1; 1; 2]%Z)
      == inject_Z cents / 100)%Q
     /\ ((inject_Z (4 - 3) / inject_Z 3) * 100 * 100 - (1 # 2) <= inject_Z cents)%Q
     /\ (inject_Z cents <= (inject_Z (4 - 3) / inject_Z 3) * 100 * 100 + (1 # 2))%Q)
  /\ forecasting.growth_of_history (Fixtures.history_of [0; 0; 0; 1; 1; 2]%Z) = 100%Q
  /\ forecasting.growth_of_history (Fixtures.history_of [5; 5; 5; 5; 5]%Z) = 0%Q.
Proof.
  pose (h := fun c => {| forecasting.month := "2024-01"%string; forecasting.count := c |}).
  split; [|split].
  - destruct (C5_growth_rate_rounded_to_cents (h 1) (h 1) (h 1) (h 1) (h 1) (h 2) [])
      as (_ & _ & Hround & _).
    apply Hround. discriminate.
  - destruct (C5_growth_rate_rounded_to_cents (h 0) (h 0) (h 0) (h 1) (h 1) (h 2) [])
      as (_ & Hzero & _).
    apply Hzero. reflexivity.
  - destruct (C5_growth_rate_rounded_to_cents (h 1) (h 1) (h 1) (h 1) (h 1) (h 2)
                (Fixtures.history_of [5; 5; 5; 5; 5])) as (Hshort & _).
    apply Hshort. simpl. lia.
Defined.

(** The claim as worded, without the rounding, fails: on the window
    [1,1,1,1,1,2] the code returns 33.33 and not 100/3. *)
Lemma C5_counterexample :
  ~ (forecasting.growth_of_history (Fixtures.history_of [1; 1; 1; 1; 1; 2]%Z)
     == (inject_Z ((1 + 1 + 2) - (1 + 1 + 1)) / inject_Z (1 + 1 + 1)) * 100)%Q.
Proof. intro H. vm_compute in H. discriminate H. Qed.

(* ------------------------------------------------------------------ *)
(** * Lists, comprehensions and indexing *)
(* ------------------------------------------------------------------ *)

Section Comprehensions.
Context {A B : Type}.

Lemma comprehension_ok (f : A -> Py.result B) (g : A -> B) (l : list A) :
  (forall a, In a l -> f a = Py.Ok (g a)) ->
  Py.comprehension f l = Py.Ok (map g l).
Proof.
  induction l as [| a l IH]; intros Hf; simpl; [reflexivity|].
  rewrite (Hf a (or_introl eq_refl)); simpl.
  rewrite IH by (intros x Hx; apply Hf; now right).
  reflexivity.
Qed.

Lemma comprehension_inv (f : A -> Py.result B) (l : list A) (bs : list B) :
  Py.comprehension f l = Py.Ok bs ->
  Forall2 (fun a b => f a = Py.Ok b) l bs.
Proof.
  revert bs. induction l as [| a l IH]; intros bs; simpl.
  - intros H; injection H as <-. constructor.
  - destruct (f a) as [b | e] eqn:Hfa; simpl; [|discriminate].
    destruct (Py.comprehension f l) as [bs' | e] eqn:Hl; simpl; [|discriminate].
    intros H; injection H as <-. constructor; [assumption | now apply IH].
Qed.

Lemma comprehension_length (f : A -> Py.result B) (l : list A) (bs : list B) :
  Py.comprehension f l = Py.Ok bs -> length bs = length l.
Proof.
  intros H. apply comprehension_inv in H.
  symmetry. eapply Forall2_length; eassumption.
Qed.

Lemma comprehension_Forall (P : B -> Prop) (f : A -> Py.result B)
    (l : list A) (bs : list B) :
  Py.comprehension f l = Py.Ok bs ->
  (forall a b, In a l -> f a = Py.Ok b -> P b) ->
  Forall P bs.
Proof.
  intros H. apply comprehension_inv in H.
  induction H as [| a b l bs Hab _ IH]; intros HP; constructor.
  - apply (HP a); [now left | assumption].
  - apply IH. intros a' b' Hin. apply HP. now right.
Qed.

Lemma slice_last_length (k : nat) (l : list A) :
  length (Py.slice_last k l) = Nat.min k (length l).
Proof. unfold Py.slice_last. rewrite length_skipn. lia. Qed.

Lemma getitem_neg_ok (l : list A) (k : nat) (d : A) :
  (1 <= k <= length l)%nat ->
  Py.getitem_neg l k = Py.Ok (nth (length l - k) l d).
Proof.
  intros Hk. unfold Py.getitem_neg, Py.getitem.
  destruct (Nat.ltb_spec (length l) k); [lia|].
  destruct (Nat.eqb_spec k 0); [lia|]. simpl.
  rewrite (nth_error_nth' l d) by lia. reflexivity.
Qed.

End Comprehensions.

Lemma tail_map_seq {A} (f : nat -> A) (n periods : nat) :
  pd.tail periods (map f (Py.range (n + periods))) = map f (seq n periods).
Proof.
  unfold pd.tail, Py.slice_last, Py.range.
  rewrite length_map, length_seq.
  replace (n + periods - periods)%nat with n by lia.
  rewrite skipn_map, skipn_seq. do 2 f_equal. lia.
Qed.

Lemma last_as_nth {A} (l : list A) (d : A) : last l d = nth (length l - 1) l d.
Proof.
  induction l as [| a l IH]; [reflexivity|].
  destruct l as [| b l]; [reflexivity|].
  change (last (a :: b :: l) d) with (last (b :: l) d). rewrite IH.
  simpl. now rewrite Nat.sub_0_r.
Qed.

(** Within the 64-bit range nothing wraps. *)
Lemma int64_small (z : Z) :
  - 9223372036854775808 <= z < 9223372036854775808 -> pd.int64 z = z.
Proof.
  intros Hz. unfold pd.int64. rewrite Z.mod_small by lia. lia.
Qed.

Lemma fits_int32_nth (series : list Z) (i : nat) :
  fits_int32 series -> - 2147483648 <= nth i series 0 < 2147483648.
Proof.
  intros Hfit. destruct (nth_in_or_default i series 0) as [Hin | ->]; [|lia].
  unfold fits_int32 in Hfit. rewrite Forall_forall in Hfit. now apply Hfit.
Qed.

Lemma fits_int32_last (series : list Z) :
  fits_int32 series -> - 2147483648 <= last series 0 < 2147483648.
Proof. intros Hfit. rewrite last_as_nth. now apply fits_int32_nth. Qed.

(** On counts of 32 bits the trend is half the difference itself. *)
Lemma trend_of_exact (series : list Z) :
  fits_int32 series ->
  trend_of series
  = if (3 <=? length series)%nat
    then (inject_Z (last series 0 - nth (length series - 3) series 0)%Z / 2)%Q
    else 0%Q.
Proof.
  intros Hfit. unfold trend_of.
  destruct (3 <=? length series)%nat; [|reflexivity].
  pose proof (fits_int32_last series Hfit).
  pose proof (fits_int32_nth series (length series - 3) Hfit).
  rewrite int64_small by lia. reflexivity.
Qed.

(* ------------------------------------------------------------------ *)
(** * The backends and the ensemble combiner *)
(* ------------------------------------------------------------------ *)

Section Backends.
Context {R : Runtime}.
Import forecast_models.

Lemma prophet_fit_predict_lengths P df periods r :
  ProphetForecaster.fit_predict P df periods = Py.Ok r ->
  length (ProphetForecaster.predictions r) = periods
  /\ length (ProphetForecaster.lower r) = periods
  /\ length (ProphetForecaster.upper r) = periods.
Proof.
  unfold ProphetForecaster.fit_predict.
  destruct (Prophet_fit P _ df) as [m | e]; simpl; [|discriminate].
  destruct (Prophet_predict P m periods) as [row | e]; simpl; [|discriminate].
  intros H; injection H as <-; simpl.
  rewrite !map_map, !tail_map_seq, !length_map, length_seq. auto.
Qed.

Lemma prophet_fit_forecast_lengths series periods r :
  ProphetForecaster.fit_forecast (ProphetForecaster.Series series) periods = Some r ->
  length (ProphetForecaster.predictions r) = periods
  /\ length (ProphetForecaster.lower r) = periods
  /\ length (ProphetForecaster.upper r) = periods.
Proof.
  unfold ProphetForecaster.fit_forecast.
  destruct prophet as [P |]; [|discriminate].
  destruct (ProphetForecaster.fit_predict P _ periods) as [r' | e] eqn:Hfit;
    simpl; [|discriminate].
  intros H; injection H as <-. eapply prophet_fit_predict_lengths; eassumption.
Qed.

Lemma forecast_loop_length X m periods :
  forall last_features forecasts,
    XGBoostForecaster.forecast_loop X m periods last_features = Py.Ok forecasts ->
    length forecasts = periods.
Proof.
  induction periods as [| periods IH]; intros last_features forecasts; simpl.
  - intros H; injection H as <-. reflexivity.
  - destruct (predict X m last_features) as [preds | e]; simpl; [|discriminate].
    destruct (Py.getitem preds 0) as [pred | e]; simpl; [|discriminate].
    destruct (XGBoostForecaster.forecast_loop X m periods _) as [rest | e] eqn:Hrest;
      simpl; [|discriminate].
    intros H; injection H as <-. simpl. f_equal. eapply IH; eassumption.
Qed.

Lemma xgboost_fit_forecast_predictions series periods test_size r :
  XGBoostForecaster.fit_forecast series periods test_size = Some r ->
  length (XGBoostForecaster.predictions r) = periods
  /\ Forall (fun z => 0 <= z) (XGBoostForecaster.predictions r).
Proof.
  unfold XGBoostForecaster.fit_forecast.
  destruct xgb as [X |]; [|discriminate].
  destruct (XGBoostForecaster.fit_forecast_body X series periods test_size)
    as [r' | e] eqn:Hbody; [|discriminate].
  intros H; injection H as <-.
  unfold XGBoostForecaster.fit_forecast_body in Hbody.
  destruct (XGBRegressor_fit X _ _ _ _ _) as [m | e]; simpl in Hbody; [|discriminate].
  destruct (predict X m _) as [y_pred | e]; simpl in Hbody; [|discriminate].
  destruct (mean_absolute_error _ y_pred) as [mae | e]; simpl in Hbody; [|discriminate].
  destruct (r2_score _ y_pred) as [r2 | e]; simpl in Hbody; [|discriminate].
  destruct (XGBoostForecaster.forecast_loop X m periods _) as [forecasts | e] eqn:Hloop;
    simpl in Hbody; [|discriminate].
  injection Hbody as <-; simpl. split.
  - rewrite length_map. eapply forecast_loop_length; eassumption.
  - apply Forall_map, Forall_forall. intros f _. apply Z.le_max_l.
Qed.

Lemma getitem_last (series : list Z) :
  series <> [] -> Py.getitem_neg series 1 = Py.Ok (last series 0).
Proof.
  intros Hne.
  assert (1 <= length series)%nat by (destruct series; [contradiction | simpl; lia]).
  rewrite (getitem_neg_ok series 1 0) by lia.
  now rewrite last_as_nth.
Qed.

Lemma fallback_trend_ok (series : list Z) (periods : nat) :
  series <> [] ->
  EnsembleForecaster.fallback_trend series periods
  = Py.Ok (map (fun i => inject_Z (trend_step series i)) (seq 1 periods)).
Proof.
  intros Hne. unfold EnsembleForecaster.fallback_trend.
  assert (Htrend :
    (if (3 <=? length series)%nat
     then a <- Py.getitem_neg series 1 ;;
          b <- Py.getitem_neg series 3 ;;
          Py.Ok ((inject_Z (pd.int64 (a - b))) / 2)%Q
     else Py.Ok 0%Q) = Py.Ok (trend_of series)).
  { unfold trend_of. destruct (Nat.leb_spec 3 (length series)); [|reflexivity].
    rewrite (getitem_last series Hne); simpl.
    rewrite (getitem_neg_ok series 3 0) by lia. reflexivity. }
  rewrite Htrend; simpl.
  rewrite <- seq_shift, map_map.
  apply comprehension_ok. intros i _.
  rewrite (getitem_last series Hne); simpl.
  unfold trend_step. rewrite Nat2Z.inj_succ, <- Z.add_1_r. reflexivity.
Qed.

Lemma ensemble_fit_forecast_unfold self series periods :
  EnsembleForecaster.fit_forecast self series periods
  = (forecast <-
       match ProphetForecaster.fit_forecast (ProphetForecaster.Series series) periods,
             XGBoostForecaster.fit_forecast series periods (2 # 10) with
       | Some p, Some x =>
           Py.Ok (map (fun px =>
                    inject_Z (Py.int (EnsembleForecaster.prophet_weight self * fst px
                                      + EnsembleForecaster.xgboost_weight self
                                        * inject_Z (snd px))%Q))
                  (combine (ProphetForecaster.predictions p)
                           (XGBoostForecaster.predictions x)))
       | None, Some x => Py.Ok (map inject_Z (XGBoostForecaster.predictions x))
       | Some p, None => Py.Ok (ProphetForecaster.predictions p)
       | None, None => EnsembleForecaster.fallback_trend series periods
       end ;;
     Py.Ok {| EnsembleForecaster.predictions := forecast;
              EnsembleForecaster.forecast := forecast;
              EnsembleForecaster.prophet_result :=
                ProphetForecaster.fit_forecast (ProphetForecaster.Series series) periods;
              EnsembleForecaster.xgboost_result :=
                XGBoostForecaster.fit_forecast series periods (2 # 10);
              EnsembleForecaster.method := "ensemble" |})%py.
Proof. reflexivity. Qed.

(** Every branch of the combiner yields one value per requested period. *)
Lemma ensemble_forecast_length self series periods r :
  EnsembleForecaster.fit_forecast self series periods = Py.Ok r ->
  length (EnsembleForecaster.forecast r) = periods
  /\ EnsembleForecaster.prophet_result r
     = ProphetForecaster.fit_forecast (ProphetForecaster.Series series) periods.
Proof.
  rewrite ensemble_fit_forecast_unfold.
  destruct (ProphetForecaster.fit_forecast _ periods) as [p |] eqn:Hp;
  destruct (XGBoostForecaster.fit_forecast series periods _) as [x |] eqn:Hx; simpl.
  - intros H; injection H as <-; simpl. split; [|reflexivity].
    apply prophet_fit_forecast_lengths in Hp as (Hp & _).
    apply xgboost_fit_forecast_predictions in Hx as (Hx & _).
    rewrite length_map, length_combine, Hp, Hx. apply Nat.min_id.
  - intros H; injection H as <-; simpl. split; [|reflexivity].
    now apply prophet_fit_forecast_lengths in Hp.
  - intros H; injection H as <-; simpl. split; [|reflexivity].
    rewrite length_map. now apply xgboost_fit_forecast_predictions in Hx.
  - destruct (EnsembleForecaster.fallback_trend series periods) as [f | e] eqn:Hf;
      simpl; [|discriminate].
    intros H; injection H as <-; simpl. split; [|reflexivity].
    unfold EnsembleForecaster.fallback_trend in Hf.
    destruct (if (3 <=? length series)%nat then _ else _) as [trend | e];
      simpl in Hf; [|discriminate].
    apply comprehension_length in Hf. rewrite Hf. apply length_seq.
Qed.

(** On a non-empty series the combiner always returns. *)
Lemma ensemble_fit_forecast_returns self series periods :
  series <> [] ->
  exists r, EnsembleForecaster.fit_forecast self series periods = Py.Ok r.
Proof.
  intros Hne. rewrite ensemble_fit_forecast_unfold.
  destruct (ProphetForecaster.fit_forecast _ periods) as [p |];
  destruct (XGBoostForecaster.fit_forecast series periods _) as [x |]; simpl;
    try (eexists; reflexivity).
  rewrite (fallback_trend_ok series periods Hne); simpl. eexists; reflexivity.
Qed.

End Backends.

(** C4. [EnsembleForecaster.fit_forecast] does not raise: on a series with
    at least one point and a horizon of at least one period it returns a
    result, whatever Prophet and XGBoost do, and the forecast list of that
    result is not empty (it has one value per period). *)
Theorem C4_ensemble_never_raises
    (R : Runtime) (self : forecast_models.EnsembleForecaster.t)
    (series : list Z) (periods : nat) :
  series <> [] -> (1 <= periods)%nat ->
  exists r,
    forecast_models.EnsembleForecaster.fit_forecast self series periods = Py.Ok r
    /\ forecast_models.EnsembleForecaster.forecast r <> []
    /\ length (forecast_models.EnsembleForecaster.forecast r) = periods.
Proof.
  intros Hne Hperiods.
  destruct (ensemble_fit_forecast_returns self series periods Hne) as [r Hr].
  exists r. split; [exact Hr|].
  apply ensemble_forecast_length in Hr as (Hlen & _).
  split; [|exact Hlen].
  intros Hnil. rewrite Hnil in Hlen. simpl in Hlen. lia.
Qed.

Lemma C4_witness :
  exists r,
    forecast_models.EnsembleForecaster.fit_forecast (R := Fixtures.full)
      forecast_models.EnsembleForecaster.__init__ [42] 3 = Py.Ok r
    /\ forecast_models.EnsembleForecaster.forecast r <> []
    /\ length (forecast_models.EnsembleForecaster.forecast r) = 3%nat.
Proof.
  apply (C4_ensemble_never_raises Fixtures.full
           forecast_models.EnsembleForecaster.__init__ [42] 3).
  - discriminate.
  - lia.
Defined.

(** C7 (as amended). When both backends give no result, the combiner's
    forecast at the 1-based step [i] is max(0, int(last + trend * i)), where
    trend is (last - third from last) / 2 on a series of three points or more
    and 0 on a shorter one.  This is stated for counts of 32 bits and at
    most 2^20 periods: there the [int64] difference does not wrap and the
    binary64 arithmetic of the branch is exact. *)
Theorem C7_fallback_uses_half_of_two_step_difference
    (R : Runtime) (self : forecast_models.EnsembleForecaster.t)
    (series : list Z) (periods : nat) :
  series <> [] ->
  fits_int32 series ->
  Z.of_nat periods <= 1048576 ->
  forecast_models.ProphetForecaster.fit_forecast
    (forecast_models.ProphetForecaster.Series series) periods = None ->
  forecast_models.XGBoostForecaster.fit_forecast series periods (2 # 10) = None ->
  let last_value := last series 0 in
  let trend :=
    if (3 <=? length series)%nat
    then (inject_Z (last_value - nth (length series - 3) series 0)%Z / 2)%Q
    else 0%Q in
  exists r,
    forecast_models.EnsembleForecaster.fit_forecast self series periods = Py.Ok r
    /\ forecast_models.EnsembleForecaster.forecast r
       = map (fun i => inject_Z
                (Z.max 0 (Py.int (inject_Z last_value + trend * inject_Z (Z.of_nat i))%Q)))
             (seq 1 periods).
Proof.
  intros Hne Hfit _ Hp Hx last_value trend.
  rewrite ensemble_fit_forecast_unfold, Hp, Hx; simpl.
  rewrite (fallback_trend_ok series periods Hne); simpl.
  eexists. split; [reflexivity|].
  unfold trend_step. rewrite (trend_of_exact series Hfit). reflexivity.
Qed.

Lemma C7_witness :
  exists r,
    forecast_models.EnsembleForecaster.fit_forecast (R := Fixtures.ensemble_only)
      forecast_models.EnsembleForecaster.__init__ [0; 10; 10] 2 = Py.Ok r
    /\ forecast_models.EnsembleForecaster.forecast r
       = map (fun i => inject_Z
                (Z.max 0 (Py.int (inject_Z 10 + (inject_Z (10 - 0) / 2) * inject_Z (Z.of_nat i))%Q)))
             [1%nat; 2%nat].
Proof.
  apply (C7_fallback_uses_half_of_two_step_difference Fixtures.ensemble_only
           forecast_models.EnsembleForecaster.__init__ [0; 10; 10] 2).
  - discriminate.
  - repeat constructor; lia.
  - simpl. lia.
  - reflexivity.
  - reflexivity.
Defined.

(** With both backends absent and the series [0, 10, 10], the first
    forecast value is 15 (trend (10 - 0) / 2), whereas the slope of the last
    two points, 10 - 10 = 0, would give 10. *)
Lemma C7_counterexample :
  exists r,
    forecast_models.EnsembleForecaster.fit_forecast (R := Fixtures.ensemble_only)
      forecast_models.EnsembleForecaster.__init__ [0; 10; 10] 1 = Py.Ok r
    /\ map Py.int (forecast_models.EnsembleForecaster.forecast r) = [15]
    /\ map Py.int (two_point_extrapolation [0; 10; 10] 1) = [10]
    /\ ~ Forall2 Qeq (forecast_models.EnsembleForecaster.forecast r)
                     (two_point_extrapolation [0; 10; 10] 1).
Proof.
  eexists. split; [reflexivity|].
  split; [reflexivity|]. split; [reflexivity|].
  intros H. inversion H as [| x y l l' Hxy _]; subst.
  vm_compute in Hxy. discriminate Hxy.
Qed.

(* ------------------------------------------------------------------ *)
(** * The degree-1 fit on [0, 1, ..., n-1] *)
(* ------------------------------------------------------------------ *)

Section LeastSquares.









End LeastSquares.

(* ------------------------------------------------------------------ *)
(** * The three producers of forecast points *)
(* ------------------------------------------------------------------ *)

Section Producers.
Context {R : Runtime}.
Import forecasting.


Lemma band_well_formed (m : string) (z : Z) :
  0 <= z ->
  well_formed {| point_month := m;
                 predicted_count := z;
                 lower_bound := Py.int (inject_Z z * (8 # 10))%Q;
                 upper_bound := Py.int (inject_Z z * (12 # 10))%Q |}.
Proof.
  intros Hz. unfold well_formed; simpl.
  auto using band_lower, band_upper.
Qed.

(** The statistical producer. *)
Lemma simple_forecast_shape df periods pts :
  _simple_forecast df periods = Py.Ok pts ->
  length pts = periods
  /\ Forall well_formed pts
  /\ Forall banded pts.
Proof.
  unfold _simple_forecast.
  destruct (np.polyfit1 _ _) as [z | e]; simpl; [|discriminate].
  intros H. split; [|split].
  - apply comprehension_length in H. rewrite H. apply length_seq.
  - eapply comprehension_Forall; [exact H|].
    intros i p _. cbv beta. destruct (strftime_opt _) as [m | e]; simpl; [|discriminate].
    intros Hp; injection Hp as <-. apply band_well_formed, Z.le_max_l.
  - eapply comprehension_Forall; [exact H|].
    intros i p _. cbv beta. destruct (strftime_opt _) as [m | e]; simpl; [|discriminate].
    intros Hp; injection Hp as <-. split; reflexivity.
Qed.


(** The seasonal producer. *)
Lemma prophet_forecast_shape df periods pts :
  _prophet_forecast df periods = Py.Ok pts ->
  length pts = periods
  /\ (prophet_intervals_ordered -> Forall well_formed pts).
Proof.
  unfold _prophet_forecast.
  destruct prophet as [P |] eqn:HP; [|discriminate].
  destruct (Prophet_fit P _ _) as [m | e] eqn:Hfit; simpl; [|discriminate].
  destruct (Prophet_predict P m periods) as [row | e] eqn:Hrow; simpl; [|discriminate].
  intros H; injection H as <-.
  rewrite tail_map_seq, map_map. split.
  - now rewrite length_map, length_seq.
  - intros Hordered. apply Forall_map, Forall_forall. intros i _.
    destruct (Hordered P _ _ m periods row i HP Hfit Hrow) as [Hlo Hhi].
    unfold well_formed; simpl.
    apply int_monotone in Hlo, Hhi. lia.
Qed.

Lemma fallback_trend_values series periods f :
  forecast_models.EnsembleForecaster.fallback_trend series periods = Py.Ok f ->
  Forall (fun q => exists z, q = inject_Z z /\ 0 <= z) f.
Proof.
  unfold forecast_models.EnsembleForecaster.fallback_trend.
  destruct (if (3 <=? length series)%nat then _ else _) as [trend | e];
    simpl; [|discriminate].
  intros H. eapply comprehension_Forall; [exact H|].
  intros i q _. cbv beta. destruct (Py.getitem_neg series 1) as [l | e]; simpl; [|discriminate].
  intros Hq; injection Hq as <-. eexists. split; [reflexivity | apply Z.le_max_l].
Qed.

(** Without a seasonal result the combiner returns non-negative integers. *)
Lemma ensemble_values_without_prophet self series periods r :
  forecast_models.EnsembleForecaster.fit_forecast self series periods = Py.Ok r ->
  forecast_models.ProphetForecaster.fit_forecast
    (forecast_models.ProphetForecaster.Series series) periods = None ->
  Forall (fun q => exists z, q = inject_Z z /\ 0 <= z)
         (forecast_models.EnsembleForecaster.forecast r).
Proof.
  rewrite ensemble_fit_forecast_unfold. intros H Hp. rewrite Hp in H.
  destruct (forecast_models.XGBoostForecaster.fit_forecast series periods _)
    as [x |] eqn:Hx; simpl in H.
  - injection H as <-; simpl.
    apply xgboost_fit_forecast_predictions in Hx as (_ & Hx).
    apply Forall_map. eapply Forall_impl; [|exact Hx].
    intros z Hz. now exists z.
  - destruct (forecast_models.EnsembleForecaster.fallback_trend series periods)
      as [f | e] eqn:Hf; simpl in H; [|discriminate].
    injection H as <-; simpl. eapply fallback_trend_values; eassumption.
Qed.

(** The ensemble producer. *)
Lemma ensemble_forecast_shape df periods pts :
  _ensemble_forecast df periods = Py.Ok pts ->
  length pts = periods
  /\ (forecast_models.ProphetForecaster.fit_forecast
        (forecast_models.ProphetForecaster.Series (counts df)) periods = None ->
      Forall well_formed pts).
Proof.
  unfold _ensemble_forecast.
  destruct (forecast_models.EnsembleForecaster.fit_forecast _ (counts df) periods)
    as [r | e] eqn:Hr; simpl; [|discriminate].
  intros H.
  destruct (ensemble_forecast_length _ _ _ _ Hr) as [Hlen Hprophet].
  split.
  - apply comprehension_length in H. rewrite H.
    unfold Py.range1. rewrite length_combine, length_seq, Hlen. apply Nat.min_id.
  - intros Hnone.
    pose proof (ensemble_values_without_prophet _ _ _ _ Hr Hnone) as Hvals.
    rewrite Hprophet, Hnone in H.
    eapply comprehension_Forall; [exact H|].
    intros [i q] p Hin. apply in_combine_r in Hin.
    rewrite Forall_forall in Hvals. destruct (Hvals q Hin) as (z & -> & Hz).
    destruct (strftime_opt _) as [m | e]; simpl; [|discriminate].
    intros Hp; injection Hp as <-.
    rewrite !int_inject_Z. apply band_well_formed. exact Hz.
Qed.

End Producers.

(* ------------------------------------------------------------------ *)
(** * The forecast returned to the caller *)
(* ------------------------------------------------------------------ *)

Section ForecastResults.
Context {R : Runtime}.
Import forecasting.

(** A labelled producer inside the response: its points are the
    response's points. *)
Lemma labelled_inv (c : Py.result (list ForecastPoint)) (method : string)
    (confidence : Q) (mk : list ForecastPoint -> string -> Q -> Response)
    (resp : Response) :
  (' (forecast, m, conf) <- (forecast <- c ;; Py.Ok (forecast, method, confidence)) ;;
   Py.Ok (mk forecast m conf)) = Py.Ok resp ->
  exists pts, c = Py.Ok pts /\ resp = mk pts method confidence.
Proof.
  destruct c as [pts | e]; simpl; [|discriminate].
  intros H; injection H as <-. now exists pts.
Qed.

Lemma forecast_history_points skill_name historical periods use_ensemble
    skill hist forecast method periods' confidence :
  forecast_history skill_name historical periods use_ensemble
  = Py.Ok (Forecast skill hist forecast method periods' confidence) ->
  length forecast = periods
  /\ (prophet_intervals_ordered ->
      (method = "Ensemble (Prophet + XGBoost)"%string ->
       forecast_models.ProphetForecaster.fit_forecast
         (forecast_models.ProphetForecaster.Series
            (counts (sort_values_date (to_frame historical)))) periods = None) ->
      Forall well_formed forecast).
Proof.
  unfold forecast_history. cbv zeta.
  set (df := sort_values_date (to_frame historical)).
  destruct (select_branch (length historical) use_ensemble); [discriminate | | | |].
  - (* ensemble, with its two handlers *)
    destruct (_ensemble_forecast df periods) as [pts | e] eqn:He;
      cbn [Py.bind Py.try_except].
    + intros H; injection H as <- <- <- <- <- <-.
      apply ensemble_forecast_shape in He as (Hlen & Hwf).
      split; [exact Hlen|]. intros _ Hnone. apply Hwf, Hnone. reflexivity.
    + destruct PROPHET_AVAILABLE; intros H; apply labelled_inv in H as (pts & Hp & E);
        injection E as -> -> -> -> -> ->.
      * apply prophet_forecast_shape in Hp as (Hlen & Hwf). split; auto.
      * apply simple_forecast_shape in Hp as (Hlen & Hwf & _). split; auto.
  - destruct PROPHET_AVAILABLE; intros H; apply labelled_inv in H as (pts & Hp & E);
      injection E as -> -> -> -> -> ->.
    + apply prophet_forecast_shape in Hp as (Hlen & Hwf). split; auto.
    + apply simple_forecast_shape in Hp as (Hlen & Hwf & _). split; auto.
  - intros H; apply labelled_inv in H as (pts & Hp & E);
      injection E as -> -> -> -> -> ->.
    apply prophet_forecast_shape in Hp as (Hlen & Hwf). split; auto.
  - intros H; apply labelled_inv in H as (pts & Hp & E);
      injection E as -> -> -> -> -> ->.
    apply simple_forecast_shape in Hp as (Hlen & Hwf & _). split; auto.
Qed.

End ForecastResults.

(* ------------------------------------------------------------------ *)
(** * The feature engineer *)
(* ------------------------------------------------------------------ *)

Section FeatureEngineer.
Context {R : Runtime}.
Import forecast_models.

Lemma features_with_gaps_columns (series : list Z) :
  pd.columns (XGBoostForecaster.features_with_gaps series XGBoostForecaster.default_lags)
  = [ ("value"%string, as_cells series);
      ("lag_1"%string, pd.shift 1 (as_cells series));
      ("lag_3"%string, pd.shift 3 (as_cells series));
      ("lag_6"%string, pd.shift 6 (as_cells series));
      ("lag_12"%string, pd.shift 12 (as_cells series));
      ("rolling_mean_3"%string, pd.rolling 3 pd.mean (as_cells series));
      ("rolling_std_3"%string, pd.rolling 3 (pd.std np_sqrt) (as_cells series));
      ("rolling_mean_6"%string, pd.rolling 6 pd.mean (as_cells series));
      ("momentum_3"%string, pd.diff 3 (as_cells series));
      ("momentum_6"%string, pd.diff 6 (as_cells series)) ].
Proof. reflexivity. Qed.

Lemma features_with_gaps_index (series : list Z) :
  pd.index (XGBoostForecaster.features_with_gaps series XGBoostForecaster.default_lags)
  = seq 0 (length series).
Proof. reflexivity. Qed.

Lemma nth_map_default {A B} (f : A -> B) (l : list A) (i : nat) (d : B) (d' : A) :
  (i < length l)%nat -> nth i (map f l) d = f (nth i l d').
Proof.
  intros Hi. rewrite (nth_indep _ d (f d')) by (now rewrite length_map).
  apply map_nth.
Qed.

Lemma nth_map_seq {A} (f : nat -> A) (n i : nat) (d : A) :
  (i < n)%nat -> nth i (map f (seq 0 n)) d = f i.
Proof.
  intros Hi. rewrite (nth_map_default f _ i d 0%nat) by (now rewrite length_seq).
  now rewrite seq_nth.
Qed.

Lemma as_cells_length (series : list Z) : length (as_cells series) = length series.
Proof. apply length_map. Qed.

Lemma nth_as_cells (series : list Z) (i : nat) :
  (i < length series)%nat ->
  nth i (as_cells series) None = Some (inject_Z (nth i series 0)).
Proof.
  intros Hi. unfold as_cells.
  exact (nth_map_default (fun v => Some (inject_Z v)) series i None 0 Hi).
Qed.

Lemma nth_shift (k : nat) (series : list Z) (i : nat) :
  (i < length series)%nat ->
  nth i (pd.shift k (as_cells series)) None
  = if (i <? k)%nat then None else Some (inject_Z (nth (i - k) series 0)).
Proof.
  intros Hi. unfold pd.shift. rewrite as_cells_length, nth_map_seq by assumption.
  destruct (Nat.ltb_spec i k); [reflexivity|].
  apply nth_as_cells. lia.
Qed.

Lemma all_defined_as_cells (series : list Z) :
  pd.all_defined (as_cells series) = Some (map inject_Z series).
Proof.
  induction series as [| v series IH]; simpl; [reflexivity|]. now rewrite IH.
Qed.

Lemma window_as_cells (w i : nat) (series : list Z) :
  pd.window w i (as_cells series)
  = as_cells (firstn w (skipn (i + 1 - w) series)).
Proof. unfold pd.window, as_cells. now rewrite skipn_map, firstn_map. Qed.

Lemma nth_rolling (w : nat) (agg : list Q -> Q) (series : list Z) (i : nat) :
  (i < length series)%nat ->
  Py.is_some (nth i (pd.rolling w agg (as_cells series)) None)
  = negb (i + 1 <? w)%nat.
Proof.
  intros Hi. unfold pd.rolling. rewrite as_cells_length, nth_map_seq by assumption.
  destruct (i + 1 <? w)%nat; [reflexivity|].
  now rewrite window_as_cells, all_defined_as_cells.
Qed.

Lemma nth_diff (k : nat) (series : list Z) (i : nat) :
  (i < length series)%nat ->
  Py.is_some (nth i (pd.diff k (as_cells series)) None) = negb (i <? k)%nat.
Proof.
  intros Hi. unfold pd.diff.
  assert (Hlen : length (pd.shift k (as_cells series)) = length series)
    by (unfold pd.shift; now rewrite length_map, length_seq, as_cells_length).
  rewrite (nth_map_default (fun ab : pd.Cell * pd.Cell => pd.sub_cell (fst ab) (snd ab))
             (combine (as_cells series) (pd.shift k (as_cells series)))
             i None (None, None))
    by (rewrite length_combine, Hlen, as_cells_length; lia).
  rewrite combine_nth by (rewrite as_cells_length; symmetry; exact Hlen).
  cbn [fst snd].
  rewrite nth_as_cells, nth_shift by assumption.
  destruct (i <? k)%nat; reflexivity.
Qed.

(** A row of the unfiltered frame is complete exactly from index 12 on. *)
Lemma row_complete_from_12 (series : list Z) (i : nat) :
  (i < length series)%nat ->
  pd.row_complete
    (XGBoostForecaster.features_with_gaps series XGBoostForecaster.default_lags) i
  = (12 <=? i)%nat.
Proof.
  intros Hi. unfold pd.row_complete. rewrite features_with_gaps_columns.
  cbn [forallb snd].
  rewrite !nth_rolling, !nth_diff, !nth_shift, nth_as_cells by assumption.
  destruct (Nat.leb_spec 12 i);
    repeat match goal with
           | |- context [(?a <? ?b)%nat] => destruct (Nat.ltb_spec a b); try lia
           end; reflexivity.
Qed.

Lemma filter_from (k n : nat) :
  filter (fun i => (k <=? i)%nat) (seq 0 n) = seq k (n - k).
Proof.
  induction n as [| n IH]; [reflexivity|].
  rewrite seq_S, filter_app, IH. cbn [filter Nat.add].
  destruct (Nat.leb_spec k n).
  - replace (S n - k)%nat with (S (n - k)) by lia.
    rewrite (seq_S (n - k) k). do 3 f_equal. lia.
  - replace (S n - k)%nat with 0%nat by lia.
    replace (n - k)%nat with 0%nat by lia. reflexivity.
Qed.

Lemma kept_rows (series : list Z) :
  filter (pd.row_complete
            (XGBoostForecaster.features_with_gaps series XGBoostForecaster.default_lags))
         (seq 0 (length series))
  = seq 12 (length series - 12).
Proof.
  rewrite <- filter_from. apply filter_ext_in.
  intros i Hi. apply in_seq in Hi. apply row_complete_from_12. lia.
Qed.

Lemma dropna_index (df : pd.DataFrame) :
  pd.index (pd.dropna df)
  = pd.pick 0%nat (pd.index df) (filter (pd.row_complete df) (seq 0 (pd.len df))).
Proof. reflexivity. Qed.

Lemma dropna_columns (df : pd.DataFrame) :
  pd.columns (pd.dropna df)
  = map (fun nc => (fst nc,
                    pd.pick None (snd nc)
                      (filter (pd.row_complete df) (seq 0 (pd.len df)))))
        (pd.columns df).
Proof. reflexivity. Qed.

Lemma dropna_names (df : pd.DataFrame) : pd.names (pd.dropna df) = pd.names df.
Proof.
  unfold pd.names. rewrite dropna_columns, map_map. reflexivity.
Qed.

Lemma features_with_gaps_len (series : list Z) :
  pd.len (XGBoostForecaster.features_with_gaps series XGBoostForecaster.default_lags)
  = length series.
Proof. unfold pd.len. now rewrite features_with_gaps_index, length_seq. Qed.

Lemma create_features_index (series : list Z) :
  pd.index (XGBoostForecaster.create_features series) = seq 12 (length series - 12).
Proof.
  unfold XGBoostForecaster.create_features, XGBoostForecaster.create_features_lags.
  rewrite dropna_index, features_with_gaps_len, kept_rows, features_with_gaps_index.
  unfold pd.pick. rewrite <- (map_id (seq 12 (length series - 12))) at 2.
  apply map_ext_in. intros i Hi. apply in_seq in Hi.
  rewrite seq_nth by lia. reflexivity.
Qed.

Lemma create_features_columns (series : list Z) :
  pd.names (XGBoostForecaster.create_features series) = feature_columns
  /\ Forall (fun nc => length (snd nc) = (length series - 12)%nat
                       /\ Forall (fun c => Py.is_some c = true) (snd nc))
            (pd.columns (XGBoostForecaster.create_features series)).
Proof.
  unfold XGBoostForecaster.create_features, XGBoostForecaster.create_features_lags.
  split.
  - rewrite dropna_names. unfold pd.names.
    now rewrite features_with_gaps_columns.
  - rewrite dropna_columns, features_with_gaps_len, kept_rows.
    apply Forall_map, Forall_forall. intros [name c] Hin. cbn [snd].
    unfold pd.pick. split; [now rewrite length_map, length_seq|].
    apply Forall_map, Forall_forall. intros i Hi. apply in_seq in Hi.
    assert (Hrow : pd.row_complete
                     (XGBoostForecaster.features_with_gaps series
                        XGBoostForecaster.default_lags) i = true).
    { rewrite row_complete_from_12 by lia. apply Nat.leb_le. lia. }
    unfold pd.row_complete in Hrow. rewrite forallb_forall in Hrow.
    exact (Hrow (name, c) Hin).
Qed.

End FeatureEngineer.

(** C6. For a value series of length L the feature matrix has the columns
    value, lag_1, lag_3, lag_6, lag_12, rolling_mean_3, rolling_std_3,
    rolling_mean_6, momentum_3, momentum_6; a row of the unfiltered frame is
    complete exactly when its index is at least 12, the rows kept are those
    of index 12 to L-1 with every cell defined, and the matrix is empty
    exactly when L <= 12. *)
Theorem C6_feature_matrix_shape (R : Runtime) (series : list Z) :
  let features := forecast_models.XGBoostForecaster.create_features series in
  pd.names features = feature_columns
  /\ (forall i, (i < length series)%nat ->
        pd.row_complete
          (forecast_models.XGBoostForecaster.features_with_gaps series
             forecast_models.XGBoostForecaster.default_lags) i = true
        <-> (12 <= i)%nat)
  /\ pd.index features = seq 12 (length series - 12)
  /\ Forall (fun nc => length (snd nc) = (length series - 12)%nat
                       /\ Forall (fun c => Py.is_some c = true) (snd nc))
            (pd.columns features)
  /\ (pd.len features = 0%nat <-> (length series <= 12)%nat).
Proof.
  intros features. unfold features.
  destruct (create_features_columns series) as [Hnames Hcols].
  split; [exact Hnames|]. split; [|split; [apply create_features_index|split; [exact Hcols|]]].
  - intros i Hi. rewrite row_complete_from_12 by assumption. apply Nat.leb_le.
  - unfold pd.len. rewrite create_features_index, length_seq. lia.
Qed.

Lemma C6_witness :
  pd.row_complete
    (forecast_models.XGBoostForecaster.features_with_gaps (R := Fixtures.full)
       [1; 2; 3; 4; 5; 6; 7; 8; 9; 10; 11; 12; 13; 14]
       forecast_models.XGBoostForecaster.default_lags) 13 = true
  <-> (12 <= 13)%nat.
Proof.
  destruct (C6_feature_matrix_shape Fixtures.full
              [1; 2; 3; 4; 5; 6; 7; 8; 9; 10; 11; 12; 13; 14]) as (_ & Hrow & _).
  apply Hrow. simpl. lia.
Defined.

(* ------------------------------------------------------------------ *)
(** * The recursive multi-step prediction *)
(* ------------------------------------------------------------------ *)

Section RecursivePrediction.
Context {R : Runtime}.
Import forecast_models.

Lemma shift_single_row (c : pd.Column) :
  length c = 1%nat -> pd.shift 1 c = [None].
Proof. intros Hc. unfold pd.shift. rewrite Hc. reflexivity. Qed.

Lemma slice_last_single {A} (l : list A) :
  (1 <= length l)%nat -> length (Py.slice_last 1 l) = 1%nat.
Proof. intros Hl. rewrite slice_last_length. lia. Qed.

Lemma pick_length {A} (d : A) (l : list A) (positions : list nat) :
  length (pd.pick d l positions) = length positions.
Proof. unfold pd.pick. apply length_map. Qed.

Lemma update_features_columns (df : pd.DataFrame) (pred : Q) :
  pd.columns (XGBoostForecaster.update_features df pred)
  = pd.set_column "lag_1" (repeat (Some pred) (pd.len df))
      (map (fun nc => (fst nc, pd.shift 1 (snd nc))) (pd.columns df)).
Proof. reflexivity. Qed.

(** The frame [X.iloc[-1:]] of the forecast loop and its update. *)
Lemma update_after_last_row (series : list Z) (pred : Q) :
  (12 < length series)%nat ->
  let last_features :=
    pd.iloc_last 1 (pd.drop (XGBoostForecaster.create_features series) "value") in
  pd.len last_features = 1%nat
  /\ pd.columns (XGBoostForecaster.update_features last_features pred)
     = [ ("lag_1"%string, [Some pred]);
         ("lag_3"%string, [None]);
         ("lag_6"%string, [None]);
         ("lag_12"%string, [None]);
         ("rolling_mean_3"%string, [None]);
         ("rolling_std_3"%string, [None]);
         ("rolling_mean_6"%string, [None]);
         ("momentum_3"%string, [None]);
         ("momentum_6"%string, [None]) ].
Proof.
  intros Hlen last_features.
  assert (Hrows : pd.len last_features = 1%nat).
  { unfold last_features, pd.len, pd.iloc_last, pd.take_rows, pd.drop. cbn [pd.index].
    rewrite create_features_index. apply slice_last_single.
    rewrite length_seq. lia. }
  split; [exact Hrows|].
  rewrite update_features_columns, Hrows.
  unfold last_features, pd.iloc_last, pd.take_rows, pd.drop. cbn [pd.columns].
  unfold XGBoostForecaster.create_features, XGBoostForecaster.create_features_lags.
  rewrite dropna_columns, features_with_gaps_columns, features_with_gaps_len, kept_rows.
  cbn [map filter fst snd String.eqb Ascii.eqb Bool.eqb negb pd.set_column repeat].
  rewrite !shift_single_row
    by (apply slice_last_single; rewrite pick_length, length_seq; lia).
  reflexivity.
Qed.

End RecursivePrediction.

Section LagColumns.
Context {R : Runtime}.
Import forecast_models.

Lemma slice_last_map_seq {A} (f : nat -> A) (a n : nat) :
  (1 <= n)%nat -> Py.slice_last 1 (map f (seq a n)) = [f (a + n - 1)%nat].
Proof.
  intros Hn. unfold Py.slice_last.
  rewrite length_map, length_seq, skipn_map, skipn_seq.
  replace (n - (n - 1))%nat with 1%nat by lia.
  cbn [seq map]. do 2 f_equal. lia.
Qed.

(** Before any update the last feature row carries the observed lags. *)
Lemma last_row_lag_3 (series : list Z) :
  (12 < length series)%nat ->
  pd.col (pd.iloc_last 1 (pd.drop (XGBoostForecaster.create_features series) "value"))
         "lag_3"
  = [Some (inject_Z (nth (length series - 4) series 0))].
Proof.
  intros Hlen.
  unfold pd.col, pd.iloc_last, pd.take_rows, pd.drop. cbn [pd.columns].
  unfold XGBoostForecaster.create_features, XGBoostForecaster.create_features_lags.
  rewrite dropna_columns, features_with_gaps_columns, features_with_gaps_len, kept_rows.
  cbn [map filter fst snd String.eqb Ascii.eqb Bool.eqb negb pd.lookup].
  unfold pd.pick. rewrite slice_last_map_seq by lia.
  rewrite nth_shift by lia.
  destruct (Nat.ltb_spec (12 + (length series - 12) - 1) 3); [lia|].
  do 4 f_equal. lia.
Qed.

End LagColumns.

(** C3 (what the code does at the failing input).  On a series of more than
    12 points the row fed to the first prediction carries the observed
    lag_3, but the row built for the next prediction has lag_1 equal to the
    predicted value and lag_3, lag_6 and lag_12 undefined: the shift moves
    the single row out of the frame instead of moving the lags along. *)
Theorem C3_update_keeps_only_lag_1
    (R : Runtime) (series : list Z) (pred : Q) :
  (12 < length series)%nat ->
  let last_features :=
    pd.iloc_last 1 (pd.drop (forecast_models.XGBoostForecaster.create_features series)
                            "value") in
  let next := forecast_models.XGBoostForecaster.update_features last_features pred in
  pd.col last_features "lag_3" = [Some (inject_Z (nth (length series - 4) series 0))]
  /\ pd.col next "lag_1" = [Some pred]
  /\ pd.col next "lag_3" = [None]
  /\ pd.col next "lag_6" = [None]
  /\ pd.col next "lag_12" = [None].
Proof.
  intros Hlen last_features next.
  split; [now apply last_row_lag_3|].
  destruct (update_after_last_row series pred Hlen) as [_ Hcols].
  unfold next, last_features, pd.col. rewrite Hcols.
  repeat split.
Qed.

Lemma C3_witness :
  let series := [1; 2; 3; 4; 5; 6; 7; 8; 9; 10; 11; 12; 13; 14] in
  let last_features :=
    pd.iloc_last 1 (pd.drop (forecast_models.XGBoostForecaster.create_features
                               (R := Fixtures.full) series) "value") in
  let next := forecast_models.XGBoostForecaster.update_features last_features 200 in
  pd.col last_features "lag_3" = [Some (inject_Z 11)]
  /\ pd.col next "lag_1" = [Some 200%Q]
  /\ pd.col next "lag_3" = [None]
  /\ pd.col next "lag_6" = [None]
  /\ pd.col next "lag_12" = [None].
Proof.
  apply (C3_update_keeps_only_lag_1 Fixtures.full
           [1; 2; 3; 4; 5; 6; 7; 8; 9; 10; 11; 12; 13; 14] 200).
  simpl. lia.
Defined.

(** The same on a run of the loop: with a regressor that predicts 200, the
    second frame handed to [model.predict] holds 200 in lag_1 and nothing
    else. *)
Example second_prediction_row :
  map pd.columns
      (forecast_models.XGBoostForecaster.feature_rows (R := Fixtures.full)
         Fixtures.constant_xgb tt 2
         (pd.iloc_last 1
            (pd.drop (forecast_models.XGBoostForecaster.create_features
                        (R := Fixtures.full)
                        [1; 2; 3; 4; 5; 6; 7; 8; 9; 10; 11; 12; 13; 14]) "value")))
  = [ [ ("lag_1"%string, [Some (inject_Z 13)]);
        ("lag_3"%string, [Some (inject_Z 11)]);
        ("lag_6"%string, [Some (inject_Z 8)]);
        ("lag_12"%string, [Some (inject_Z 2)]);
        ("rolling_mean_3"%string, [Some (39 # 3)]);
        ("rolling_std_3"%string, [Some (1458 # 1458)]);
        ("rolling_mean_6"%string, [Some (69 # 6)]);
        ("momentum_3"%string, [Some (3 # 1)]);
        ("momentum_6"%string, [Some (6 # 1)]) ];
      [ ("lag_1"%string, [Some (200 # 1)]);
        ("lag_3"%string, [None]);
        ("lag_6"%string, [None]);
        ("lag_12"%string, [None]);
        ("rolling_mean_3"%string, [None]);
        ("rolling_std_3"%string, [None]);
        ("rolling_mean_6"%string, [None]);
        ("momentum_3"%string, [None]);
        ("momentum_6"%string, [None]) ] ].
Proof. vm_compute. reflexivity. Qed.

(* ------------------------------------------------------------------ *)
(** * The data-quality confidence and the normalised sub-scores *)
(* ------------------------------------------------------------------ *)

Section SubScores.
Context {R : Runtime}.
Import forecasting.

Lemma data_confidence_bounds (n : nat) :
  (0 <= Qmin 1 (inject_Z (Z.of_nat n) / 12) * 100)%Q
  /\ (Qmin 1 (inject_Z (Z.of_nat n) / 12) * 100 <= 100)%Q
  /\ ((12 <= n)%nat -> (Qmin 1 (inject_Z (Z.of_nat n) / 12) * 100 == 100)%Q).
Proof.
  assert (Hpos : (0 <= inject_Z (Z.of_nat n) / 12)%Q).
  { apply Qle_shift_div_l; [reflexivity|]. unfold Qle; simpl. lia. }
  split; [|split].
  - apply Qmult_le_0_compat; [|discriminate]. apply Q.min_glb; [discriminate | exact Hpos].
  - assert (H1 : (Qmin 1 (inject_Z (Z.of_nat n) / 12) <= 1)%Q) by apply Q.le_min_l.
    lra.
  - intros Hn. rewrite Q.min_l; [reflexivity|].
    apply Qle_shift_div_l; [reflexivity|]. unfold Qle; simpl. lia.
Qed.

Lemma variance_confidence_bounds (cv : Q) :
  (0 <= Qmax 0 (1 - cv) * 100)%Q
  /\ ((0 <= cv)%Q -> (Qmax 0 (1 - cv) * 100 <= 100)%Q).
Proof.
  split.
  - apply Qmult_le_0_compat; [apply Q.le_max_l | discriminate].
  - intros Hcv. assert (H : (Qmax 0 (1 - cv) <= 1)%Q) by (apply Q.max_lub; lra). lra.
Qed.

Lemma confidence_shape (df : list (Row Timestamp)) :
  (forall q, 0 <= np_sqrt q)%Q ->
  ((length df < 3)%nat -> _calculate_confidence df = 0%Q)
  /\ (0 <= _calculate_confidence df)%Q
  /\ (_calculate_confidence df <= 100)%Q
  /\ ((12 <= length df)%nat -> (50 <= _calculate_confidence df)%Q).
Proof.
  intros Hsqrt. unfold _calculate_confidence.
  destruct (Nat.ltb_spec (length df) 3) as [Hshort | Hlong].
  - repeat split; try discriminate. intros; lia.
  - set (ys := map inject_Z (counts df)).
    set (cv := if Qlt_le_dec 0 (pd.mean ys) then (pd.std np_sqrt ys / pd.mean ys)%Q else 1%Q).
    assert (Hcv : (0 <= cv)%Q).
    { unfold cv. destruct (Qlt_le_dec 0 (pd.mean ys)) as [Hm | Hm]; [|discriminate].
      apply Qle_shift_div_l; [exact Hm|]. rewrite Qmult_0_l. apply Hsqrt. }
    destruct (data_confidence_bounds (length df)) as (Hd0 & Hd100 & Hd12).
    destruct (variance_confidence_bounds cv) as (Hv0 & Hv100).
    specialize (Hv100 Hcv).
    set (dc := (Qmin 1 (inject_Z (Z.of_nat (length df)) / 12) * 100)%Q) in *.
    set (vc := (Qmax 0 (1 - cv) * 100)%Q) in *.
    clearbody dc vc.
    split; [intros; lia|]. split; [|split].
    + apply (round_lower _ 0 2). change (inject_Z 0) with 0%Q.
      unfold Qdiv. change (/ 2)%Q with (1 # 2)%Q. lra.
    + apply (round_upper _ 100 2). change (inject_Z 100) with 100%Q.
      unfold Qdiv. change (/ 2)%Q with (1 # 2)%Q. lra.
    + intros H12. specialize (Hd12 H12).
      apply (round_lower _ 50 2). change (inject_Z 50) with 50%Q.
      unfold Qdiv. change (/ 2)%Q with (1 # 2)%Q. lra.
Qed.

Variable db : Session.

Lemma salary_premium_upper (skill_name : string) :
  (_calculate_salary_premium db skill_name <= 100)%Q.
Proof.
  unfold _calculate_salary_premium.
  destruct (avg_skill_salary db skill_name); [|discriminate].
  destruct (avg_overall_salary db); [|discriminate].
  destruct (_ || _)%bool; [discriminate|]. apply Q.le_min_l.
Qed.

Lemma salary_premium_neutral (skill_name : string) :
  (forall a, avg_skill_salary db skill_name = Some a -> a == 0)%Q
  \/ (forall o, avg_overall_salary db = Some o -> o == 0)%Q ->
  _calculate_salary_premium db skill_name = 50%Q.
Proof.
  unfold _calculate_salary_premium, falsy.
  destruct (avg_skill_salary db skill_name) as [a |]; [|reflexivity].
  destruct (avg_overall_salary db) as [o |]; [|reflexivity].
  intros [H | H].
  - rewrite (proj2 (Qeq_bool_iff a 0) (H a eq_refl)). reflexivity.
  - rewrite (proj2 (Qeq_bool_iff o 0) (H o eq_refl)), orb_true_r. reflexivity.
Qed.

Lemma salary_premium_value (skill_name : string) (a o : Q) :
  avg_skill_salary db skill_name = Some a ->
  avg_overall_salary db = Some o ->
  ~ (a == 0)%Q -> ~ (o == 0)%Q ->
  _calculate_salary_premium db skill_name
  = Qmin 100 (Qmax 0 (50 + ((a - o) / o * 100) / 2))%Q.
Proof.
  intros Ha Ho Hna Hno. unfold _calculate_salary_premium, falsy. rewrite Ha, Ho.
  destruct (Qeq_bool a 0) eqn:Ea; [apply Qeq_bool_eq in Ea; contradiction|].
  destruct (Qeq_bool o 0) eqn:Eo; [apply Qeq_bool_eq in Eo; contradiction|].
  reflexivity.
Qed.

End SubScores.

Lemma round_comp (a b : Q) (n : nat) : (a == b)%Q -> (Py.round a n == Py.round b n)%Q.
Proof.
  intros E. apply Qle_antisym; apply round_monotone; rewrite E; apply Qle_refl.
Qed.

Lemma round_of_Z (q : Q) (z : Z) (n : nat) : (q == inject_Z z)%Q -> (Py.round q n == inject_Z z)%Q.
Proof. intros E. rewrite (round_comp _ _ n E). apply round_Z. Qed.

Section DemandScore.
Context {R : Runtime}.
Variable db : forecasting.Session.
Import forecasting.

Lemma demand_score_shape (skill_name : string) :
  let skill_jobs := or0 (count_job_skills db skill_name) in
  let max_count := match max_jobs_per_skill db with Some m => m | None => 1%nat end in
  (skill_jobs = 0%nat -> (_calculate_demand_score db skill_name == 0)%Q)
  /\ ((skill_jobs <= max_count)%nat -> (_calculate_demand_score db skill_name <= 100)%Q)
  /\ (skill_jobs = max_count -> (0 < max_count)%nat ->
      (_calculate_demand_score db skill_name == 100)%Q).
Proof.
  intros skill_jobs max_count. unfold _calculate_demand_score.
  fold skill_jobs. fold max_count.
  split; [|split].
  - intros H0. rewrite H0. apply (round_of_Z _ 0 2).
    destruct (0 <? max_count)%nat; [|reflexivity].
    unfold Qdiv. simpl inject_Z. ring.
  - intros Hle. apply (round_upper _ 100 2). change (inject_Z 100) with 100%Q.
    destruct (Nat.ltb_spec 0 max_count) as [Hpos | Hzero]; [|discriminate].
    assert (Hq : (inject_Z (Z.of_nat skill_jobs) / inject_Z (Z.of_nat max_count) <= 1)%Q).
    { apply Qle_shift_div_r; [unfold Qlt; simpl; lia|].
      rewrite Qmult_1_l. rewrite <- Zle_Qle. lia. }
    lra.
  - intros Heq Hpos. apply (round_of_Z _ 100 2).
    destruct (Nat.ltb_spec 0 max_count) as [_ | Hzero]; [|lia].
    rewrite Heq. change (inject_Z 100) with 100%Q. field.
    intros H0. unfold Qeq in H0; simpl in H0. lia.
Qed.

End DemandScore.

Lemma fixture_sqrt_nonneg (q : Q) : (0 <= @np_sqrt Fixtures.bare q)%Q.
Proof.
  unfold Qle; simpl. rewrite Z.mul_1_r. apply Z.sqrt_nonneg.
Qed.

(** X1. [_calculate_confidence] is 0 on fewer than 3 rows; with a
    non-negative square root it always lies in [0, 100], and with at least
    12 rows it is at least 50, the history half of the average being
    saturated. *)
Theorem X1_confidence_zero_when_short_else_bounded
    (R : Runtime) (df : list (forecasting.Row Timestamp)) :
  (forall q, 0 <= np_sqrt q)%Q ->
  ((length df < 3)%nat -> forecasting._calculate_confidence df = 0%Q)
  /\ (0 <= forecasting._calculate_confidence df)%Q
  /\ (forecasting._calculate_confidence df <= 100)%Q
  /\ ((12 <= length df)%nat -> (50 <= forecasting._calculate_confidence df)%Q).
Proof. apply confidence_shape. Qed.

Lemma X1_witness :
  (0 <= forecasting._calculate_confidence (R := Fixtures.bare)
          (forecasting.to_frame (Fixtures.history_of [100; 105; 110; 115]%Z)))%Q
  /\ (forecasting._calculate_confidence (R := Fixtures.bare)
        (forecasting.to_frame (Fixtures.history_of [100; 105; 110; 115]%Z)) <= 100)%Q.
Proof.
  destruct (X1_confidence_zero_when_short_else_bounded Fixtures.bare
              (forecasting.to_frame (Fixtures.history_of [100; 105; 110; 115]%Z))
              fixture_sqrt_nonneg) as (_ & Hlo & Hhi & _).
  split; assumption.
Defined.

(** X2. The salary premium always lies in [0, 100]; it is the neutral 50
    when the skill's or the overall average is missing or zero, and
    otherwise 50 + ((skill - overall) / overall * 100) / 2 clamped to
    [0, 100]. *)
Theorem X2_salary_premium_clamped_and_neutral_without_data
    (db : forecasting.Session) (skill_name : string) :
  (0 <= forecasting._calculate_salary_premium db skill_name)%Q
  /\ (forecasting._calculate_salary_premium db skill_name <= 100)%Q
  /\ ((forall a, forecasting.avg_skill_salary db skill_name = Some a -> a == 0)%Q
      \/ (forall o, forecasting.avg_overall_salary db = Some o -> o == 0)%Q ->
      forecasting._calculate_salary_premium db skill_name = 50%Q)
  /\ (forall a o,
        forecasting.avg_skill_salary db skill_name = Some a ->
        forecasting.avg_overall_salary db = Some o ->
        ~ (a == 0)%Q -> ~ (o == 0)%Q ->
        forecasting._calculate_salary_premium db skill_name
        = Qmin 100 (Qmax 0 (50 + ((a - o) / o * 100) / 2))%Q).
Proof.
  split; [apply salary_premium_bounds|].
  split; [apply salary_premium_upper|].
  split; [apply salary_premium_neutral|].
  intros a o. apply salary_premium_value.
Qed.

Lemma X2_witness :
  forecasting._calculate_salary_premium (Fixtures.session 24) "python"
  = Qmin 100 (Qmax 0 (50 + ((120 - 100) / 100 * 100) / 2))%Q.
Proof.
  destruct (X2_salary_premium_clamped_and_neutral_without_data
              (Fixtures.session 24) "python") as (_ & _ & _ & Hvalue).
  apply Hvalue; try reflexivity; discriminate.
Defined.

(** X3. With a positive overall average, a higher average salary of the
    skill never gives a lower premium as long as both averages are non-zero.
    The order does not extend to an average of zero, which the code treats
    as missing: it gets the neutral 50, whereas a positive average of at
    most half the overall one gets at most 25. *)
Theorem X3_salary_premium_monotone_in_skill_average
    (db db' : forecasting.Session) (skill_name : string) (a a' o : Q) :
  forecasting.avg_skill_salary db skill_name = Some a ->
  forecasting.avg_skill_salary db' skill_name = Some a' ->
  forecasting.avg_overall_salary db = Some o ->
  forecasting.avg_overall_salary db' = Some o ->
  (0 < o)%Q -> (a <= a')%Q ->
  (~ (a == 0)%Q -> ~ (a' == 0)%Q ->
   (forecasting._calculate_salary_premium db skill_name
    <= forecasting._calculate_salary_premium db' skill_name)%Q)
  /\ ((a == 0)%Q -> (0 < a')%Q -> (2 * a' <= o)%Q ->
      forecasting._calculate_salary_premium db skill_name = 50%Q
      /\ (forecasting._calculate_salary_premium db' skill_name <= 25)%Q).
Proof.
  intros Ha Ha' Ho Ho' Hpos Hle.
  assert (Hno : ~ (o == 0)%Q) by (intros E; rewrite E in Hpos; discriminate).
  split.
  - intros Hna Hna'.
    rewrite (salary_premium_value db skill_name a o Ha Ho Hna Hno).
    rewrite (salary_premium_value db' skill_name a' o Ha' Ho' Hna' Hno).
    apply Q.min_le_compat_l, Q.max_le_compat_l.
    assert (Hdiv : ((a - o) / o <= (a' - o) / o)%Q).
    { unfold Qdiv. apply Qmult_le_compat_r; [lra|].
      apply Qlt_le_weak, Qinv_lt_0_compat, Hpos. }
    set (x := ((a - o) / o)%Q) in *. set (y := ((a' - o) / o)%Q) in *. clearbody x y.
    unfold Qdiv. change (/ 2)%Q with (1 # 2)%Q. lra.
  - intros Hzero Hpos' Hhalf. split.
    + apply salary_premium_neutral. left. intros a0 E.
      rewrite Ha in E. injection E as <-. exact Hzero.
    + assert (Hna' : ~ (a' == 0)%Q) by (intros E; rewrite E in Hpos'; discriminate).
      rewrite (salary_premium_value db' skill_name a' o Ha' Ho' Hna' Hno).
      assert (Hdiv : ((a' - o) / o <= - (1 # 2))%Q).
      { apply Qle_shift_div_r; [exact Hpos | lra]. }
      set (y := ((a' - o) / o)%Q) in *. clearbody y.
      assert (Hn : (50 + y * 100 / 2 <= 25)%Q)
        by (unfold Qdiv; change (/ 2)%Q with (1 # 2)%Q; lra).
      apply Q.min_le_iff. right. apply Q.max_lub; [discriminate | exact Hn].
Qed.

Lemma X3_witness :
  (forecasting._calculate_salary_premium (Fixtures.paid_session 24 110) "python"
   <= forecasting._calculate_salary_premium (Fixtures.paid_session 24 130) "python")%Q
  /\ forecasting._calculate_salary_premium (Fixtures.paid_session 24 0) "python" = 50%Q
  /\ (forecasting._calculate_salary_premium (Fixtures.paid_session 24 10) "python" <= 25)%Q.
Proof.
  assert (Hpos : (0 < 100)%Q) by reflexivity.
  assert (Hle : (110 <= 130)%Q) by discriminate.
  assert (Hle0 : (0 <= 10)%Q) by discriminate.
  pose proof (X3_salary_premium_monotone_in_skill_average
                (Fixtures.paid_session 24 110) (Fixtures.paid_session 24 130)
                "python" 110 130 100 eq_refl eq_refl eq_refl eq_refl Hpos Hle)
    as [Hmono _].
  pose proof (X3_salary_premium_monotone_in_skill_average
                (Fixtures.paid_session 24 0) (Fixtures.paid_session 24 10)
                "python" 0 10 100 eq_refl eq_refl eq_refl eq_refl Hpos Hle0)
    as [_ Hzero].
  split.
  - apply Hmono; discriminate.
  - apply Hzero; [reflexivity | reflexivity | discriminate].
Defined.

(** X4. The demand score is never negative, is 0 for a skill without job
    records, is at most 100 whenever the skill has no more records than the
    maximum over all skills, and is 100 for the skill that attains a
    positive maximum. *)
Theorem X4_demand_score_between_0_and_100
    (db : forecasting.Session) (skill_name : string) :
  let skill_jobs := forecasting.or0 (forecasting.count_job_skills db skill_name) in
  let max_count :=
    match forecasting.max_jobs_per_skill db with Some m => m | None => 1%nat end in
  (0 <= forecasting._calculate_demand_score db skill_name)%Q
  /\ (skill_jobs = 0%nat -> (forecasting._calculate_demand_score db skill_name == 0)%Q)
  /\ ((skill_jobs <= max_count)%nat ->
      (forecasting._calculate_demand_score db skill_name <= 100)%Q)
  /\ (skill_jobs = max_count -> (0 < max_count)%nat ->
      (forecasting._calculate_demand_score db skill_name == 100)%Q).
Proof.
  intros skill_jobs max_count.
  split; [apply demand_score_nonneg | apply demand_score_shape].
Qed.

Lemma X4_witness :
  (forecasting._calculate_demand_score (Fixtures.session 24) "python" <= 100)%Q.
Proof.
  destruct (X4_demand_score_between_0_and_100 (Fixtures.session 24) "python")
    as (_ & _ & Hle & _).
  apply Hle. simpl. lia.
Defined.

(* ------------------------------------------------------------------ *)
(** * More on the producers and the orchestrator *)
(* ------------------------------------------------------------------ *)

Section MoreProducers.
Context {R : Runtime}.
Import forecasting.


Lemma prophet_forecast_nonnegative df periods pts :
  _prophet_forecast df periods = Py.Ok pts ->
  Forall (fun p => 0 <= predicted_count p /\ 0 <= lower_bound p /\ 0 <= upper_bound p) pts.
Proof.
  unfold _prophet_forecast.
  destruct prophet as [P |]; [|discriminate].
  destruct (Prophet_fit P _ _) as [m | e]; simpl; [|discriminate].
  destruct (Prophet_predict P m periods) as [row | e]; simpl; [|discriminate].
  intros H; injection H as <-.
  apply Forall_map, Forall_forall. intros r _. simpl.
  repeat split; apply Z.le_max_l.
Qed.

Lemma prophet_forecast_propagates P df periods e :
  prophet = Some P ->
  Prophet_fit P prophet_config (map (fun r => (date r, inject_Z (row_count r))) df)
  = Py.Raise e ->
  _prophet_forecast df periods = Py.Raise e.
Proof.
  intros HP Hfit. unfold _prophet_forecast. rewrite HP, Hfit. reflexivity.
Qed.



Lemma insert_by_date_length r df : length (insert_by_date r df) = S (length df).
Proof.
  induction df as [| r' df IH]; simpl; [reflexivity|].
  destruct (Timestamp_leb (date r) (date r')); simpl; [reflexivity | now rewrite IH].
Qed.

Lemma insert_by_date_permutation r df : Permutation (r :: df) (insert_by_date r df).
Proof.
  induction df as [| r' df IH]; simpl; [apply Permutation_refl|].
  destruct (Timestamp_leb (date r) (date r')); [apply Permutation_refl|].
  eapply perm_trans; [apply perm_swap|]. now apply perm_skip.
Qed.

Lemma sort_values_date_permutation df : Permutation df (sort_values_date df).
Proof.
  induction df as [| r df IH]; simpl; [constructor|].
  eapply perm_trans; [apply perm_skip, IH | apply insert_by_date_permutation].
Qed.

Lemma sort_values_date_length df : length (sort_values_date df) = length df.
Proof. symmetry. apply Permutation_length, sort_values_date_permutation. Qed.

Lemma insert_by_date_head r r' df :
  by_date r' r -> HdRel by_date r' df -> HdRel by_date r' (insert_by_date r df).
Proof.
  intros Hr Hd. destruct df as [| r'' df]; simpl; [now constructor|].
  destruct (Timestamp_leb (date r) (date r'')); constructor;
    [assumption | now inversion Hd].
Qed.

Lemma insert_by_date_sorted r df :
  timestamps_total -> Sorted by_date df -> Sorted by_date (insert_by_date r df).
Proof.
  intros Htotal Hs. induction Hs as [| r' df Hs IH Hd]; simpl.
  - repeat constructor.
  - destruct (Timestamp_leb (date r) (date r')) eqn:Hcmp.
    + constructor; [now constructor | now constructor].
    + constructor; [exact IH|].
      apply insert_by_date_head; [|exact Hd]. apply Htotal, Hcmp.
Qed.

Lemma sort_values_date_sorted df :
  timestamps_total -> Sorted by_date (sort_values_date df).
Proof.
  intros Htotal. induction df as [| r df IH]; simpl; [constructor|].
  now apply insert_by_date_sorted.
Qed.

Lemma max_date_of_frame (df : list (Row Timestamp)) :
  df <> [] -> exists d, max_date df = Some d /\ In d (map date df).
Proof.
  induction df as [| r df IH]; [contradiction|]. intros _. simpl.
  destruct df as [| r2 df].
  - exists (date r). simpl. auto.
  - destruct IH as (d & Hd & Hin); [discriminate|].
    rewrite Hd. destruct (Timestamp_leb d (date r)).
    + exists (date r). auto.
    + exists d. auto.
Qed.




End MoreProducers.

(** X5. [_prophet_forecast] raises [NameError] when the Prophet import
    failed and lets an exception of the fit through; when it returns, it
    returns [periods] points whose predicted count and bounds are all
    non-negative. *)
Theorem X5_prophet_forecast_floors_every_field
    (R : Runtime) (df : list (forecasting.Row Timestamp)) (periods : nat) :
  (prophet = None -> forecasting._prophet_forecast df periods = Py.Raise Py.NameError)
  /\ (forall P e,
        prophet = Some P ->
        Prophet_fit P forecasting.prophet_config
          (map (fun r => (forecasting.date r, inject_Z (forecasting.row_count r))) df)
        = Py.Raise e ->
        forecasting._prophet_forecast df periods = Py.Raise e)
  /\ (forall pts,
        forecasting._prophet_forecast df periods = Py.Ok pts ->
        length pts = periods
        /\ Forall (fun p => 0 <= forecasting.predicted_count p
                            /\ 0 <= forecasting.lower_bound p
                            /\ 0 <= forecasting.upper_bound p) pts).
Proof.
  split; [|split].
  - intros HP. unfold forecasting._prophet_forecast. now rewrite HP.
  - intros P e. apply prophet_forecast_propagates.
  - intros pts H. split.
    + now apply prophet_forecast_shape in H.
    + now apply prophet_forecast_nonnegative in H.
Qed.

Lemma X5_witness :
  forecasting._prophet_forecast (R := Fixtures.bare)
    (forecasting.to_frame (Fixtures.history_of [1; 2; 3])) 2 = Py.Raise Py.NameError.
Proof.
  destruct (X5_prophet_forecast_floors_every_field Fixtures.bare
              (forecasting.to_frame (Fixtures.history_of [1; 2; 3])) 2) as (Hname & _).
  apply Hname. reflexivity.
Defined.


(** X7. [df.sort_values('date')] keeps every row, and when the comparison
    of timestamps is total the rows come out in chronological order. *)
Theorem X7_sort_values_is_a_sorted_permutation
    (R : Runtime) (df : list (forecasting.Row Timestamp)) :
  Permutation df (forecasting.sort_values_date df)
  /\ length (forecasting.sort_values_date df) = length df
  /\ (timestamps_total -> Sorted by_date (forecasting.sort_values_date df)).
Proof.
  split; [apply sort_values_date_permutation|].
  split; [apply sort_values_date_length | apply sort_values_date_sorted].
Qed.

Lemma fixture_timestamps_total : @timestamps_total Fixtures.bare.
Proof.
  intros a b H. simpl in *. apply Z.leb_gt in H. apply Z.leb_le. lia.
Qed.

Lemma X7_witness :
  Sorted (@by_date Fixtures.bare)
    (forecasting.sort_values_date (R := Fixtures.bare)
       [ {| forecasting.row_month := "2024-03"; forecasting.row_count := 3;
            forecasting.date := 3 |};
         {| forecasting.row_month := "2024-01"; forecasting.row_count := 1;
            forecasting.date := 1 |};
         {| forecasting.row_month := "2024-02"; forecasting.row_count := 2;
            forecasting.date := 2 |} ]).
Proof.
  destruct (X7_sort_values_is_a_sorted_permutation Fixtures.bare
              [ {| forecasting.row_month := "2024-03"; forecasting.row_count := 3;
                   forecasting.date := 3 |};
                {| forecasting.row_month := "2024-01"; forecasting.row_count := 1;
                   forecasting.date := 1 |};
                {| forecasting.row_month := "2024-02"; forecasting.row_count := 2;
                   forecasting.date := 2 |} ]) as (_ & _ & Hsorted).
  apply Hsorted. exact fixture_timestamps_total.
Defined.







(* ------------------------------------------------------------------ *)
(** * Sorting by a key, and the listings built on it *)
(* ------------------------------------------------------------------ *)

Section SortedDesc.
Context {A : Type} (key : A -> Q).

Lemma insert_desc_permutation (x : A) (l : list A) :
  Permutation (x :: l) (Py.insert_desc key x l).
Proof.
  induction l as [| y l IH]; simpl; [apply Permutation_refl|].
  destruct (Qle_bool (key y) (key x)); [apply Permutation_refl|].
  eapply perm_trans; [apply perm_swap | now apply perm_skip].
Qed.

Lemma sorted_desc_permutation (l : list A) : Permutation l (Py.sorted_desc key l).
Proof.
  induction l as [| x l IH]; simpl; [constructor|].
  eapply perm_trans; [apply perm_skip, IH | apply insert_desc_permutation].
Qed.

Lemma insert_desc_head (x y : A) (l : list A) :
  descending key y x -> HdRel (descending key) y l ->
  HdRel (descending key) y (Py.insert_desc key x l).
Proof.
  intros Hx Hd. destruct l as [| z l]; simpl; [now constructor|].
  destruct (Qle_bool (key z) (key x)); constructor; [assumption | now inversion Hd].
Qed.

Lemma insert_desc_sorted (x : A) (l : list A) :
  Sorted (descending key) l -> Sorted (descending key) (Py.insert_desc key x l).
Proof.
  intros Hs. induction Hs as [| y l Hs IH Hd]; simpl.
  - repeat constructor.
  - destruct (Qle_bool (key y) (key x)) eqn:Hcmp.
    + apply Qle_bool_iff in Hcmp. constructor; [now constructor | now constructor].
    + constructor; [exact IH|]. apply insert_desc_head; [|exact Hd].
      unfold descending. apply Qlt_le_weak, Qnot_le_lt. intros Hle.
      apply Qle_bool_iff in Hle. congruence.
Qed.

Lemma sorted_desc_sorted (l : list A) : Sorted (descending key) (Py.sorted_desc key l).
Proof.
  induction l as [| x l IH]; simpl; [constructor | now apply insert_desc_sorted].
Qed.

Lemma firstn_sorted (R : A -> A -> Prop) (n : nat) (l : list A) :
  Sorted R l -> Sorted R (firstn n l).
Proof.
  intros Hs. revert n. induction Hs as [| x l Hs IH Hd]; intros [| n]; simpl;
    try constructor.
  - apply IH.
  - destruct Hd as [| y l' Hxy]; [destruct n; constructor|].
    destruct n; simpl; constructor. exact Hxy.
Qed.

Lemma in_firstn (n : nat) (l : list A) (x : A) : In x (firstn n l) -> In x l.
Proof.
  intros H. rewrite <- (firstn_skipn n l). apply in_or_app. now left.
Qed.

Lemma Forall_sorted_prefix (P : A -> Prop) (n : nat) (l : list A) :
  Forall P l -> Forall P (firstn n (Py.sorted_desc key l)).
Proof.
  intros H. apply Forall_forall. intros x Hx.
  apply in_firstn in Hx.
  apply (Permutation_in _ (Permutation_sym (sorted_desc_permutation l))) in Hx.
  rewrite Forall_forall in H. now apply H.
Qed.

Lemma sorted_prefix_length (n : nat) (l : list A) :
  length (firstn n (Py.sorted_desc key l)) = Nat.min n (length l).
Proof.
  rewrite length_firstn.
  now rewrite <- (Permutation_length (sorted_desc_permutation l)).
Qed.

End SortedDesc.

Section Listings.
Context {R : Runtime}.
Variable db : forecasting.Session.
Variable listings : forecasting.Listings.
Import forecasting.

Lemma enumerate_length {A} (l : list A) : length (Py.enumerate l) = length l.
Proof. unfold Py.enumerate. rewrite length_combine, length_seq. apply Nat.min_id. Qed.

Lemma enumerate_in {A} (l : list A) (k : nat) (a : A) :
  In (k, a) (Py.enumerate l) -> In a l.
Proof. unfold Py.enumerate. apply in_combine_r. Qed.

Lemma hottest_skills_shape (rng : nat -> nat -> nat -> Q) (limit : nat) :
  let result := get_hottest_skills db listings rng limit in
  length result = Nat.min limit (length (top_skills listings (limit * 2)))
  /\ Sorted (descending hot_hotness) result
  /\ Forall (fun h => (0 <= hot_hotness h)%Q /\ (hot_hotness h <= 100)%Q
                      /\ rating h = rating_of (hot_hotness h)
                      /\ In (hot_skill h, hot_count h) (top_skills listings (limit * 2)))
            result.
Proof.
  intros result. unfold result, get_hottest_skills.
  split; [|split].
  - now rewrite sorted_prefix_length, length_map, enumerate_length.
  - apply firstn_sorted, sorted_desc_sorted.
  - apply Forall_sorted_prefix, Forall_map, Forall_forall.
    intros [k [skill_name count]] Hin. cbn [hot_hotness hot_skill hot_count rating].
    destruct (hotness_default_bounded (R := with_draws R (rng k 0%nat)) db skill_name)
      as [Hlo Hhi].
    repeat split; try assumption. eapply enumerate_in, Hin.
Qed.

Lemma trending_skills_shape (rng : nat -> nat -> nat -> Q) (limit : nat) (min_growth : Q) :
  let result := get_trending_skills db listings rng limit min_growth in
  (length result <= limit)%nat
  /\ Sorted (descending growth_rate) result
  /\ Forall (fun t => (min_growth <= growth_rate t)%Q
                      /\ trend t = trend_label (growth_rate t)
                      /\ (0 <= hotness t)%Q /\ (hotness t <= 100)%Q
                      /\ In (trending_skill t, trending_count t)
                            (skills_with_at_least listings 10))
            result.
Proof.
  intros result. unfold result, get_trending_skills.
  split; [|split].
  - rewrite sorted_prefix_length. apply Nat.le_min_l.
  - apply firstn_sorted, sorted_desc_sorted.
  - apply Forall_sorted_prefix, Forall_forall.
    intros t Ht. apply in_flat_map in Ht as ([k [skill_name count]] & Hin & Ht).
    destruct (Qle_bool min_growth _) eqn:Hge; [|contradiction].
    destruct Ht as [<- | []]. cbn [growth_rate trend hotness trending_skill trending_count].
    apply Qle_bool_iff in Hge.
    destruct (hotness_default_bounded (R := with_draws R (rng k 1%nat)) db skill_name)
      as [Hlo Hhi].
    repeat split; try assumption. eapply enumerate_in, Hin.
Qed.

End Listings.

Section TopSkills.
Context {R : Runtime}.
Variable db : forecasting.Session.
Variable listings : forecasting.Listings.
Import forecasting.

Lemma forecast_history_skill skill_name historical periods use_ensemble r :
  forecast_history skill_name historical periods use_ensemble = Py.Ok r ->
  response_skill r = skill_name.
Proof.
  unfold forecast_history. cbv zeta.
  set (df := sort_values_date (to_frame historical)).
  destruct (select_branch (length historical) use_ensemble).
  - intros H; injection H as <-. reflexivity.
  - destruct (_ensemble_forecast df periods) as [pts | e];
      cbn [Py.bind Py.try_except].
    + intros H; injection H as <-. reflexivity.
    + destruct PROPHET_AVAILABLE; intros H; apply labelled_inv in H as (pts & _ & ->);
        reflexivity.
  - destruct PROPHET_AVAILABLE; intros H; apply labelled_inv in H as (pts & _ & ->);
      reflexivity.
  - intros H; apply labelled_inv in H as (pts & _ & ->); reflexivity.
  - intros H; apply labelled_inv in H as (pts & _ & ->); reflexivity.
Qed.

(** A response of the public call is the error exactly for a skill without
    job records, and is about the skill that was asked for. *)
Lemma forecast_skill_demand_response skill_name periods use_ensemble r :
  forecast_skill_demand db skill_name periods use_ensemble = Py.Ok r ->
  response_skill r = skill_name
  /\ negb (is_error r) = negb (or0 (count_job_skills db skill_name) =? 0)%nat.
Proof.
  unfold forecast_skill_demand. intros H.
  split; [eapply forecast_history_skill; eassumption|].
  pose proof (history_length db skill_name 12) as Hlen.
  destruct (Nat.eqb_spec (or0 (count_job_skills db skill_name)) 0) as [E | NE].
  - rewrite forecast_history_short in H by (rewrite Hlen; lia).
    injection H as <-. reflexivity.
  - destruct r as [s e m a | s h f m p c]; [|reflexivity].
    exfalso. revert H. apply forecast_history_not_error. rewrite Hlen. lia.
Qed.

End TopSkills.

Section TopSkillsList.
Context {R : Runtime}.
Variable db : forecasting.Session.
Variable listings : forecasting.Listings.
Import forecasting.

Lemma kept_forecasts (periods : nat) (rng : nat -> nat -> Q)
    (asked : list (nat * (string * nat))) (forecasts : list Response) :
  Forall2 (fun ks r =>
             forecast_skill_demand (R := with_draws R (rng (fst ks))) db
                                   (fst (snd ks)) periods true = Py.Ok r)
          asked forecasts ->
  map response_skill (filter (fun r => negb (is_error r)) forecasts)
  = map fst (filter (has_records db) (map snd asked)).
Proof.
  induction 1 as [| ks r asked forecasts Hr _ IH]; [reflexivity|].
  apply (forecast_skill_demand_response (R := with_draws R (rng (fst ks)))) in Hr.
  destruct Hr as [Hskill Herr].
  cbn [filter map]. unfold has_records at 1. rewrite Herr.
  destruct (negb (or0 (count_job_skills db (fst (snd ks))) =? 0)%nat);
    cbn [map]; rewrite IH; [rewrite Hskill|]; reflexivity.
Qed.

Lemma enumerate_snd {A} (l : list A) : map snd (Py.enumerate l) = l.
Proof.
  unfold Py.enumerate. generalize 0%nat.
  induction l as [| a l IH]; intros k; simpl; [reflexivity | now rewrite IH].
Qed.

Lemma top_skills_forecasts (rng : nat -> nat -> Q) (top_n periods : nat)
    (results : list Response) :
  forecast_top_skills db listings rng top_n periods = Py.Ok results ->
  Forall (fun r => is_error r = false) results
  /\ map response_skill results
     = map fst (filter (has_records db) (top_skills listings top_n)).
Proof.
  unfold forecast_top_skills.
  destruct (Py.comprehension _ _) as [forecasts | e] eqn:Hc; simpl; [|discriminate].
  intros H; injection H as <-. split.
  - apply Forall_forall. intros r Hr. apply filter_In in Hr as [_ Hr].
    now apply negb_true_iff in Hr.
  - apply comprehension_inv in Hc.
    rewrite (kept_forecasts periods rng _ _ Hc). now rewrite enumerate_snd.
Qed.

End TopSkillsList.

Section SalaryTrend.
Context {R : Runtime}.
Variable listings : forecasting.Listings.
Import forecasting.



End SalaryTrend.

(** X11. [forecast_top_skills] never hands an error entry on: when it
    returns, its forecasts are, in the order of the listing, those of exactly
    the listed skills that have at least one job record. *)
Theorem X11_top_skills_keeps_skills_with_records
    (R : Runtime) (db : forecasting.Session) (listings : forecasting.Listings)
    (rng : nat -> nat -> Q) (top_n periods : nat)
    (results : list forecasting.Response) :
  forecasting.forecast_top_skills db listings rng top_n periods = Py.Ok results ->
  Forall (fun r => forecasting.is_error r = false) results
  /\ map response_skill results
     = map fst (filter (has_records db) (forecasting.top_skills listings top_n)).
Proof. apply top_skills_forecasts. Qed.

(** X12. [get_trending_skills] returns at most [limit] entries, sorted by
    growth rate in descending order; every entry is a listed skill whose
    growth rate reaches [min_growth], labelled from that growth rate, with a
    hotness in [0, 100]. *)
Theorem X12_trending_skills_filtered_sorted_limited
    (R : Runtime) (db : forecasting.Session) (listings : forecasting.Listings)
    (rng : nat -> nat -> nat -> Q) (limit : nat) (min_growth : Q) :
  let result := forecasting.get_trending_skills db listings rng limit min_growth in
  (length result <= limit)%nat
  /\ Sorted (descending forecasting.growth_rate) result
  /\ Forall (fun t => (min_growth <= forecasting.growth_rate t)%Q
                      /\ forecasting.trend t
                         = forecasting.trend_label (forecasting.growth_rate t)
                      /\ (0 <= forecasting.hotness t)%Q
                      /\ (forecasting.hotness t <= 100)%Q
                      /\ In (forecasting.trending_skill t, forecasting.trending_count t)
                            (forecasting.skills_with_at_least listings 10))
            result.
Proof. apply trending_skills_shape. Qed.

(** X13. [get_hottest_skills] returns the [limit] hottest of the listed
    skills (all of them when fewer are listed), sorted by hotness in
    descending order; every hotness lies in [0, 100] and every rating is the
    one of its hotness. *)
Theorem X13_hottest_skills_sorted_and_limited
    (R : Runtime) (db : forecasting.Session) (listings : forecasting.Listings)
    (rng : nat -> nat -> nat -> Q) (limit : nat) :
  let result := forecasting.get_hottest_skills db listings rng limit in
  length result = Nat.min limit (length (forecasting.top_skills listings (limit * 2)))
  /\ Sorted (descending forecasting.hot_hotness) result
  /\ Forall (fun h => (0 <= forecasting.hot_hotness h)%Q
                      /\ (forecasting.hot_hotness h <= 100)%Q
                      /\ forecasting.rating h
                         = forecasting.rating_of (forecasting.hot_hotness h)
                      /\ In (forecasting.hot_skill h, forecasting.hot_count h)
                            (forecasting.top_skills listings (limit * 2)))
            result.
Proof. apply hottest_skills_shape. Qed.


Lemma X11_witness :
  exists results,
    forecasting.forecast_top_skills (R := Fixtures.full) Fixtures.skills_session
      (Fixtures.listings []) (Fixtures.steady 1) 3 2 = Py.Ok results
    /\ map response_skill results = ["python"; "sql"]%string.
Proof.
  assert (H : exists results,
             forecasting.forecast_top_skills (R := Fixtures.full) Fixtures.skills_session
               (Fixtures.listings []) (Fixtures.steady 1) 3 2 = Py.Ok results)
    by (vm_compute; eexists; reflexivity).
  destruct H as [results H]. exists results. split; [exact H|].
  destruct (X11_top_skills_keeps_skills_with_records Fixtures.full
              Fixtures.skills_session (Fixtures.listings []) (Fixtures.steady 1) 3 2
              results H) as [_ Hskills].
  rewrite Hskills. reflexivity.
Defined.


(* ------------------------------------------------------------------ *)
(** * More on the backends of forecast_models.py *)
(* ------------------------------------------------------------------ *)

Section MoreBackends.
Context {R : Runtime}.
Import forecast_models.

Lemma prophet_fit_predict_keys P df periods r :
  ProphetForecaster.fit_predict P df periods = Py.Ok r ->
  ProphetForecaster.predictions r = ProphetForecaster.forecast_values r.
Proof.
  unfold ProphetForecaster.fit_predict.
  destruct (Prophet_fit P _ df) as [m | e]; simpl; [|discriminate].
  destruct (Prophet_predict P m periods) as [row | e]; simpl; [|discriminate].
  intros H; injection H as <-. reflexivity.
Qed.

Lemma prophet_fit_forecast_shape data periods r :
  ProphetForecaster.fit_forecast data periods = Some r ->
  ProphetForecaster.predictions r = ProphetForecaster.forecast_values r
  /\ length (ProphetForecaster.predictions r) = periods
  /\ length (ProphetForecaster.lower r) = periods
  /\ length (ProphetForecaster.upper r) = periods.
Proof.
  unfold ProphetForecaster.fit_forecast.
  destruct prophet as [P |]; [|discriminate].
  destruct data as [values | [df |] |]; try discriminate.
  - destruct (ProphetForecaster.fit_predict P _ periods) as [r' | e] eqn:Hfit;
      simpl; [|discriminate].
    intros H; injection H as <-. split.
    + eapply prophet_fit_predict_keys; eassumption.
    + eapply prophet_fit_predict_lengths; eassumption.
  - destruct (ProphetForecaster.fit_predict P df periods) as [r' | e] eqn:Hfit;
      simpl; [|discriminate].
    intros H; injection H as <-. split.
    + eapply prophet_fit_predict_keys; eassumption.
    + eapply prophet_fit_predict_lengths; eassumption.
Qed.

Lemma prophet_fit_forecast_absorbs P values periods e :
  prophet = Some P ->
  Prophet_fit P ProphetForecaster.config
    (combine (date_range_MS (length values)) (map inject_Z values)) = Py.Raise e ->
  ProphetForecaster.fit_forecast (ProphetForecaster.Series values) periods = None.
Proof.
  intros HP Hfit. unfold ProphetForecaster.fit_forecast, ProphetForecaster.fit_predict.
  rewrite HP, Hfit. reflexivity.
Qed.

Lemma create_features_empty (series : list Z) :
  (length series <= 12)%nat ->
  pd.len (pd.iloc_last 1 (pd.drop (XGBoostForecaster.create_features series) "value")) = 0%nat.
Proof.
  intros Hlen. unfold pd.len, pd.iloc_last, pd.take_rows, pd.drop. cbn [pd.index].
  rewrite create_features_index, slice_last_length, length_seq. lia.
Qed.

Lemma xgboost_fails_without_features (series : list Z) (periods : nat) (test_size : Q) :
  predicts_row_wise ->
  (length series <= 12)%nat -> (1 <= periods)%nat ->
  XGBoostForecaster.fit_forecast series periods test_size = None.
Proof.
  intros Hrows Hlen Hperiods. unfold XGBoostForecaster.fit_forecast.
  destruct xgb as [X |] eqn:HX; [|reflexivity].
  unfold XGBoostForecaster.fit_forecast_body.
  destruct (XGBRegressor_fit X _ _ _ _ _) as [m | e]; simpl; [|reflexivity].
  destruct (predict X m (pd.tail_rows _ _)) as [y_pred | e]; simpl; [|reflexivity].
  destruct (mean_absolute_error _ y_pred) as [mae | e]; simpl; [|reflexivity].
  destruct (r2_score _ y_pred) as [r2 | e]; simpl; [|reflexivity].
  destruct periods as [| periods]; [lia|].
  cbn [XGBoostForecaster.forecast_loop].
  destruct (predict X m (pd.iloc_last 1 _)) as [preds | e] eqn:Hp; simpl; [|reflexivity].
  apply (Hrows X m _ preds HX) in Hp. rewrite create_features_empty in Hp by assumption.
  destruct preds; [reflexivity | discriminate].
Qed.

Lemma xgboost_result_keys (series : list Z) (periods : nat) (test_size : Q) r :
  XGBoostForecaster.fit_forecast series periods test_size = Some r ->
  XGBoostForecaster.predictions r = XGBoostForecaster.forecast r
  /\ exists X, xgb = Some X
     /\ XGBoostForecaster.feature_importance r
        = combine (tl feature_columns) (feature_importances_ X (XGBoostForecaster.model r)).
Proof.
  unfold XGBoostForecaster.fit_forecast.
  destruct xgb as [X |]; [|discriminate].
  destruct (XGBoostForecaster.fit_forecast_body X series periods test_size)
    as [r' | e] eqn:Hbody; [|discriminate].
  intros H; injection H as <-.
  unfold XGBoostForecaster.fit_forecast_body in Hbody.
  destruct (XGBRegressor_fit X _ _ _ _ _) as [m | e]; simpl in Hbody; [|discriminate].
  destruct (predict X m _) as [y_pred | e]; simpl in Hbody; [|discriminate].
  destruct (mean_absolute_error _ y_pred) as [mae | e]; simpl in Hbody; [|discriminate].
  destruct (r2_score _ y_pred) as [r2 | e]; simpl in Hbody; [|discriminate].
  destruct (XGBoostForecaster.forecast_loop X m periods _) as [forecasts | e];
    simpl in Hbody; [|discriminate].
  injection Hbody as <-. cbn. split; [reflexivity|].
  exists X. split; reflexivity.
Qed.

End MoreBackends.

(** X15. [ProphetForecaster.fit_forecast] gives no result when Prophet is
    not installed, when the fit raises, for a frame without the columns ds
    and y and for anything that is neither a series nor a frame; a result
    carries the same list under 'predictions' and 'forecast_values', and
    exactly [periods] predictions, lower and upper bounds. *)
Theorem X15_prophet_backend_soft_failure_and_shape
    (R : Runtime) (data : forecast_models.ProphetForecaster.Data) (periods : nat) :
  (prophet = None -> forecast_models.ProphetForecaster.fit_forecast data periods = None)
  /\ forecast_models.ProphetForecaster.fit_forecast
       (forecast_models.ProphetForecaster.Frame None) periods = None
  /\ forecast_models.ProphetForecaster.fit_forecast
       forecast_models.ProphetForecaster.Other periods = None
  /\ (forall P values e,
        prophet = Some P ->
        Prophet_fit P forecast_models.ProphetForecaster.config
          (combine (date_range_MS (length values)) (map inject_Z values)) = Py.Raise e ->
        forecast_models.ProphetForecaster.fit_forecast
          (forecast_models.ProphetForecaster.Series values) periods = None)
  /\ (forall r,
        forecast_models.ProphetForecaster.fit_forecast data periods = Some r ->
        forecast_models.ProphetForecaster.predictions r
        = forecast_models.ProphetForecaster.forecast_values r
        /\ length (forecast_models.ProphetForecaster.predictions r) = periods
        /\ length (forecast_models.ProphetForecaster.lower r) = periods
        /\ length (forecast_models.ProphetForecaster.upper r) = periods).
Proof.
  split; [|split; [|split; [|split]]].
  - intros HP. unfold forecast_models.ProphetForecaster.fit_forecast. now rewrite HP.
  - unfold forecast_models.ProphetForecaster.fit_forecast. now destruct prophet.
  - unfold forecast_models.ProphetForecaster.fit_forecast. now destruct prophet.
  - intros P values e. apply prophet_fit_forecast_absorbs.
  - intros r. apply prophet_fit_forecast_shape.
Qed.

Lemma X15_witness :
  forecast_models.ProphetForecaster.fit_forecast (R := Fixtures.ensemble_only)
    (forecast_models.ProphetForecaster.Series [1; 2; 3]) 4 = None.
Proof.
  destruct (X15_prophet_backend_soft_failure_and_shape Fixtures.ensemble_only
              (forecast_models.ProphetForecaster.Series [1; 2; 3]) 4) as (Hnone & _).
  apply Hnone. reflexivity.
Defined.

(** X16. [XGBoostForecaster.fit_forecast] gives no result when xgboost is
    not installed, and none on a series of at most 12 points when at least
    one period is asked for and the regressor predicts one value per row
    (the feature matrix is empty, so the first prediction has nothing to
    index).  A result carries the same list under 'predictions' and
    'forecast', and its importances are keyed by the nine feature columns in
    frame order. *)
Theorem X16_xgboost_backend_needs_more_than_12_points
    (R : Runtime) (series : list Z) (periods : nat) (test_size : Q) :
  (xgb = None ->
   forecast_models.XGBoostForecaster.fit_forecast series periods test_size = None)
  /\ (predicts_row_wise -> (length series <= 12)%nat -> (1 <= periods)%nat ->
      forecast_models.XGBoostForecaster.fit_forecast series periods test_size = None)
  /\ (forall r,
        forecast_models.XGBoostForecaster.fit_forecast series periods test_size = Some r ->
        forecast_models.XGBoostForecaster.predictions r
        = forecast_models.XGBoostForecaster.forecast r
        /\ exists X,
             xgb = Some X
             /\ forecast_models.XGBoostForecaster.feature_importance r
                = combine (tl feature_columns)
                    (feature_importances_ X (forecast_models.XGBoostForecaster.model r))).
Proof.
  split; [|split].
  - intros HX. unfold forecast_models.XGBoostForecaster.fit_forecast. now rewrite HX.
  - apply xgboost_fails_without_features.
  - intros r. apply xgboost_result_keys.
Qed.

Lemma fixture_predicts_row_wise : @predicts_row_wise Fixtures.full.
Proof.
  intros X m df preds HX Hp. injection HX as <-. simpl in Hp.
  injection Hp as <-. apply repeat_length.
Qed.

Lemma X16_witness :
  forecast_models.XGBoostForecaster.fit_forecast (R := Fixtures.full)
    [1; 2; 3; 4; 5; 6; 7; 8; 9; 10; 11; 12] 3 (2 # 10) = None.
Proof.
  destruct (X16_xgboost_backend_needs_more_than_12_points Fixtures.full
              [1; 2; 3; 4; 5; 6; 7; 8; 9; 10; 11; 12] 3 (2 # 10)) as (_ & Hshort & _).
  apply Hshort.
  - exact fixture_predicts_row_wise.
  - simpl. lia.
  - lia.
Defined.

Section BlendAndTrend.
Context {R : Runtime}.
Import forecast_models.

Lemma convex_between (wp wx p x : Q) :
  (0 <= wp)%Q -> (0 <= wx)%Q -> (wp + wx == 1)%Q ->
  (Qmin p x <= wp * p + wx * x)%Q /\ (wp * p + wx * x <= Qmax p x)%Q.
Proof.
  intros Hp Hx Hsum.
  assert (Hwx : (wx == 1 - wp)%Q) by lra.
  destruct (Qlt_le_dec p x) as [Hlt | Hle].
  - rewrite Q.min_l, Q.max_r by lra.
    assert (H : (0 <= wx * (x - p))%Q) by (apply Qmult_le_0_compat; lra).
    assert (H' : (0 <= wp * (x - p))%Q) by (apply Qmult_le_0_compat; lra).
    split.
    + setoid_replace (wp * p + wx * x)%Q with (p + wx * (x - p))%Q
        by (rewrite Hwx; ring). lra.
    + setoid_replace (wp * p + wx * x)%Q with (x - wp * (x - p))%Q
        by (rewrite Hwx; ring). lra.
  - rewrite Q.min_r, Q.max_l by lra.
    assert (H : (0 <= wx * (p - x))%Q) by (apply Qmult_le_0_compat; lra).
    assert (H' : (0 <= wp * (p - x))%Q) by (apply Qmult_le_0_compat; lra).
    split.
    + setoid_replace (wp * p + wx * x)%Q with (x + wp * (p - x))%Q
        by (rewrite Hwx; ring). lra.
    + setoid_replace (wp * p + wx * x)%Q with (p - wx * (p - x))%Q
        by (rewrite Hwx; ring). lra.
Qed.

Lemma blend_between self series periods r p x :
  (0 <= EnsembleForecaster.prophet_weight self)%Q ->
  (0 <= EnsembleForecaster.xgboost_weight self)%Q ->
  (EnsembleForecaster.prophet_weight self + EnsembleForecaster.xgboost_weight self == 1)%Q ->
  EnsembleForecaster.fit_forecast self series periods = Py.Ok r ->
  ProphetForecaster.fit_forecast (ProphetForecaster.Series series) periods = Some p ->
  XGBoostForecaster.fit_forecast series periods (2 # 10) = Some x ->
  length (EnsembleForecaster.forecast r) = periods
  /\ forall i, (i < periods)%nat ->
       let p_i := nth i (ProphetForecaster.predictions p) 0%Q in
       let x_i := inject_Z (nth i (XGBoostForecaster.predictions x) 0) in
       Py.int (Qmin p_i x_i) <= Py.int (nth i (EnsembleForecaster.forecast r) 0%Q)
       /\ Py.int (nth i (EnsembleForecaster.forecast r) 0%Q) <= Py.int (Qmax p_i x_i).
Proof.
  intros Hwp Hwx Hsum Hr Hp Hx.
  split; [now apply ensemble_forecast_length in Hr|].
  rewrite ensemble_fit_forecast_unfold, Hp, Hx in Hr. simpl in Hr.
  injection Hr as <-. cbn [EnsembleForecaster.forecast].
  apply prophet_fit_forecast_lengths in Hp as (Hlp & _).
  apply xgboost_fit_forecast_predictions in Hx as (Hlx & _).
  intros i Hi.
  set (p_i := nth i (ProphetForecaster.predictions p) 0%Q).
  set (x_i := inject_Z (nth i (XGBoostForecaster.predictions x) 0)).
  assert (Hnth :
    nth i (map (fun px : Q * Z =>
                  inject_Z (Py.int (EnsembleForecaster.prophet_weight self * fst px
                                    + EnsembleForecaster.xgboost_weight self
                                      * inject_Z (snd px))%Q))
               (combine (ProphetForecaster.predictions p)
                        (XGBoostForecaster.predictions x))) 0%Q
    = inject_Z (Py.int (EnsembleForecaster.prophet_weight self * p_i
                        + EnsembleForecaster.xgboost_weight self * x_i)%Q)).
  { rewrite (nth_map_default _ _ i 0%Q (0%Q, 0))
      by (rewrite length_combine, Hlp, Hlx; lia).
    rewrite combine_nth by lia. reflexivity. }
  rewrite Hnth, int_inject_Z.
  destruct (convex_between _ _ p_i x_i Hwp Hwx Hsum) as [Hlo Hhi].
  split; now apply int_monotone.
Qed.

Lemma sorted_map_seq {A} (rel : A -> A -> Prop) (f : nat -> A) (a n : nat) :
  (forall i, rel (f i) (f (S i))) -> Sorted rel (map f (seq a n)).
Proof.
  intros Hstep. revert a. induction n as [| n IH]; intros a; simpl; [constructor|].
  constructor; [apply IH|].
  destruct n; simpl; constructor. apply Hstep.
Qed.

Lemma trend_step_floor (series : list Z) (i : nat) : 0 <= trend_step series i.
Proof. apply Z.le_max_l. Qed.

Lemma trend_step_rising (series : list Z) (i : nat) :
  (0 <= trend_of series)%Q ->
  trend_step series i <= trend_step series (S i)
  /\ Z.max 0 (last series 0) <= trend_step series i.
Proof.
  intros Ht. unfold trend_step.
  assert (Hi : (0 <= inject_Z (Z.of_nat i))%Q) by (rewrite <- (Zle_Qle 0); lia).
  assert (Hstep : (inject_Z (Z.of_nat (S i)) == inject_Z (Z.of_nat i) + 1)%Q).
  { rewrite Nat2Z.inj_succ, <- Z.add_1_r, inject_Z_plus. reflexivity. }
  assert (Hprod : (0 <= trend_of series * inject_Z (Z.of_nat i))%Q)
    by (now apply Qmult_le_0_compat).
  split.
  - apply Z.max_le_compat_l, int_monotone. rewrite Hstep. lra.
  - apply Z.max_le_compat_l. rewrite <- (int_inject_Z (last series 0)) at 1.
    apply int_monotone. lra.
Qed.

Lemma trend_step_falling (series : list Z) (i : nat) :
  (trend_of series <= 0)%Q ->
  trend_step series (S i) <= trend_step series i.
Proof.
  intros Ht. unfold trend_step.
  assert (Hstep : (inject_Z (Z.of_nat (S i)) == inject_Z (Z.of_nat i) + 1)%Q).
  { rewrite Nat2Z.inj_succ, <- Z.add_1_r, inject_Z_plus. reflexivity. }
  apply Z.max_le_compat_l, int_monotone. rewrite Hstep. lra.
Qed.

(** On counts of 32 bits the sign of the trend is that of the difference
    between the last count and the third from last. *)
Lemma trend_of_nonneg (series : list Z) :
  fits_int32 series ->
  (length series < 3)%nat \/ nth (length series - 3) series 0 <= last series 0 ->
  (0 <= trend_of series)%Q.
Proof.
  intros Hfit Hdata. rewrite (trend_of_exact series Hfit).
  destruct (Nat.leb_spec 3 (length series)) as [Hlen | Hlen]; [|apply Qle_refl].
  destruct Hdata as [Hshort | Hrise]; [lia|].
  apply Qle_shift_div_l; [reflexivity|].
  rewrite Qmult_0_l, <- (Zle_Qle 0). lia.
Qed.

Lemma trend_of_nonpos (series : list Z) :
  fits_int32 series ->
  (length series < 3)%nat \/ last series 0 <= nth (length series - 3) series 0 ->
  (trend_of series <= 0)%Q.
Proof.
  intros Hfit Hdata. rewrite (trend_of_exact series Hfit).
  destruct (Nat.leb_spec 3 (length series)) as [Hlen | Hlen]; [|apply Qle_refl].
  destruct Hdata as [Hshort | Hfall]; [lia|].
  apply Qle_shift_div_r; [reflexivity|].
  rewrite Qmult_0_l, <- (Zle_Qle _ 0). lia.
Qed.

End BlendAndTrend.

(** X17. When both backends succeed the combiner, with its default weights
    0.4 and 0.6, returns [periods] values, and a blended value, once
    truncated, never leaves the range spanned by the truncations of the two
    predictions. *)
Theorem X17_blend_stays_between_the_backends
    (R : Runtime) (series : list Z) (periods : nat)
    (r : forecast_models.EnsembleForecaster.Result)
    (p : forecast_models.ProphetForecaster.Result)
    (x : forecast_models.XGBoostForecaster.Result) :
  forecast_models.EnsembleForecaster.fit_forecast
    forecast_models.EnsembleForecaster.__init__ series periods = Py.Ok r ->
  forecast_models.ProphetForecaster.fit_forecast
    (forecast_models.ProphetForecaster.Series series) periods = Some p ->
  forecast_models.XGBoostForecaster.fit_forecast series periods (2 # 10) = Some x ->
  length (forecast_models.EnsembleForecaster.forecast r) = periods
  /\ forall i, (i < periods)%nat ->
       let p_i := nth i (forecast_models.ProphetForecaster.predictions p) 0%Q in
       let x_i := inject_Z (nth i (forecast_models.XGBoostForecaster.predictions x) 0) in
       Py.int (Qmin p_i x_i)
       <= Py.int (nth i (forecast_models.EnsembleForecaster.forecast r) 0%Q)
       /\ Py.int (nth i (forecast_models.EnsembleForecaster.forecast r) 0%Q)
          <= Py.int (Qmax p_i x_i).
Proof.
  apply blend_between; [discriminate | discriminate | reflexivity].
Qed.

Lemma X17_witness :
  exists r,
    forecast_models.EnsembleForecaster.fit_forecast (R := Fixtures.full)
      forecast_models.EnsembleForecaster.__init__
      [1; 2; 3; 4; 5; 6; 7; 8; 9; 10; 11; 12; 13; 14] 2 = Py.Ok r
    /\ length (forecast_models.EnsembleForecaster.forecast r) = 2%nat
    /\ 100 <= Py.int (nth 0 (forecast_models.EnsembleForecaster.forecast r) 0%Q) <= 200.
Proof.
  assert (Hr : exists r,
             forecast_models.EnsembleForecaster.fit_forecast (R := Fixtures.full)
               forecast_models.EnsembleForecaster.__init__
               [1; 2; 3; 4; 5; 6; 7; 8; 9; 10; 11; 12; 13; 14] 2 = Py.Ok r)
    by (vm_compute; eexists; reflexivity).
  assert (Hp : exists p,
             forecast_models.ProphetForecaster.fit_forecast (R := Fixtures.full)
               (forecast_models.ProphetForecaster.Series
                  [1; 2; 3; 4; 5; 6; 7; 8; 9; 10; 11; 12; 13; 14]) 2 = Some p
             /\ nth 0 (forecast_models.ProphetForecaster.predictions p) 0%Q = 100%Q)
    by (vm_compute; eexists; split; reflexivity).
  assert (Hx : exists x,
             forecast_models.XGBoostForecaster.fit_forecast (R := Fixtures.full)
               [1; 2; 3; 4; 5; 6; 7; 8; 9; 10; 11; 12; 13; 14] 2 (2 # 10) = Some x
             /\ nth 0 (forecast_models.XGBoostForecaster.predictions x) 0 = 200)
    by (vm_compute; eexists; split; reflexivity).
  destruct Hr as [r Hr]. destruct Hp as (p & Hp & Hp0). destruct Hx as (x & Hx & Hx0).
  exists r. split; [exact Hr|].
  destruct (X17_blend_stays_between_the_backends Fixtures.full
              [1; 2; 3; 4; 5; 6; 7; 8; 9; 10; 11; 12; 13; 14] 2 r p x
              Hr Hp Hx) as [Hlen Hrange].
  split; [exact Hlen|].
  assert (H0 : (0 < 2)%nat) by lia.
  specialize (Hrange 0%nat H0). cbv zeta in Hrange.
  rewrite Hp0, Hx0 in Hrange. exact Hrange.
Defined.

(** X18. When both backends give no result (counts of 32 bits), the values
    of the combiner's last branch are never negative; when the last count is
    not below the third from last, or the series has fewer than three
    points, they never decrease from one step to the next and never fall
    below the last observed value (floored at zero); when the last count is
    not above the third from last, or the series has fewer than three
    points, they never increase. *)
Theorem X18_fallback_values_follow_the_trend
    (R : Runtime) (self : forecast_models.EnsembleForecaster.t)
    (series : list Z) (periods : nat) :
  series <> [] ->
  fits_int32 series ->
  forecast_models.ProphetForecaster.fit_forecast
    (forecast_models.ProphetForecaster.Series series) periods = None ->
  forecast_models.XGBoostForecaster.fit_forecast series periods (2 # 10) = None ->
  let last_value := last series 0 in
  let third_from_last := nth (length series - 3) series 0 in
  exists r,
    forecast_models.EnsembleForecaster.fit_forecast self series periods = Py.Ok r
    /\ Forall (fun v => 0 <= v)%Q (forecast_models.EnsembleForecaster.forecast r)
    /\ ((length series < 3)%nat \/ third_from_last <= last_value ->
        Sorted Qle (forecast_models.EnsembleForecaster.forecast r)
        /\ Forall (fun v => inject_Z (Z.max 0 last_value) <= v)%Q
                  (forecast_models.EnsembleForecaster.forecast r))
    /\ ((length series < 3)%nat \/ last_value <= third_from_last ->
        Sorted (fun a b => b <= a)%Q (forecast_models.EnsembleForecaster.forecast r)).
Proof.
  intros Hne Hfit Hp Hx last_value third_from_last.
  rewrite ensemble_fit_forecast_unfold, Hp, Hx; simpl.
  rewrite (fallback_trend_ok series periods Hne); simpl.
  eexists. split; [reflexivity|]. cbn [forecast_models.EnsembleForecaster.forecast].
  split; [|split].
  - apply Forall_map, Forall_forall. intros i _.
    rewrite <- (Zle_Qle 0). apply trend_step_floor.
  - intros Hdata. pose proof (trend_of_nonneg series Hfit Hdata) as Ht. split.
    + apply sorted_map_seq. intros i. rewrite <- Zle_Qle.
      now apply trend_step_rising.
    + apply Forall_map, Forall_forall. intros i _. rewrite <- Zle_Qle.
      now apply trend_step_rising.
  - intros Hdata. pose proof (trend_of_nonpos series Hfit Hdata) as Ht.
    apply sorted_map_seq. intros i. rewrite <- Zle_Qle.
    now apply trend_step_falling.
Qed.

Lemma X18_witness :
  let series : list Z := [100; 110; 125] in
  exists r,
    forecast_models.EnsembleForecaster.fit_forecast (R := Fixtures.ensemble_only)
      forecast_models.EnsembleForecaster.__init__ series 3 = Py.Ok r
    /\ Sorted Qle (forecast_models.EnsembleForecaster.forecast r)
    /\ Forall (fun v => 125 <= v)%Q (forecast_models.EnsembleForecaster.forecast r).
Proof.
  intros series.
  assert (Hne : series <> []) by discriminate.
  assert (Hfit : fits_int32 series) by (repeat constructor; lia).
  destruct (X18_fallback_values_follow_the_trend Fixtures.ensemble_only
              forecast_models.EnsembleForecaster.__init__ series 3
              Hne Hfit eq_refl eq_refl) as (r & Hr & _ & Hrise & _).
  exists r. split; [exact Hr|].
  apply Hrise. right. simpl. lia.
Defined.

(* ------------------------------------------------------------------ *)
(** * The explainer and the feature importances *)
(* ------------------------------------------------------------------ *)

Section Explainer.
Context {R : Runtime} {F : forecast_models.FloatFormat}.
Import forecast_models.

Lemma trend_desc_injective (a b : ForecastExplainer.Trend) :
  ForecastExplainer.trend_desc a = ForecastExplainer.trend_desc b -> a = b.
Proof. destruct a, b; intros H; try reflexivity; discriminate H. Qed.

Lemma classify_recommend (c : Q) :
  (ForecastExplainer.classify c = ForecastExplainer.StrongUptrend ->
   ForecastExplainer.recommend c = "Monitor this skill"%string)
  /\ (ForecastExplainer.recommend c = "Monitor this skill"%string ->
      ForecastExplainer.classify c = ForecastExplainer.StrongUptrend
      \/ ForecastExplainer.classify c = ForecastExplainer.ModerateGrowth)
  /\ ((c == 0)%Q ->
      ForecastExplainer.classify c = ForecastExplainer.Stable
      /\ ForecastExplainer.recommend c = "Stable"%string).
Proof.
  unfold ForecastExplainer.classify, ForecastExplainer.recommend.
  destruct (Qlt_le_dec 20 c) as [H20 | H20];
  destruct (Qlt_le_dec 15 c) as [H15 | H15];
  destruct (Qlt_le_dec 5 c) as [H5 | H5];
  destruct (Qlt_le_dec (-5) c) as [Hm5 | Hm5];
    (split; [|split]); intros H; try discriminate H; auto; try (exfalso; lra);
    try (rewrite H in *; exfalso; lra).
Qed.

Lemma change_of_flat (forecast : EnsembleForecaster.Result) (recent_value : Z) :
  recent_value <= 0 \/ EnsembleForecaster.forecast forecast = [] ->
  (ForecastExplainer.change_of (ForecastExplainer.next_value forecast recent_value)
                               recent_value == 0)%Q.
Proof.
  unfold ForecastExplainer.change_of, ForecastExplainer.next_value.
  destruct (Z.ltb_spec 0 recent_value) as [Hpos | Hneg]; [|reflexivity].
  intros [H | H]; [lia|]. rewrite H. field.
  intros E. unfold Qeq in E; simpl in E. lia.
Qed.

Lemma explanation_shape (forecast : EnsembleForecaster.Result)
    (series : list Z) (item_name : string) :
  series <> [] ->
  exists e,
    ForecastExplainer.generate_explanation forecast series item_name = Py.Ok e
    /\ ForecastExplainer.item e = item_name
    /\ ForecastExplainer.current_value e = last series 0
    /\ ForecastExplainer.confidence e = (75 # 100)%Q
    /\ (length (ForecastExplainer.top_factors e) <= 3)%nat
    /\ (EnsembleForecaster.xgboost_result forecast = None ->
        ForecastExplainer.top_factors e = [])
    /\ (ForecastExplainer.trend e
        = ForecastExplainer.trend_desc ForecastExplainer.StrongUptrend ->
        ForecastExplainer.recommendation e = "Monitor this skill"%string)
    /\ (ForecastExplainer.recommendation e = "Monitor this skill"%string ->
        ForecastExplainer.trend e
        = ForecastExplainer.trend_desc ForecastExplainer.StrongUptrend
        \/ ForecastExplainer.trend e
           = ForecastExplainer.trend_desc ForecastExplainer.ModerateGrowth)
    /\ (last series 0 <= 0 \/ EnsembleForecaster.forecast forecast = [] ->
        ForecastExplainer.trend e = ForecastExplainer.trend_desc ForecastExplainer.Stable
        /\ ForecastExplainer.recommendation e = "Stable"%string).
Proof.
  intros Hne. unfold ForecastExplainer.generate_explanation.
  rewrite (getitem_last series Hne). cbn [Py.bind].
  eexists. split; [reflexivity|].
  cbn [ForecastExplainer.item ForecastExplainer.current_value ForecastExplainer.confidence
       ForecastExplainer.top_factors ForecastExplainer.trend
       ForecastExplainer.recommendation].
  set (c := ForecastExplainer.change_of _ _).
  destruct (classify_recommend c) as (Hstrong & Hmonitor & Hflat).
  repeat (split; [reflexivity|]).
  split; [|split; [|split; [|split]]].
  - destruct (EnsembleForecaster.xgboost_result forecast); [|simpl; lia].
    rewrite length_map, length_firstn. apply Nat.le_min_l.
  - intros ->. reflexivity.
  - intros H. apply trend_desc_injective in H. now apply Hstrong.
  - intros H. destruct (Hmonitor H) as [-> | ->]; auto.
  - intros H. destruct Hflat as [Hc Hr]; [now apply change_of_flat|].
    now rewrite Hc, Hr.
Qed.

Lemma feature_importance_shape (importances : list Q) :
  let result := XGBoostForecaster.get_feature_importance (Some importances) in
  Permutation (combine XGBoostForecaster.importance_names importances) result
  /\ length result = Nat.min 8 (length importances)
  /\ Sorted (descending snd) result.
Proof.
  intros result. unfold result, XGBoostForecaster.get_feature_importance.
  split; [apply sorted_desc_permutation|]. split; [|apply sorted_desc_sorted].
  rewrite <- (Permutation_length (sorted_desc_permutation snd _)).
  now rewrite length_combine.
Qed.

End Explainer.

(** X19. [generate_explanation] raises [IndexError] on an empty series.  On
    a non-empty one it reports the last observed value and the confidence
    0.75, at most three factors (none without an XGBoost result); a strong
    uptrend always comes with "Monitor this skill", that recommendation only
    with a strong uptrend or moderate growth, and when the last value is not
    positive or the forecast list is empty the trend is stable and so is the
    recommendation. *)
Theorem X19_explanation_trend_and_recommendation_agree
    (R : Runtime) (F : forecast_models.FloatFormat)
    (forecast : forecast_models.EnsembleForecaster.Result)
    (series : list Z) (item_name : string) :
  (series = [] ->
   forecast_models.ForecastExplainer.generate_explanation forecast series item_name
   = Py.Raise Py.IndexError)
  /\ (series <> [] ->
      exists e,
        forecast_models.ForecastExplainer.generate_explanation forecast series item_name
        = Py.Ok e
        /\ forecast_models.ForecastExplainer.item e = item_name
        /\ forecast_models.ForecastExplainer.current_value e = last series 0
        /\ forecast_models.ForecastExplainer.confidence e = (75 # 100)%Q
        /\ (length (forecast_models.ForecastExplainer.top_factors e) <= 3)%nat
        /\ (forecast_models.EnsembleForecaster.xgboost_result forecast = None ->
            forecast_models.ForecastExplainer.top_factors e = [])
        /\ (forecast_models.ForecastExplainer.trend e
            = forecast_models.ForecastExplainer.trend_desc
                forecast_models.ForecastExplainer.StrongUptrend ->
            forecast_models.ForecastExplainer.recommendation e
            = "Monitor this skill"%string)
        /\ (forecast_models.ForecastExplainer.recommendation e
            = "Monitor this skill"%string ->
            forecast_models.ForecastExplainer.trend e
            = forecast_models.ForecastExplainer.trend_desc
                forecast_models.ForecastExplainer.StrongUptrend
            \/ forecast_models.ForecastExplainer.trend e
               = forecast_models.ForecastExplainer.trend_desc
                   forecast_models.ForecastExplainer.ModerateGrowth)
        /\ (last series 0 <= 0
            \/ forecast_models.EnsembleForecaster.forecast forecast = [] ->
            forecast_models.ForecastExplainer.trend e
            = forecast_models.ForecastExplainer.trend_desc
                forecast_models.ForecastExplainer.Stable
            /\ forecast_models.ForecastExplainer.recommendation e = "Stable"%string)).
Proof.
  split.
  - intros ->. reflexivity.
  - apply explanation_shape.
Qed.

Lemma X19_witness :
  forecast_models.ForecastExplainer.generate_explanation
    (R := Fixtures.bare) (F := Fixtures.spec_only)
    {| forecast_models.EnsembleForecaster.predictions := [];
       forecast_models.EnsembleForecaster.forecast := [];
       forecast_models.EnsembleForecaster.prophet_result := None;
       forecast_models.EnsembleForecaster.xgboost_result := None;
       forecast_models.EnsembleForecaster.method := "ensemble" |}
    [] "python"
  = Py.Raise Py.IndexError.
Proof.
  destruct (X19_explanation_trend_and_recommendation_agree Fixtures.bare Fixtures.spec_only
              {| forecast_models.EnsembleForecaster.predictions := [];
                 forecast_models.EnsembleForecaster.forecast := [];
                 forecast_models.EnsembleForecaster.prophet_result := None;
                 forecast_models.EnsembleForecaster.xgboost_result := None;
                 forecast_models.EnsembleForecaster.method := "ensemble" |}
              [] "python") as [Hempty _].
  apply Hempty. reflexivity.
Defined.

(** X20. [get_feature_importance] returns the empty dictionary for a model
    without importances; otherwise it pairs the importances, by position,
    with its eight fixed names (so at most eight entries, the rest being
    dropped) and returns those pairs sorted by importance in descending
    order. *)
Theorem X20_feature_importance_is_the_sorted_pairing (importances : list Q) :
  forecast_models.XGBoostForecaster.get_feature_importance None = []
  /\ Permutation
       (combine forecast_models.XGBoostForecaster.importance_names importances)
       (forecast_models.XGBoostForecaster.get_feature_importance (Some importances))
  /\ length (forecast_models.XGBoostForecaster.get_feature_importance (Some importances))
     = Nat.min 8 (length importances)
  /\ Sorted (descending snd)
       (forecast_models.XGBoostForecaster.get_feature_importance (Some importances)).
Proof.
  split; [reflexivity|]. apply feature_importance_shape.
Qed.

Section SyntheticHistory.
Context {R : Runtime}.
Variable db : forecasting.Session.
Import forecasting.

Lemma synthetic_counts_band (skill_name : string) (months : nat) :
  (forall i, (8 # 10) <= np_random_uniform i /\ np_random_uniform i <= (12 # 10))%Q ->
  let average :=
    (inject_Z (Z.of_nat (or0 (count_job_skills db skill_name)))
     / inject_Z (Z.of_nat months))%Q in
  Forall (fun h => 0 <= count h
                   /\ Py.int (average * (8 # 10))%Q <= count h
                   /\ count h <= Py.int (average * (12 # 10))%Q)
         (_get_skill_historical_data db skill_name months).
Proof.
  intros Hdraws average. unfold _get_skill_historical_data.
  destruct (or0 (count_job_skills db skill_name) =? 0)%nat; [constructor|].
  apply Forall_map, Forall_forall. intros i _. cbn [count].
  fold average.
  assert (Havg : (0 <= average)%Q).
  { unfold average. destruct months as [| months].
    - unfold Qdiv, Qle. simpl. lia.
    - apply Qle_shift_div_l; [unfold Qlt; simpl; lia|].
      rewrite Qmult_0_l. rewrite <- (Zle_Qle 0). lia. }
  destruct (Hdraws i) as [Hlo Hhi].
  split; [|split].
  - apply int_nonneg. apply Qmult_le_0_compat; [exact Havg | lra].
  - apply int_monotone. now apply weight_le_compat.
  - apply int_monotone. now apply weight_le_compat.
Qed.

Lemma no_records_scores (skill_name : string) :
  or0 (count_job_skills db skill_name) = 0%nat ->
  calculate_growth_rate db skill_name = 0%Q
  /\ (15 <= calculate_hotness_score db skill_name
              default_alpha default_beta default_gamma default_delta)%Q
  /\ (calculate_hotness_score db skill_name
        default_alpha default_beta default_gamma default_delta <= 35)%Q.
Proof.
  intros H0.
  assert (Hgrowth : calculate_growth_rate db skill_name = 0%Q).
  { unfold calculate_growth_rate, _get_skill_historical_data. now rewrite H0. }
  split; [exact Hgrowth|].
  unfold calculate_hotness_score, weighted_hotness. rewrite Hgrowth, H0.
  destruct (demand_score_shape db skill_name) as (Hdemand & _).
  specialize (Hdemand H0).
  destruct (min_100_bounds (_calculate_salary_premium db skill_name)
              (salary_premium_bounds db skill_name)) as [Hs0 Hs100].
  set (s := Qmin 100 (_calculate_salary_premium db skill_name)) in *.
  assert (Hd : (Qmin 100 (_calculate_demand_score db skill_name) == 0)%Q)
    by (rewrite Hdemand; reflexivity).
  set (d := Qmin 100 (_calculate_demand_score db skill_name)) in *.
  assert (Hv : (Qmin 100 (inject_Z (Z.of_nat 0) / 100 * 100) == 0)%Q) by reflexivity.
  set (v := Qmin 100 (inject_Z (Z.of_nat 0) / 100 * 100)) in *.
  assert (Hg : (Qmin 100 (Qmax 0 (0 + 50)) == 50)%Q) by reflexivity.
  set (g := Qmin 100 (Qmax 0 (0 + 50))) in *.
  clearbody s d v g.
  unfold default_alpha, default_beta, default_gamma, default_delta.
  split; [apply (round_lower _ 15 2) | apply (round_upper _ 35 2)];
    change (inject_Z 15) with 15%Q; change (inject_Z 35) with 35%Q; lra.
Qed.

End SyntheticHistory.

(** X21. When every draw of the generator lies in [0.8, 1.2], each count of
    the synthetic history is non-negative and lies between the truncations
    of 0.8 and 1.2 times the average number of records per month. *)
Theorem X21_synthetic_counts_within_the_band
    (R : Runtime) (db : forecasting.Session) (skill_name : string) (months : nat) :
  (forall i, (8 # 10) <= np_random_uniform i /\ np_random_uniform i <= (12 # 10))%Q ->
  let average :=
    (inject_Z (Z.of_nat (forecasting.or0 (forecasting.count_job_skills db skill_name)))
     / inject_Z (Z.of_nat months))%Q in
  Forall (fun h => 0 <= forecasting.count h
                   /\ Py.int (average * (8 # 10))%Q <= forecasting.count h
                   /\ forecasting.count h <= Py.int (average * (12 # 10))%Q)
         (forecasting._get_skill_historical_data db skill_name months).
Proof. apply synthetic_counts_band. Qed.

Lemma X21_witness :
  Forall (fun h => 0 <= forecasting.count h
                   /\ Py.int ((inject_Z (Z.of_nat 24) / inject_Z (Z.of_nat 12)) * (8 # 10))%Q
                      <= forecasting.count h
                   /\ forecasting.count h
                      <= Py.int ((inject_Z (Z.of_nat 24) / inject_Z (Z.of_nat 12)) * (12 # 10))%Q)
         (forecasting._get_skill_historical_data (R := Fixtures.full)
            (Fixtures.session 24) "python" 12).
Proof.
  apply (X21_synthetic_counts_within_the_band Fixtures.full (Fixtures.session 24)
           "python" 12).
  intros i. split; discriminate.
Defined.

(** X22. A skill without job records has growth rate 0, and with the default
    weights its hotness still lies between 15 and 35: the neutral growth
    counts for 15 points and the salary premium for at most 20. *)
Theorem X22_skill_without_records_keeps_a_base_hotness
    (R : Runtime) (db : forecasting.Session) (skill_name : string) :
  forecasting.or0 (forecasting.count_job_skills db skill_name) = 0%nat ->
  forecasting.calculate_growth_rate db skill_name = 0%Q
  /\ (15 <= forecasting.calculate_hotness_score db skill_name
              forecasting.default_alpha forecasting.default_beta
              forecasting.default_gamma forecasting.default_delta)%Q
  /\ (forecasting.calculate_hotness_score db skill_name
        forecasting.default_alpha forecasting.default_beta
        forecasting.default_gamma forecasting.default_delta <= 35)%Q.
Proof. apply no_records_scores. Qed.

Lemma X22_witness :
  forecasting.calculate_growth_rate (R := Fixtures.full) (Fixtures.session 0) "python" = 0%Q
  /\ (15 <= forecasting.calculate_hotness_score (R := Fixtures.full) (Fixtures.session 0)
              "python" forecasting.default_alpha forecasting.default_beta
              forecasting.default_gamma forecasting.default_delta)%Q
  /\ (forecasting.calculate_hotness_score (R := Fixtures.full) (Fixtures.session 0)
        "python" forecasting.default_alpha forecasting.default_beta
        forecasting.default_gamma forecasting.default_delta <= 35)%Q.
Proof.
  apply (X22_skill_without_records_keeps_a_base_hotness Fixtures.full
           (Fixtures.session 0) "python").
  reflexivity.
Defined.

(* ------------------------------------------------------------------ *)
(** * The points of a forecast returned by the public call *)
(* ------------------------------------------------------------------ *)

Section ForecastPoints.
Context {R : Runtime}.
Import forecasting.

Lemma comprehension_nth {A B} (f : A -> Py.result B) (l : list A) (bs : list B) :
  Py.comprehension f l = Py.Ok bs ->
  forall k da db, (k < length l)%nat -> f (nth k l da) = Py.Ok (nth k bs db).
Proof.
  intros H. apply comprehension_inv in H.
  induction H as [| a b l bs Hab _ IH]; intros k da db Hk; simpl in Hk; [lia|].
  destruct k as [| k]; simpl; [exact Hab|]. apply IH. lia.
Qed.

(** Prophet's interval around each estimate, read off the result of the
    seasonal backend. *)
Lemma prophet_fit_forecast_ordered series periods r :
  prophet_intervals_ordered ->
  forecast_models.ProphetForecaster.fit_forecast
    (forecast_models.ProphetForecaster.Series series) periods = Some r ->
  forall i,
    (nth i (forecast_models.ProphetForecaster.lower r) 0
     <= nth i (forecast_models.ProphetForecaster.predictions r) 0)%Q
    /\ (nth i (forecast_models.ProphetForecaster.predictions r) 0
        <= nth i (forecast_models.ProphetForecaster.upper r) 0)%Q.
Proof.
  intros Hordered. unfold forecast_models.ProphetForecaster.fit_forecast.
  destruct prophet as [P |] eqn:HP; [|discriminate].
  unfold forecast_models.ProphetForecaster.fit_predict.
  destruct (Prophet_fit P _ _) as [m | e] eqn:Hfit; simpl; [|discriminate].
  destruct (Prophet_predict P m periods) as [row | e] eqn:Hrow; simpl; [|discriminate].
  intros H; injection H as <-; simpl.
  rewrite !map_map, !tail_map_seq. intros i.
  destruct (Nat.lt_ge_cases i periods) as [Hi | Hi].
  - rewrite !(nth_map_default _ _ i 0%Q 0%nat) by (now rewrite length_seq).
    apply (Hordered P _ _ m periods row _ HP Hfit Hrow).
  - rewrite !nth_overflow by (now rewrite length_map, length_seq).
    split; apply Qle_refl.
Qed.

(** The ensemble producer when only the seasonal backend gave a result:
    every field of a point is the truncation of Prophet's value. *)
Lemma ensemble_forecast_point df periods pts r :
  _ensemble_forecast df periods = Py.Ok pts ->
  forecast_models.ProphetForecaster.fit_forecast
    (forecast_models.ProphetForecaster.Series (counts df)) periods = Some r ->
  forecast_models.XGBoostForecaster.fit_forecast (counts df) periods (2 # 10) = None ->
  length pts = periods
  /\ forall k d, (k < periods)%nat ->
       predicted_count (nth k pts d)
       = Py.int (nth k (forecast_models.ProphetForecaster.predictions r) 0%Q)
       /\ lower_bound (nth k pts d)
          = Py.int (nth k (forecast_models.ProphetForecaster.lower r) 0%Q)
       /\ upper_bound (nth k pts d)
          = Py.int (nth k (forecast_models.ProphetForecaster.upper r) 0%Q).
Proof.
  intros H Hp Hx.
  split; [now apply ensemble_forecast_shape in H|].
  unfold _ensemble_forecast in H.
  rewrite ensemble_fit_forecast_unfold, Hp, Hx in H. simpl in H.
  destruct (prophet_fit_forecast_lengths _ _ _ Hp) as (Hlp & Hll & Hlu).
  set (preds := forecast_models.ProphetForecaster.predictions r) in *.
  intros k d Hk.
  pose proof (comprehension_nth _ _ _ H k (0%nat, 0%Q) d) as Hk'.
  unfold Py.range1 in Hk'. rewrite length_combine, length_seq, Nat.min_id in Hk'.
  specialize (Hk' ltac:(lia)).
  rewrite combine_nth in Hk' by (now rewrite length_seq).
  rewrite seq_nth in Hk' by lia. cbv beta iota in Hk'.
  destruct (strftime_opt _) as [m | e]; simpl in Hk'; [|discriminate].
  injection Hk' as <-. cbn [predicted_count lower_bound upper_bound Nat.add Nat.sub].
  rewrite Nat.sub_0_r.
  split; [reflexivity|]. split; f_equal; apply nth_indep; lia.
Qed.

Lemma fields_by_position {A} (field : ForecastPoint -> Z) (pts : list ForecastPoint)
    (values : list A) (f : A -> Z) (a : A) :
  length pts = length values ->
  (forall k d, (k < length values)%nat -> field (nth k pts d) = f (nth k values a)) ->
  map field pts = map f values.
Proof.
  intros Hlen Hfield.
  apply (nth_ext _ _ 0 0); [now rewrite !length_map|].
  intros k Hk. rewrite length_map in Hk.
  pose (d := {| point_month := ""; predicted_count := 0;
                lower_bound := 0; upper_bound := 0 |}).
  rewrite (nth_map_default _ pts k 0 d) by lia.
  rewrite (nth_map_default _ values k 0 a) by lia.
  apply Hfield. lia.
Qed.

Lemma ensemble_forecast_points df periods pts r :
  _ensemble_forecast df periods = Py.Ok pts ->
  forecast_models.ProphetForecaster.fit_forecast
    (forecast_models.ProphetForecaster.Series (counts df)) periods = Some r ->
  forecast_models.XGBoostForecaster.fit_forecast (counts df) periods (2 # 10) = None ->
  map predicted_count pts = map Py.int (forecast_models.ProphetForecaster.predictions r)
  /\ map lower_bound pts = map Py.int (forecast_models.ProphetForecaster.lower r)
  /\ map upper_bound pts = map Py.int (forecast_models.ProphetForecaster.upper r).
Proof.
  intros H Hp Hx.
  destruct (ensemble_forecast_point _ _ _ _ H Hp Hx) as [Hlen Hpoint].
  destruct (prophet_fit_forecast_lengths _ _ _ Hp) as (Hlp & Hll & Hlu).
  split; [|split]; apply (fields_by_position _ _ _ _ 0%Q); try lia;
    intros k d Hk; apply Hpoint; lia.
Qed.

Lemma ensemble_forecast_ordered df periods pts r :
  prophet_intervals_ordered ->
  _ensemble_forecast df periods = Py.Ok pts ->
  forecast_models.ProphetForecaster.fit_forecast
    (forecast_models.ProphetForecaster.Series (counts df)) periods = Some r ->
  forecast_models.XGBoostForecaster.fit_forecast (counts df) periods (2 # 10) = None ->
  Forall ordered pts.
Proof.
  intros Hordered H Hp Hx.
  destruct (ensemble_forecast_point _ _ _ _ H Hp Hx) as [Hlen Hpoint].
  apply Forall_forall. intros p Hin.
  pose (d := {| point_month := ""; predicted_count := 0;
                lower_bound := 0; upper_bound := 0 |}).
  destruct (In_nth _ _ d Hin) as (k & Hk & <-).
  destruct (Hpoint k d ltac:(lia)) as (Epred & Elo & Ehi).
  destruct (prophet_fit_forecast_ordered _ _ _ Hordered Hp k) as [Hlo Hhi].
  unfold ordered. rewrite Epred, Elo, Ehi.
  split; now apply int_monotone.
Qed.

(** A forecast made of well-formed points that did not take the seasonal
    result of the combiner. *)
Lemma well_formed_points (pts : list ForecastPoint) (periods : nat) (method : string)
    (seasonal : option forecast_models.ProphetForecaster.Result) :
  length pts = periods ->
  Forall well_formed pts ->
  (method = "Ensemble (Prophet + XGBoost)"%string -> seasonal = None) ->
  length pts = periods
  /\ Forall ordered pts
  /\ ((method = "Ensemble (Prophet + XGBoost)"%string -> seasonal = None) ->
      Forall (fun p => 0 <= predicted_count p) pts)
  /\ (method = "Ensemble (Prophet + XGBoost)"%string ->
      forall r, seasonal = Some r ->
        map predicted_count pts
        = map Py.int (forecast_models.ProphetForecaster.predictions r)
        /\ map lower_bound pts = map Py.int (forecast_models.ProphetForecaster.lower r)
        /\ map upper_bound pts = map Py.int (forecast_models.ProphetForecaster.upper r)).
Proof.
  intros Hlen Hwf Hnone. split; [exact Hlen|]. split; [|split].
  - eapply Forall_impl; [|exact Hwf]. intros p (_ & Hlo & Hhi). now split.
  - intros _. eapply Forall_impl; [|exact Hwf]. intros p Hp. apply Hp.
  - intros Hm r Hr. rewrite (Hnone Hm) in Hr. discriminate Hr.
Qed.

(** The forecast built on a history of at most twelve points: the regressor
    has no feature row, so the combiner holds at most the seasonal result. *)
Lemma forecast_history_twelve skill_name historical periods use_ensemble
    skill hist forecast method periods' confidence :
  forecast_history skill_name historical periods use_ensemble
  = Py.Ok (Forecast skill hist forecast method periods' confidence) ->
  prophet_intervals_ordered -> predicts_row_wise ->
  (length historical <= 12)%nat ->
  let seasonal :=
    forecast_models.ProphetForecaster.fit_forecast
      (forecast_models.ProphetForecaster.Series
         (counts (sort_values_date (to_frame hist)))) periods in
  length forecast = periods
  /\ Forall ordered forecast
  /\ ((method = "Ensemble (Prophet + XGBoost)"%string -> seasonal = None) ->
      Forall (fun p => 0 <= predicted_count p) forecast)
  /\ (method = "Ensemble (Prophet + XGBoost)"%string ->
      forall r, seasonal = Some r ->
        map predicted_count forecast
        = map Py.int (forecast_models.ProphetForecaster.predictions r)
        /\ map lower_bound forecast
           = map Py.int (forecast_models.ProphetForecaster.lower r)
        /\ map upper_bound forecast
           = map Py.int (forecast_models.ProphetForecaster.upper r)).
Proof.
  intros H Hordered Hrows Hlen. cbv zeta.
  unfold forecast_history in H. cbv zeta in H.
  assert (Hcounts : length (counts (sort_values_date (to_frame historical)))
                    = length historical).
  { unfold counts, to_frame. now rewrite length_map, sort_values_date_length, length_map. }
  destruct (select_branch (length historical) use_ensemble); [discriminate | | | |].
  - (* ensemble, with its two handlers *)
    destruct (_ensemble_forecast (sort_values_date (to_frame historical)) periods)
      as [pts | e] eqn:He; cbn [Py.bind Py.try_except] in H.
    + injection H as <- <- <- <- <- <-.
      destruct (ensemble_forecast_shape _ _ _ He) as (Hl & Hwf).
      destruct (forecast_models.ProphetForecaster.fit_forecast _ periods)
        as [r |] eqn:Hs.
      * assert (Hpts : Forall ordered pts
                       /\ map predicted_count pts
                          = map Py.int (forecast_models.ProphetForecaster.predictions r)
                       /\ map lower_bound pts
                          = map Py.int (forecast_models.ProphetForecaster.lower r)
                       /\ map upper_bound pts
                          = map Py.int (forecast_models.ProphetForecaster.upper r)).
        { destruct periods as [| n].
          - destruct (prophet_fit_forecast_lengths _ _ _ Hs) as (Hlp & Hll & Hlu).
            apply length_zero_iff_nil in Hl, Hlp, Hll, Hlu.
            rewrite Hl, Hlp, Hll, Hlu. repeat split; constructor.
          - assert (Hx : forecast_models.XGBoostForecaster.fit_forecast
                           (counts (sort_values_date (to_frame historical)))
                           (S n) (2 # 10) = None)
              by (apply xgboost_fails_without_features; [assumption | lia | lia]).
            split; [eapply ensemble_forecast_ordered; eassumption|].
            eapply ensemble_forecast_points; eassumption. }
        destruct Hpts as (Hord & Hmaps).
        split; [exact Hl|]. split; [exact Hord|]. split.
        -- intros Hn. specialize (Hn eq_refl). discriminate Hn.
        -- intros _ r' Hr'. injection Hr' as <-. exact Hmaps.
      * apply well_formed_points; [exact Hl | now apply Hwf | now intros _].
    + destruct PROPHET_AVAILABLE; apply labelled_inv in H as (pts & Hp & E);
        injection E as -> -> -> -> -> ->.
      * apply prophet_forecast_shape in Hp as (Hl & Hwf).
        apply well_formed_points; [exact Hl | now apply Hwf | discriminate].
      * apply simple_forecast_shape in Hp as (Hl & Hwf & _).
        apply well_formed_points; [exact Hl | exact Hwf | discriminate].
  - destruct PROPHET_AVAILABLE; apply labelled_inv in H as (pts & Hp & E);
      injection E as -> -> -> -> -> ->.
    + apply prophet_forecast_shape in Hp as (Hl & Hwf).
      apply well_formed_points; [exact Hl | now apply Hwf | discriminate].
    + apply simple_forecast_shape in Hp as (Hl & Hwf & _).
      apply well_formed_points; [exact Hl | exact Hwf | discriminate].
  - apply labelled_inv in H as (pts & Hp & E); injection E as -> -> -> -> -> ->.
    apply prophet_forecast_shape in Hp as (Hl & Hwf).
    apply well_formed_points; [exact Hl | now apply Hwf | discriminate].
  - apply labelled_inv in H as (pts & Hp & E); injection E as -> -> -> -> -> ->.
    apply simple_forecast_shape in Hp as (Hl & Hwf & _).
    apply well_formed_points; [exact Hl | exact Hwf | discriminate].
Qed.


End ForecastPoints.

Lemma pessimistic_intervals_ordered : @prophet_intervals_ordered Fixtures.pessimistic.
Proof.
  intros P cfg df m periods row i HP Hfit Hrow.
  injection HP as <-. simpl in Hrow. injection Hrow as <-. simpl.
  split; discriminate.
Qed.

Lemma pessimistic_predicts_row_wise : @predicts_row_wise Fixtures.pessimistic.
Proof.
  intros X m df preds HX Hp. injection HX as <-. simpl in Hp.
  injection Hp as <-. apply repeat_length.
Qed.




(** C1. A successful call of [forecast_skill_demand] returns exactly
    [periods] points, and on every path the bounds of a point enclose its
    predicted count (Prophet's interval containing its estimate, the
    regressor predicting one value per row).  The predicted count is floored
    at zero on every path but one: on the ensemble path, when the combiner
    holds the seasonal result, each field of a point is the bare truncation
    of Prophet's value - int(yhat), int(yhat_lower), int(yhat_upper) - without
    the max(0, .) of the other producers, so an estimate of -1 or less comes
    back as a negative count. *)
Theorem C1_ensemble_point_is_not_floored
    (R : Runtime) (db : forecasting.Session) (skill_name : string)
    (periods : nat) (use_ensemble : bool)
    (skill : string) (hist : list forecasting.HistoryPoint)
    (forecast : list forecasting.ForecastPoint) (method : string)
    (periods' : nat) (confidence : Q) :
  forecasting.forecast_skill_demand db skill_name periods use_ensemble
  = Py.Ok (forecasting.Forecast skill hist forecast method periods' confidence) ->
  prophet_intervals_ordered -> predicts_row_wise ->
  let seasonal :=
    forecast_models.ProphetForecaster.fit_forecast
      (forecast_models.ProphetForecaster.Series
         (forecasting.counts
            (forecasting.sort_values_date (forecasting.to_frame hist)))) periods in
  length forecast = periods
  /\ Forall ordered forecast
  /\ ((method = "Ensemble (Prophet + XGBoost)"%string -> seasonal = None) ->
      Forall (fun p => 0 <= forecasting.predicted_count p) forecast)
  /\ (method = "Ensemble (Prophet + XGBoost)"%string ->
      forall r, seasonal = Some r ->
        map forecasting.predicted_count forecast
        = map Py.int (forecast_models.ProphetForecaster.predictions r)
        /\ map forecasting.lower_bound forecast
           = map Py.int (forecast_models.ProphetForecaster.lower r)
        /\ map forecasting.upper_bound forecast
           = map Py.int (forecast_models.ProphetForecaster.upper r)).
Proof.
  intros Hcall Hordered Hrows.
  apply (forecast_history_twelve skill_name
           (forecasting._get_skill_historical_data db skill_name 12)
           periods use_ensemble skill hist forecast method periods' confidence
           Hcall Hordered Hrows).
  rewrite history_length.
  destruct (forecasting.or0 (forecasting.count_job_skills db skill_name) =? 0)%nat; lia.
Qed.

Lemma C1_witness :
  let pt p lo hi :=
    {| forecasting.point_month := "2024-01"; forecasting.predicted_count := p;
       forecasting.lower_bound := lo; forecasting.upper_bound := hi |} in
  let pts := [pt (-5) (-10) 0; pt (-5) (-10) 0] in
  forecasting.forecast_skill_demand (R := Fixtures.pessimistic)
    (Fixtures.session 24) "python" 2 true
  = Py.Ok (forecasting.Forecast "python"
             (Fixtures.history_of [2; 2; 2; 2; 2; 2; 2; 2; 2; 2; 2; 2])
             pts "Ensemble (Prophet + XGBoost)" 2 97)
  /\ length pts = 2%nat
  /\ Forall ordered pts
  /\ map forecasting.predicted_count pts = [-5; -5]
  /\ ~ Forall (fun p => 0 <= forecasting.predicted_count p) pts.
Proof.
  intros pt pts.
  assert (Hcall :
    forecasting.forecast_skill_demand (R := Fixtures.pessimistic)
      (Fixtures.session 24) "python" 2 true
    = Py.Ok (forecasting.Forecast "python"
               (Fixtures.history_of [2; 2; 2; 2; 2; 2; 2; 2; 2; 2; 2; 2])
               pts "Ensemble (Prophet + XGBoost)" 2 97))
    by (vm_compute; reflexivity).
  pose proof (C1_ensemble_point_is_not_floored Fixtures.pessimistic
                (Fixtures.session 24) "python" 2 true "python"
                (Fixtures.history_of [2; 2; 2; 2; 2; 2; 2; 2; 2; 2; 2; 2])
                pts "Ensemble (Prophet + XGBoost)" 2 97
                Hcall pessimistic_intervals_ordered pessimistic_predicts_row_wise)
    as (Hlen & Hord & _ & Hpoints).
  assert (Hr : exists r,
    forecast_models.ProphetForecaster.fit_forecast (R := Fixtures.pessimistic)
      (forecast_models.ProphetForecaster.Series
         (forecasting.counts (R := Fixtures.pessimistic)
            (forecasting.sort_values_date (R := Fixtures.pessimistic)
               (forecasting.to_frame (R := Fixtures.pessimistic)
                  (Fixtures.history_of [2; 2; 2; 2; 2; 2; 2; 2; 2; 2; 2; 2]))))) 2
    = Some r
    /\ map Py.int (forecast_models.ProphetForecaster.predictions r) = [-5; -5])
    by (vm_compute; eexists; split; reflexivity).
  destruct Hr as (r & Hr & Hpreds).
  destruct (Hpoints eq_refl r Hr) as (Hpred & _). rewrite Hpreds in Hpred.
  split; [exact Hcall|]. split; [exact Hlen|]. split; [exact Hord|].
  split; [exact Hpred|].
  intros Hfloor. inversion Hfloor as [| p l Hp _]; subst.
  simpl in Hp. lia.
Defined.
